(** * Search index of the PDF annotator: a shallow embedding

    The development follows
    [backend/src/controllers/searchController.js],
    [backend/src/controllers/highlightController.js], the Mongoose models
    [SearchIndex], [Highlight], [PDF] and the search router; then the
    deletion of a PDF in the PDF controller and, on the side of the
    client, the search of [frontend/src/contexts/SearchContext.js].

    - JavaScript strings are modelled by [string]; the character classes
      (white space, word characters, letter case) are the ASCII ones.
    - The three MongoDB collections are lists in insertion order inside a
      [world]; every storage call is recorded in a journal and may fail.
      (The calls that only the highlight and PDF handlers issue are not
      journaled; a second oracle says which of them the store refuses.)
    - [async] code that can throw runs in a state-and-exception monad [M].
    - The regular-expression engines of MongoDB and of JavaScript are
      outside the repository: they are fields of an [Environment]. *)

From Stdlib Require Import String Ascii List Bool Arith ZArith Lia.
From Stdlib Require Import DecimalString.
Import ListNotations.

Local Open Scope string_scope.
Local Open Scope list_scope.
Local Open Scope nat_scope.

Infix "@@" := String.append (at level 60, right associativity).

(* ================================================================== *)
(** * JavaScript string primitives *)
(* ================================================================== *)

Module JS.

Definition code (c : ascii) : nat := nat_of_ascii c.

(** [\s] on ASCII: TAB, LF, VT, FF, CR and the space. *)
Definition isSpace (c : ascii) : bool :=
  ((9 <=? code c) && (code c <=? 13)) || (code c =? 32).

Definition isUpper (c : ascii) : bool := (65 <=? code c) && (code c <=? 90).
Definition isLower (c : ascii) : bool := (97 <=? code c) && (code c <=? 122).
Definition isDigit (c : ascii) : bool := (48 <=? code c) && (code c <=? 57).

(** [\w] is [[A-Za-z0-9_]]. *)
Definition isWord (c : ascii) : bool :=
  isUpper c || isLower c || isDigit c || (code c =? 95).

Definition lowerChar (c : ascii) : ascii :=
  if isUpper c then ascii_of_nat (code c + 32) else c.

(** [s.toLowerCase()] *)
Fixpoint toLowerCase (s : string) : string :=
  match s with
  | EmptyString => EmptyString
  | String c s' => String (lowerChar c) (toLowerCase s')
  end.

Fixpoint trimStart (s : string) : string :=
  match s with
  | EmptyString => EmptyString
  | String c s' => if isSpace c then trimStart s' else s
  end.

Fixpoint trimEnd (s : string) : string :=
  match s with
  | EmptyString => EmptyString
  | String c s' =>
      match trimEnd s' with
      | EmptyString => if isSpace c then EmptyString else String c EmptyString
      | r => String c r
      end
  end.

(** [s.trim()] *)
Definition trim (s : string) : string := trimEnd (trimStart s).

Fixpoint take (n : nat) (s : string) : string :=
  match n, s with
  | S n', String c s' => String c (take n' s')
  | _, _ => EmptyString
  end.

Fixpoint drop (n : nat) (s : string) : string :=
  match n, s with
  | S n', String _ s' => drop n' s'
  | _, _ => s
  end.

(** [s.split(sep)] for a one-character separator: the fields between
    the separators, empty fields included; never the empty list. *)
Fixpoint split (sep : ascii) (s : string) : list string :=
  match s with
  | EmptyString => [EmptyString]
  | String c s' =>
      if Ascii.eqb c sep then EmptyString :: split sep s'
      else match split sep s' with
           | w :: ws => String c w :: ws
           | [] => [String c EmptyString]
           end
  end.

(** [s.split(/\s+/)]: the fields between maximal runs of white space.
    [inRun] tells that the previous character was white space. *)
Fixpoint splitRuns (inRun : bool) (s : string) : list string :=
  match s with
  | EmptyString => [EmptyString]
  | String c s' =>
      if isSpace c then
        if inRun then splitRuns true s' else EmptyString :: splitRuns true s'
      else match splitRuns false s' with
           | w :: ws => String c w :: ws
           | [] => [String c EmptyString]
           end
  end.

Definition splitWhitespace (s : string) : list string := splitRuns false s.

(** [s.replace(/[^\w]/g, '')] *)
Fixpoint stripNonWord (s : string) : string :=
  match s with
  | EmptyString => EmptyString
  | String c s' => if isWord c then String c (stripNonWord s') else stripNonWord s'
  end.

(** [s.startsWith(p)] *)
Fixpoint startsWith (s p : string) : bool :=
  match p, s with
  | EmptyString, _ => true
  | String a p', String b s' => Ascii.eqb a b && startsWith s' p'
  | String _ _, EmptyString => false
  end.

(** [new Set(xs)] spread back into an array: first occurrences, in order. *)
Fixpoint distinct (seen xs : list string) : list string :=
  match xs with
  | [] => []
  | x :: xs' =>
      if existsb (String.eqb x) seen then distinct seen xs'
      else x :: distinct (x :: seen) xs'
  end.

End JS.

(* ================================================================== *)
(** * Regular expressions: the fragment the examples need *)
(* ================================================================== *)

Module Regex.

(** Characters with a meaning of their own in a pattern. *)
Definition isMeta (c : ascii) : bool :=
  existsb (Ascii.eqb c)
    ["\"%char; "^"%char; "$"%char; "."%char; "|"%char; "?"%char; "*"%char;
     "+"%char; "("%char; ")"%char; "["%char; "]"%char; "{"%char; "}"%char].

Fixpoint isLiteral (p : string) : bool :=
  match p with
  | EmptyString => true
  | String c p' => negb (isMeta c) && isLiteral p'
  end.

Definition ciChar (a b : ascii) : bool :=
  Ascii.eqb (JS.lowerChar a) (JS.lowerChar b).

(** The literal pattern [t] matches at the start of [s], letter case
    ignored (flag [i]). *)
Fixpoint ciPrefix (t s : string) : bool :=
  match t, s with
  | EmptyString, _ => true
  | String a t', String b s' => ciChar a b && ciPrefix t' s'
  | String _ _, EmptyString => false
  end.

(** Some position of [s] starts a match of the literal [t]. *)
Fixpoint ciOccurs (t s : string) : bool :=
  ciPrefix t s ||
  match s with
  | EmptyString => false
  | String _ s' => ciOccurs t s'
  end.

(** [s.replace(new RegExp('(' + t + ')', 'gi'), '<mark>$1</mark>')] for a
    literal, non-empty [t]: scan from the left; at a match emit the
    matched text between the markers and resume after it, otherwise
    copy one character.  [fuel] bounds the number of steps. *)
Fixpoint markFrom (fuel : nat) (t s : string) : string :=
  match fuel, s with
  | S fuel', String c s' =>
      if ciPrefix t s
      then "<mark>" @@ JS.take (String.length t) s @@ "</mark>"
             @@ markFrom fuel' t (JS.drop (String.length t) s)
      else String c (markFrom fuel' t s')
  | _, _ => s
  end.

Definition markAll (t s : string) : string := markFrom (String.length s) t s.

(** Patterns made of ordinary characters and [.] (any character but a
    line terminator). *)
Inductive atom := Lit (c : ascii) | AnyChar.

Fixpoint parse (p : string) : option (list atom) :=
  match p with
  | EmptyString => Some []
  | String c p' =>
      match parse p' with
      | None => None
      | Some r =>
          if Ascii.eqb c "."%char then Some (AnyChar :: r)
          else if isMeta c then None
          else Some (Lit c :: r)
      end
  end.

Definition isLineEnd (c : ascii) : bool :=
  (JS.code c =? 10) || (JS.code c =? 13).

Definition atomMatches (a : atom) (c : ascii) : bool :=
  match a with
  | Lit l => ciChar l c
  | AnyChar => negb (isLineEnd c)
  end.

Fixpoint atomsPrefix (r : list atom) (s : string) : bool :=
  match r, s with
  | [], _ => true
  | a :: r', String c s' => atomMatches a c && atomsPrefix r' s'
  | _ :: _, EmptyString => false
  end.

Fixpoint atomsOccur (r : list atom) (s : string) : bool :=
  atomsPrefix r s ||
  match s with
  | EmptyString => false
  | String _ s' => atomsOccur r s'
  end.

(** The global replacement for a non-empty pattern of atoms. *)
Fixpoint markAtomsFrom (fuel : nat) (r : list atom) (s : string) : string :=
  match fuel, s with
  | S fuel', String c s' =>
      if atomsPrefix r s
      then "<mark>" @@ JS.take (List.length r) s @@ "</mark>"
             @@ markAtomsFrom fuel' r (JS.drop (List.length r) s)
      else String c (markAtomsFrom fuel' r s')
  | _, _ => s
  end.

Definition markAtoms (r : list atom) (s : string) : string :=
  markAtomsFrom (String.length s) r s.

End Regex.

(* ================================================================== *)
(** * Data model: the Mongoose schemas *)
(* ================================================================== *)

(** [mongoose.Schema.Types.ObjectId] of a user. *)
Definition UserId := nat.

(** [enum: ['pdf_text', 'annotation']] *)
Inductive ContentType := pdf_text | annotation.

Definition contentTypeName (k : ContentType) : string :=
  match k with
  | pdf_text => "pdf_text"
  | annotation => "annotation"
  end.

Definition ContentType_eqb (a b : ContentType) : bool :=
  match a, b with
  | pdf_text, pdf_text | annotation, annotation => true
  | _, _ => false
  end.

Record Position := { x : Z; y : Z; width : Z; height : Z }.

(** A condition on a string field: equality, or [{ $in: [...] }]. *)
Inductive cond := Is (v : string) | Among (vs : list string).

Definition condHolds (c : cond) (v : string) : bool :=
  match c with
  | Is w => String.eqb w v
  | Among ws => existsb (String.eqb v) ws
  end.

Definition optHolds {A} (c : option A) (test : A -> bool) : bool :=
  match c with
  | None => true
  | Some a => test a
  end.

(** models/SearchIndex.js *)
Module SearchIndex.

Record doc := {
  _id : nat;
  pdfUuid : string;
  userId : UserId;
  pageNumber : nat;
  content : string;
  contentType : ContentType;
  position : option Position;
  highlightId : option string;       (* sparse: only for annotations *)
  createdAt : nat                    (* timestamps: true *)
}.

(** The object handed to [create] / [insertMany]; the store adds
    [_id] and [createdAt]. *)
Record fresh := {
  new_pdfUuid : string;
  new_userId : UserId;
  new_pageNumber : nat;
  new_content : string;
  new_contentType : ContentType;
  new_position : option Position;
  new_highlightId : option string
}.

Definition stamp (id now : nat) (f : fresh) : doc :=
  {| _id := id; pdfUuid := new_pdfUuid f; userId := new_userId f;
     pageNumber := new_pageNumber f; content := new_content f;
     contentType := new_contentType f; position := new_position f;
     highlightId := new_highlightId f; createdAt := now |}.

(** A query filter: an absent key puts no condition. *)
Record filter := {
  q_userId : option UserId;
  q_content : option string;                   (* { $regex, $options: 'i' } *)
  q_pdfUuid : option cond;
  q_contentType : option cond;
  q_createdAt : option (option nat * option nat);  (* { $gte, $lte } *)
  q_pageNumber : option nat;
  q_highlightId : option string
}.

(** Does [d] satisfy [f]?  [re] is the compiled [$regex] (if any). *)
Definition holds (re : string -> bool) (f : filter) (d : doc) : bool :=
  optHolds (q_userId f) (fun u => u =? userId d)
  && optHolds (q_content f) (fun _ => re (content d))
  && optHolds (q_pdfUuid f) (fun c => condHolds c (pdfUuid d))
  && optHolds (q_contentType f) (fun c => condHolds c (contentTypeName (contentType d)))
  && optHolds (q_createdAt f)
       (fun r => optHolds (fst r) (fun lo => lo <=? createdAt d)
                 && optHolds (snd r) (fun hi => createdAt d <=? hi))
  && optHolds (q_pageNumber f) (fun n => n =? pageNumber d)
  && optHolds (q_highlightId f)
       (fun h => match highlightId d with
                 | Some h' => String.eqb h h'
                 | None => false
                 end).

(** [.sort({ createdAt: -1 })]: newest first, ties in storage order. *)
Fixpoint insertNewest (d : doc) (l : list doc) : list doc :=
  match l with
  | [] => [d]
  | e :: l' => if createdAt e <=? createdAt d then d :: l else e :: insertNewest d l'
  end.

Definition newestFirst (l : list doc) : list doc := fold_right insertNewest [] l.

(** [.limit(n)]: MongoDB reads a limit of 0 as no limit. *)
Definition limitTo (n : nat) (l : list doc) : list doc :=
  if n =? 0 then l else firstn n l.

(** Cursor options of a [find]. *)
Record cursor := { sortNewest : bool; skip : Z; limit : nat }.

Definition page (c : cursor) (l : list doc) : list doc :=
  limitTo (limit c) (skipn (Z.to_nat (skip c)) (if sortNewest c then newestFirst l else l)).

(** [deleteOne]: the first document the filter selects. *)
Fixpoint removeFirst (p : doc -> bool) (l : list doc) : list doc :=
  match l with
  | [] => []
  | d :: l' => if p d then l' else d :: removeFirst p l'
  end.

End SearchIndex.

(** models/Highlight.js *)
Module Highlight.

Record BoundingBox := { left : Z; top : Z; right : Z; bottom : Z }.

Record doc := {
  uuid : string;
  pdfUuid : string;
  userId : UserId;
  pageNumber : nat;
  highlightedText : string;
  position : Position;
  boundingBox : BoundingBox;
  color : string
}.

Record filter := { q_uuid : option string; q_userId : option UserId }.

Definition holds (f : filter) (d : doc) : bool :=
  optHolds (q_uuid f) (fun u => String.eqb u (uuid d))
  && optHolds (q_userId f) (fun u => u =? userId d).

Fixpoint removeFirst (p : doc -> bool) (l : list doc) : list doc :=
  match l with
  | [] => []
  | d :: l' => if p d then l' else d :: removeFirst p l'
  end.

End Highlight.

(** models/PDF.js: the fields the search code reads. *)
Module PDF.

Record doc := { uuid : string; originalName : string; userId : UserId }.

Record filter := { q_uuid : option cond; q_userId : option UserId }.

Definition holds (f : filter) (d : doc) : bool :=
  optHolds (q_uuid f) (fun c => condHolds c (uuid d))
  && optHolds (q_userId f) (fun u => u =? userId d).

End PDF.

(* ================================================================== *)
(** * The store, its calls and their failures *)
(* ================================================================== *)

(** One entry per call issued to the database. *)
Inductive call :=
| SearchIndex_countDocuments (f : SearchIndex.filter)
| SearchIndex_find (f : SearchIndex.filter) (c : SearchIndex.cursor)
| SearchIndex_findOne (f : SearchIndex.filter)
| SearchIndex_create (d : SearchIndex.fresh)
| SearchIndex_insertMany (ds : list SearchIndex.fresh)
| SearchIndex_deleteOne (f : SearchIndex.filter)
| Highlight_find (f : Highlight.filter)
| Highlight_findOneAndDelete (f : Highlight.filter)
| PDF_find (f : PDF.filter)
| PDF_findOne (f : PDF.filter).

(** The owner a call is scoped to: the [userId] key of its filter, or of
    every document it writes. *)
Definition callScope (c : call) : list (option UserId) :=
  match c with
  | SearchIndex_countDocuments f | SearchIndex_find f _
  | SearchIndex_findOne f | SearchIndex_deleteOne f => [SearchIndex.q_userId f]
  | SearchIndex_create d => [Some (SearchIndex.new_userId d)]
  | SearchIndex_insertMany ds => map (fun d => Some (SearchIndex.new_userId d)) ds
  | Highlight_find f | Highlight_findOneAndDelete f => [Highlight.q_userId f]
  | PDF_find f | PDF_findOne f => [PDF.q_userId f]
  end.

(** A call that reads the [content] of index entries. *)
Definition isContentQuery (c : call) : bool :=
  match c with
  | SearchIndex_find f _ | SearchIndex_countDocuments f
  | SearchIndex_findOne f | SearchIndex_deleteOne f =>
      match SearchIndex.q_content f with Some _ => true | None => false end
  | _ => false
  end.

Record world := {
  searchIndex : list SearchIndex.doc;
  highlights : list Highlight.doc;
  pdfs : list PDF.doc;
  nextId : nat;              (* next [_id] the store hands out *)
  now : nat;                 (* clock behind [createdAt] *)
  journal : list call        (* calls issued so far, oldest first *)
}.

Definition withIndex (w : world) (l : list SearchIndex.doc) : world :=
  {| searchIndex := l; highlights := highlights w; pdfs := pdfs w;
     nextId := nextId w; now := now w; journal := journal w |}.

Definition withHighlights (w : world) (l : list Highlight.doc) : world :=
  {| searchIndex := searchIndex w; highlights := l; pdfs := pdfs w;
     nextId := nextId w; now := now w; journal := journal w |}.

Definition record (c : call) (w : world) : world :=
  {| searchIndex := searchIndex w; highlights := highlights w; pdfs := pdfs w;
     nextId := nextId w; now := now w; journal := journal w ++ [c] |}.

Inductive exn :=
| StorageError     (* the database call failed *)
| TypeError        (* property read on [undefined] / [null] *)
| SyntaxError.     (* [new RegExp] on an invalid pattern *)

Definition exnMessage (e : exn) : string :=
  match e with
  | StorageError => "storage error"
  | TypeError => "Cannot read properties of undefined"
  | SyntaxError => "Invalid regular expression"
  end.

Inductive outcome (A : Type) :=
| Ok (a : A)
| Throw (e : exn).
Arguments Ok {A} a.
Arguments Throw {A} e.

(** What lies outside the repository. *)
Record Environment := {
  (** the [n]-th call of the journal fails (connection, validation, ...) *)
  faulty : nat -> call -> bool;
  (** MongoDB's [$regex] with [$options: 'i']: [None] for a pattern the
      server rejects, otherwise the test "some part of the subject matches" *)
  mongoRegex : string -> option (string -> bool);
  (** [text.replace(new RegExp('(' + term + ')', 'gi'), '<mark>$1</mark>')]:
      [None] when the constructor throws *)
  markRegExp : string -> option (string -> string)
}.

(** Computations over the world that may throw. *)
Definition M (A : Type) : Type := world -> outcome A * world.

Definition ret {A} (a : A) : M A := fun w => (Ok a, w).

Definition bind {A B} (m : M A) (k : A -> M B) : M B :=
  fun w => match m w with
           | (Ok a, w') => k a w'
           | (Throw e, w') => (Throw e, w')
           end.

Definition throw {A} (e : exn) : M A := fun w => (Throw e, w).

(** [try { m } catch (error) { handler(error) }] *)
Definition tryCatch {A} (m : M A) (handler : exn -> M A) : M A :=
  fun w => match m w with
           | (Ok a, w') => (Ok a, w')
           | (Throw e, w') => handler e w'
           end.

Definition liftOutcome {A} (o : outcome A) : M A := fun w => (o, w).

Notation "x <- m ;; k" := (bind m (fun x => k))
  (at level 61, m at next level, right associativity).
Notation "m ;;; k" := (bind m (fun _ => k))
  (at level 61, right associativity).

(** [for (const x of xs) { await body(x) }] *)
Fixpoint forOf {A} (xs : list A) (body : A -> M unit) : M unit :=
  match xs with
  | [] => ret tt
  | x :: xs' => body x ;;; forOf xs' body
  end.

(** The collections' operations, as Mongoose exposes them. *)
Module Db.
Section Db.

Variable E : Environment.

(** Every call is journaled first and fails when the environment says so. *)
Definition issue (c : call) : M unit :=
  fun w =>
    if faulty E (length (journal w)) c
    then (Throw StorageError, record c w)
    else (Ok tt, record c w).

(** The predicate behind a filter; a [$regex] the server rejects fails
    the call. *)
Definition compile (f : SearchIndex.filter) : outcome (SearchIndex.doc -> bool) :=
  match SearchIndex.q_content f with
  | None => Ok (SearchIndex.holds (fun _ => true) f)
  | Some pattern =>
      match mongoRegex E pattern with
      | Some re => Ok (SearchIndex.holds re f)
      | None => Throw StorageError
      end
  end.

Definition countDocuments (f : SearchIndex.filter) : M nat :=
  issue (SearchIndex_countDocuments f) ;;;
  p <- liftOutcome (compile f) ;;
  fun w => (Ok (length (filter p (searchIndex w))), w).

Definition find (f : SearchIndex.filter) (c : SearchIndex.cursor)
  : M (list SearchIndex.doc) :=
  issue (SearchIndex_find f c) ;;;
  p <- liftOutcome (compile f) ;;
  if (SearchIndex.skip c <? 0)%Z then throw StorageError
  else fun w => (Ok (SearchIndex.page c (filter p (searchIndex w))), w).

Definition findOne (f : SearchIndex.filter) : M (option SearchIndex.doc) :=
  issue (SearchIndex_findOne f) ;;;
  p <- liftOutcome (compile f) ;;
  fun w => (Ok (List.find p (searchIndex w)), w).

Definition store (d : SearchIndex.fresh) (w : world) : world :=
  {| searchIndex := searchIndex w ++ [SearchIndex.stamp (nextId w) (now w) d];
     highlights := highlights w; pdfs := pdfs w;
     nextId := S (nextId w); now := S (now w); journal := journal w |}.

Definition create (d : SearchIndex.fresh) : M unit :=
  issue (SearchIndex_create d) ;;;
  fun w => (Ok tt, store d w).

Definition insertMany (ds : list SearchIndex.fresh) : M unit :=
  issue (SearchIndex_insertMany ds) ;;;
  fun w => (Ok tt, fold_left (fun w' d => store d w') ds w).

Definition deleteOne (f : SearchIndex.filter) : M unit :=
  issue (SearchIndex_deleteOne f) ;;;
  p <- liftOutcome (compile f) ;;
  fun w => (Ok tt, withIndex w (SearchIndex.removeFirst p (searchIndex w))).

Definition findHighlights (f : Highlight.filter) : M (list Highlight.doc) :=
  issue (Highlight_find f) ;;;
  fun w => (Ok (filter (Highlight.holds f) (highlights w)), w).

Definition findOneAndDeleteHighlight (f : Highlight.filter)
  : M (option Highlight.doc) :=
  issue (Highlight_findOneAndDelete f) ;;;
  fun w => (Ok (List.find (Highlight.holds f) (highlights w)),
            withHighlights w (Highlight.removeFirst (Highlight.holds f) (highlights w))).

Definition findPDFs (f : PDF.filter) : M (list PDF.doc) :=
  issue (PDF_find f) ;;;
  fun w => (Ok (filter (PDF.holds f) (pdfs w)), w).

Definition findOnePDF (f : PDF.filter) : M (option PDF.doc) :=
  issue (PDF_findOne f) ;;;
  fun w => (Ok (List.find (PDF.holds f) (pdfs w)), w).

End Db.
End Db.

(* ================================================================== *)
(** * Express: requests and responses *)
(* ================================================================== *)

(** One formatted search result. *)
Record Result := {
  r_id : nat;
  r_pdfUuid : string;
  r_pdfName : string;
  r_pageNumber : nat;
  r_content : string;
  r_highlightedContent : string;
  r_contentType : ContentType;
  r_score : nat;
  r_highlightId : option string;
  r_position : option Position;
  r_createdAt : nat
}.

(** [pages] is [None] when [Math.ceil] yields no finite number. *)
Record Pagination := { total : nat; pages : option nat; current : nat }.

Record Suggestion := { text : string; count : nat }.

Inductive value :=
| VStr (s : string)
| VBool (b : bool)
| VNat (n : nat)
| VResults (rs : list Result)
| VPagination (p : Pagination)
| VSuggestions (ss : list Suggestion).

(** A JSON object: its keys in the order they are written. *)
Definition Body := list (string * value).

Fixpoint field (key : string) (b : Body) : option value :=
  match b with
  | [] => None
  | (k, v) :: b' => if String.eqb key k then Some v else field key b'
  end.

(** What a handler leaves to Express: [res.status(n).json(body)]
    ([res.json] is status 200), or [next(error)]. *)
Inductive reply :=
| Json (status : nat) (body : Body)
| Next (error : exn).

Definition statusOf (r : reply) : option nat :=
  match r with
  | Json s _ => Some s
  | Next _ => None
  end.

Definition bodyOf (r : reply) : Body :=
  match r with
  | Json _ b => b
  | Next _ => []
  end.

(** The results a reply carries. *)
Definition resultsOf (r : reply) : list Result :=
  match field "results" (bodyOf r) with
  | Some (VResults rs) => rs
  | _ => []
  end.

Definition suggestionsOf (r : reply) : list Suggestion :=
  match field "suggestions" (bodyOf r) with
  | Some (VSuggestions ss) => ss
  | _ => []
  end.

(** A handler whose whole body sits in [try { ... } catch (error) { ... }]. *)
Definition handler (body : M reply) (onError : exn -> reply) : world -> reply * world :=
  fun w => match body w with
           | (Ok r, w') => (r, w')
           | (Throw e, w') => (onError e, w')
           end.

(** The value of [this] inside a method: the controller when the method
    is called on it, [undefined] when the function is called on its own
    (class bodies are strict code). *)
Inductive receiver := ThisUndefined | ThisController.

(** [this.method(...)] *)
Definition viaThis {A} (this : receiver) (method : M A) : M A :=
  match this with
  | ThisUndefined => throw TypeError
  | ThisController => method
  end.

Module Req.

(** [req.query] of GET /search *)
Record search := {
  s_query : option string;
  s_pdfUuid : option string;
  s_contentType : option string
}.

(** [req.body] of the advanced search *)
Record advanced := {
  a_query : option string;
  a_pdfUuids : option (list string);
  a_contentTypes : option (list string);
  a_dateFrom : option nat;          (* the instant [new Date(dateFrom)] *)
  a_dateTo : option nat;
  a_pageNumber : option nat;
  a_fuzzy : option bool;
  a_page : option nat;
  a_limit : option nat
}.

End Req.

(** Destructuring default: [{ key = d } = obj]. *)
Definition orDefault {A} (d : A) (o : option A) : A :=
  match o with
  | Some a => a
  | None => d
  end.

(** [Math.ceil(n / d)]; no finite number for [d = 0]. *)
Definition ceilDiv (n d : nat) : option nat :=
  if d =? 0 then None else Some ((n + d - 1) / d).

(** Two calls started together with [Promise.all]: both are issued, the
    first failure wins. *)
Definition promiseAll {A B} (m1 : M A) (m2 : M B) : M (A * B) :=
  fun w =>
    let (o1, w1) := m1 w in
    let (o2, w2) := m2 w1 in
    (match o1, o2 with
     | Ok a, Ok b => Ok (a, b)
     | Throw e, _ => Throw e
     | Ok _, Throw e => Throw e
     end, w2).

(* ================================================================== *)
(** * controllers/searchController.js *)
(* ================================================================== *)

Module SearchController.
Section SearchController.

Variable E : Environment.

(** function highlightSearchTerms(content, query) *)
Definition highlightSearchTerms (content query : string) : outcome string :=
  let terms := filter (fun term => 1 <? String.length term) (JS.split " " query) in
  fold_left
    (fun highlighted term =>
       match highlighted with
       | Throw e => Throw e
       | Ok text =>
           match markRegExp E term with
           | Some replace => Ok (replace text)
           | None => Throw SyntaxError
           end
       end)
    terms (Ok content).

Definition emptyPagination : Pagination :=
  {| total := 0; pages := Some 0; current := 1 |}.

Definition invalidQuery : reply :=
  Json 400 [("error", VStr "Search query must be at least 2 characters");
            ("results", VResults []);
            ("pagination", VPagination emptyPagination)].

(** [pdfMap[key]] of an object built by assignments, newest first. *)
Fixpoint lookup (key : string) (pdfMap : list (string * string)) : option string :=
  match pdfMap with
  | [] => None
  | (k, v) :: m => if String.eqb key k then Some v else lookup key m
  end.

(** [pdfMap[uuid] || 'Unknown PDF'] *)
Definition pdfNameOf (pdfMap : list (string * string)) (uuid : string) : string :=
  match lookup uuid pdfMap with
  | Some EmptyString | None => "Unknown PDF"
  | Some name => name
  end.

(** The PDF names of a result page: one scoped lookup; if it fails every
    uuid is mapped to 'Unknown PDF'. *)
Definition resolveNames (user : UserId) (pdfUuids : list string)
  : M (list (string * string)) :=
  if 0 <? length pdfUuids then
    tryCatch
      (pdfs <- Db.findPDFs E {| PDF.q_uuid := Some (Among pdfUuids);
                                PDF.q_userId := Some user |} ;;
       ret (fold_left (fun pdfMap pdf => (PDF.uuid pdf, PDF.originalName pdf) :: pdfMap)
                      pdfs []))
      (fun _ =>
         ret (fold_left (fun pdfMap uuid => (uuid, "Unknown PDF") :: pdfMap)
                        pdfUuids []))
  else ret [].

Definition formatResult (pdfMap : list (string * string)) (query : string)
           (result : SearchIndex.doc) : outcome Result :=
  match highlightSearchTerms (SearchIndex.content result) query with
  | Throw e => Throw e
  | Ok highlightedContent =>
      Ok {| r_id := SearchIndex._id result;
            r_pdfUuid := SearchIndex.pdfUuid result;
            r_pdfName := pdfNameOf pdfMap (SearchIndex.pdfUuid result);
            r_pageNumber := SearchIndex.pageNumber result;
            r_content := SearchIndex.content result;
            r_highlightedContent := highlightedContent;
            r_contentType := SearchIndex.contentType result;
            r_score := 1;
            r_highlightId := SearchIndex.highlightId result;
            r_position := SearchIndex.position result;
            r_createdAt := SearchIndex.createdAt result |}
  end.

(** [results.map(f)] for an [f] that may throw. *)
Fixpoint mapOutcome {A B} (f : A -> outcome B) (l : list A) : outcome (list B) :=
  match l with
  | [] => Ok []
  | a :: l' =>
      match f a with
      | Throw e => Throw e
      | Ok b => match mapOutcome f l' with
                | Throw e => Throw e
                | Ok bs => Ok (b :: bs)
                end
      end
  end.

Definition annotationEntry (highlight : Highlight.doc) (userId : UserId)
  : SearchIndex.fresh :=
  {| SearchIndex.new_pdfUuid := Highlight.pdfUuid highlight;
     SearchIndex.new_userId := userId;
     SearchIndex.new_pageNumber := Highlight.pageNumber highlight;
     SearchIndex.new_content := Highlight.highlightedText highlight;
     SearchIndex.new_contentType := annotation;
     SearchIndex.new_position := Some (Highlight.position highlight);
     SearchIndex.new_highlightId := Some (Highlight.uuid highlight) |}.

Definition byHighlight (highlightId : string) (userId : UserId) : SearchIndex.filter :=
  {| SearchIndex.q_userId := Some userId; SearchIndex.q_content := None;
     SearchIndex.q_pdfUuid := None; SearchIndex.q_contentType := None;
     SearchIndex.q_createdAt := None; SearchIndex.q_pageNumber := None;
     SearchIndex.q_highlightId := Some highlightId |}.

Definition byOwner (userId : UserId) : SearchIndex.filter :=
  {| SearchIndex.q_userId := Some userId; SearchIndex.q_content := None;
     SearchIndex.q_pdfUuid := None; SearchIndex.q_contentType := None;
     SearchIndex.q_createdAt := None; SearchIndex.q_pageNumber := None;
     SearchIndex.q_highlightId := None |}.

(** async autoIndexHighlights(userId): one [try] around the whole loop. *)
Definition autoIndexHighlights (userId : UserId) : M unit :=
  tryCatch
    (highlights <- Db.findHighlights E {| Highlight.q_uuid := None;
                                          Highlight.q_userId := Some userId |} ;;
     forOf highlights
       (fun highlight =>
          existing <- Db.findOne E (byHighlight (Highlight.uuid highlight) userId) ;;
          match existing with
          | Some _ => ret tt
          | None => Db.create E (annotationEntry highlight userId)
          end))
    (fun _ => ret tt).

(** async search(req, res, next) *)
Definition search (this : receiver) (user : UserId) (req : Req.search)
  : world -> reply * world :=
  handler
    (let contentType := orDefault "all" (Req.s_contentType req) in
     match Req.s_query req with
     | None => ret invalidQuery
     | Some query =>
         if String.eqb query "" || (String.length (JS.trim query) <? 2)
         then ret invalidQuery
         else
           totalIndexCount <- Db.countDocuments E (byOwner user) ;;
           if totalIndexCount =? 0 then
             viaThis this (autoIndexHighlights user) ;;;
             ret (Json 200
                    [("results", VResults []);
                     ("pagination", VPagination emptyPagination);
                     ("message", VStr "No content indexed yet. Please create some highlights or upload PDFs to search.");
                     ("needsIndexing", VBool true)])
           else
             let searchFilter :=
               {| SearchIndex.q_userId := Some user;
                  SearchIndex.q_content := Some query;
                  SearchIndex.q_pdfUuid :=
                    match Req.s_pdfUuid req with
                    | Some EmptyString | None => None
                    | Some pdfUuid => Some (Is pdfUuid)
                    end;
                  SearchIndex.q_contentType :=
                    if String.eqb contentType "all" then None else Some (Is contentType);
                  SearchIndex.q_createdAt := None;
                  SearchIndex.q_pageNumber := None;
                  SearchIndex.q_highlightId := None |} in
             results <- Db.find E searchFilter
                          {| SearchIndex.sortNewest := true; SearchIndex.skip := 0%Z;
                             SearchIndex.limit := 20 |} ;;
             let pdfUuids := JS.distinct [] (map SearchIndex.pdfUuid results) in
             pdfMap <- resolveNames user pdfUuids ;;
             formattedResults <- liftOutcome (mapOutcome (formatResult pdfMap query) results) ;;
             ret (Json 200
                    [("results", VResults formattedResults);
                     ("pagination",
                      VPagination {| current := 1;
                                     pages := ceilDiv (length results) 20;
                                     total := length results |});
                     ("query", VStr query)])
     end)
    (fun error =>
       Json 500 [("error", VStr "Search failed");
                 ("message", VStr (exnMessage error));
                 ("results", VResults []);
                 ("pagination", VPagination emptyPagination)]).

(** The words a unit contributes to the suggestions. *)
Definition completions (queryLower content : string) : list string :=
  filter
    (fun cleanWord =>
       JS.startsWith cleanWord queryLower
       && (String.length queryLower <? String.length cleanWord))
    (map (fun word => JS.toLowerCase (JS.stripNonWord word))
         (JS.splitWhitespace content)).

(** async getSuggestions(req, res, next) *)
Definition getSuggestions (user : UserId) (query : option string)
  : world -> reply * world :=
  handler
    (match query with
     | None => ret (Json 200 [("suggestions", VSuggestions [])])
     | Some query =>
         if String.eqb query "" || (String.length query <? 2)
         then ret (Json 200 [("suggestions", VSuggestions [])])
         else
           results <- Db.find E
                        {| SearchIndex.q_userId := Some user;
                           SearchIndex.q_content := Some query;
                           SearchIndex.q_pdfUuid := None;
                           SearchIndex.q_contentType := None;
                           SearchIndex.q_createdAt := None;
                           SearchIndex.q_pageNumber := None;
                           SearchIndex.q_highlightId := None |}
                        {| SearchIndex.sortNewest := false; SearchIndex.skip := 0%Z;
                           SearchIndex.limit := 5 |} ;;
           let queryLower := JS.toLowerCase query in
           let suggestions :=
             JS.distinct []
               (flat_map (fun result => completions queryLower (SearchIndex.content result))
                         results) in
           let suggestionArray :=
             map (fun text => {| text := text; count := 1 |}) (firstn 5 suggestions) in
           ret (Json 200 [("suggestions", VSuggestions suggestionArray)])
     end)
    (fun _ => Json 200 [("suggestions", VSuggestions [])]).

Definition dummyContent : list string :=
  ["This is sample PDF content for testing search functionality. Job opportunities and career development.";
   "Important documents and annotations for review. Professional development and skills.";
   "Sample text content that can be searched and highlighted. Employment and work-related information.";
   "Additional content for comprehensive search testing. Business and professional topics."].

(** [dummyContent.map((content, index) => ...)] *)
Fixpoint indexEntries (uuid : string) (user : UserId) (index : nat)
         (contents : list string) : list SearchIndex.fresh :=
  match contents with
  | [] => []
  | content :: rest =>
      {| SearchIndex.new_pdfUuid := uuid;
         SearchIndex.new_userId := user;
         SearchIndex.new_pageNumber := index + 1;
         SearchIndex.new_content := content;
         SearchIndex.new_contentType := pdf_text;
         SearchIndex.new_position := None;
         SearchIndex.new_highlightId := None |}
      :: indexEntries uuid user (S index) rest
  end.

(** async indexPdf(req, res, next) *)
Definition indexPdf (user : UserId) (uuid : string) : world -> reply * world :=
  handler
    (pdfDoc <- Db.findOnePDF E {| PDF.q_uuid := Some (Is uuid);
                                  PDF.q_userId := Some user |} ;;
     match pdfDoc with
     | None => ret (Json 404 [("error", VStr "PDF not found")])
     | Some _ =>
         existingIndex <-
           Db.findOne E
             {| SearchIndex.q_userId := Some user; SearchIndex.q_content := None;
                SearchIndex.q_pdfUuid := Some (Is uuid);
                SearchIndex.q_contentType := Some (Is "pdf_text");
                SearchIndex.q_createdAt := None; SearchIndex.q_pageNumber := None;
                SearchIndex.q_highlightId := None |} ;;
         match existingIndex with
         | Some _ =>
             ret (Json 200 [("message", VStr "PDF already indexed");
                            ("indexed", VBool true)])
         | None =>
             let entries := indexEntries uuid user 0 dummyContent in
             Db.insertMany E entries ;;;
             ret (Json 200 [("message", VStr "PDF indexed successfully");
                            ("indexed", VBool true);
                            ("pagesIndexed", VNat (length entries))])
         end
     end)
    (fun _ => Json 500 [("error", VStr "Failed to index PDF")]).

(** async indexHighlight(highlightData, userId) *)
Definition indexHighlight (highlightData : Highlight.doc) (userId : UserId) : M unit :=
  tryCatch
    (existing <- Db.findOne E (byHighlight (Highlight.uuid highlightData) userId) ;;
     match existing with
     | Some _ => ret tt
     | None => Db.create E (annotationEntry highlightData userId)
     end)
    (fun _ => ret tt).

(** async removeHighlightIndex(highlightId, userId) *)
Definition removeHighlightIndex (highlightId : string) (userId : UserId) : M unit :=
  tryCatch
    (Db.deleteOne E (byHighlight highlightId userId))
    (fun _ => ret tt).

(** async advancedSearch(req, res, next) *)
Definition advancedSearch (user : UserId) (req : Req.advanced)
  : world -> reply * world :=
  handler
    (let pdfUuids := orDefault [] (Req.a_pdfUuids req) in
     let contentTypes := orDefault ["all"] (Req.a_contentTypes req) in
     let fuzzy := orDefault false (Req.a_fuzzy req) in
     let page := orDefault 1 (Req.a_page req) in
     let limit := orDefault 20 (Req.a_limit req) in
     match Req.a_query req with
     | None => ret invalidQuery
     | Some query =>
         if String.eqb query "" || (String.length (JS.trim query) <? 2)
         then ret invalidQuery
         else
           let searchFilter :=
             {| SearchIndex.q_userId := Some user;
                SearchIndex.q_content := Some query;
                SearchIndex.q_pdfUuid :=
                  if 0 <? length pdfUuids then Some (Among pdfUuids) else None;
                SearchIndex.q_contentType :=
                  if existsb (String.eqb "all") contentTypes then None
                  else Some (Among contentTypes);
                SearchIndex.q_createdAt :=
                  match Req.a_dateFrom req, Req.a_dateTo req with
                  | None, None => None
                  | dateFrom, dateTo => Some (dateFrom, dateTo)
                  end;
                SearchIndex.q_pageNumber :=
                  match Req.a_pageNumber req with
                  | Some 0 | None => None
                  | Some pageNumber => Some pageNumber
                  end;
                SearchIndex.q_highlightId := None |} in
           let skip := ((Z.of_nat page - 1) * Z.of_nat limit)%Z in
           found <- promiseAll
                      (Db.find E searchFilter
                         {| SearchIndex.sortNewest := true; SearchIndex.skip := skip;
                            SearchIndex.limit := limit |})
                      (Db.countDocuments E searchFilter) ;;
           let results := fst found in
           let total := snd found in
           let pdfUuids_results := JS.distinct [] (map SearchIndex.pdfUuid results) in
           pdfMap <- resolveNames user pdfUuids_results ;;
           formattedResults <- liftOutcome (mapOutcome (formatResult pdfMap query) results) ;;
           ret (Json 200
                  [("results", VResults formattedResults);
                   ("pagination",
                    VPagination {| current := page;
                                   pages := ceilDiv total limit;
                                   total := total |});
                   ("query", VStr query);
                   ("fuzzy", VBool false)])
     end)
    (fun error =>
       Json 500 [("error", VStr "Advanced search failed");
                 ("message", VStr (exnMessage error));
                 ("results", VResults []);
                 ("pagination", VPagination emptyPagination)]).

End SearchController.
End SearchController.

(* ================================================================== *)
(** * controllers/highlightController.js and the search router *)
(* ================================================================== *)

Module HighlightController.
Section HighlightController.

Variable E : Environment.

(** async delete(req, res, next): [highlight.uuid] is read before the
    test [if (!highlight)]. *)
Definition delete (user : UserId) (uuid : string) : world -> reply * world :=
  handler
    (highlight <- Db.findOneAndDeleteHighlight E
                    {| Highlight.q_uuid := Some uuid;
                       Highlight.q_userId := Some user |} ;;
     highlightUuid <- match highlight with
                      | Some h => ret (Highlight.uuid h)
                      | None => throw TypeError
                      end ;;
     SearchController.removeHighlightIndex E highlightUuid user ;;;
     match highlight with
     | None => ret (Json 404 [("error", VStr "Highlight not found")])
     | Some _ => ret (Json 200 [("message", VStr "Highlight deleted successfully")])
     end)
    (fun error => Next error).

End HighlightController.
End HighlightController.

(** routes: [router.get('/search', auth, searchController.search)] and
    [router.get('/suggestions', auth, searchController.getSuggestions)].
    Express calls the function it was given, without a receiver. *)
Module Router.

Definition get_search (E : Environment) : UserId -> Req.search -> world -> reply * world :=
  SearchController.search E ThisUndefined.

Definition get_suggestions (E : Environment) : UserId -> option string -> world -> reply * world :=
  SearchController.getSuggestions E.

End Router.

(* ================================================================== *)
(** * Assumptions on the environment, and a reference environment *)
(* ================================================================== *)

(** No storage call fails. *)
Definition Reliable (E : Environment) : Prop :=
  forall n c, faulty E n c = false.

(** On a pattern without metacharacters [$regex] with option [i] is the
    case-insensitive substring test. *)
Definition LiteralMongo (E : Environment) : Prop :=
  forall p, Regex.isLiteral p = true ->
    exists re, mongoRegex E p = Some re /\ forall s, re s = Regex.ciOccurs p s.

(** On a non-empty term without metacharacters the global replacement
    wraps the matches found by a left-to-right scan. *)
Definition LiteralMark (E : Environment) : Prop :=
  forall t, Regex.isLiteral t = true -> t <> EmptyString ->
    exists f, markRegExp E t = Some f /\ forall s, f s = Regex.markAll t s.

Module Reference.

Definition reliable : nat -> call -> bool := fun _ _ => false.

(** Patterns of ordinary characters and [.]; others are refused. *)
Definition mongo (p : string) : option (string -> bool) :=
  option_map Regex.atomsOccur (Regex.parse p).

(** Non-empty terms of ordinary characters and [.]; others are refused. *)
Definition mark (t : string) : option (string -> string) :=
  if String.eqb t "" then None
  else if Regex.isLiteral t then Some (Regex.markAll t)
  else option_map Regex.markAtoms (Regex.parse t).

Definition env (faults : nat -> call -> bool) : Environment :=
  {| faulty := faults; mongoRegex := mongo; markRegExp := mark |}.

End Reference.

(* ================================================================== *)
(** * Vocabulary of the properties *)
(* ================================================================== *)

(** [d] is the index entry of annotation [annotationId] for [owner]. *)
Definition isUnitOf (annotationId : string) (owner : UserId) (d : SearchIndex.doc) : bool :=
  match SearchIndex.highlightId d with
  | Some h => String.eqb annotationId h
  | None => false
  end && (owner =? SearchIndex.userId d).

Definition unitsOf (annotationId : string) (owner : UserId) (l : list SearchIndex.doc) : nat :=
  length (filter (isUnitOf annotationId owner) l).

Definition ownedBy (u : UserId) (d : SearchIndex.doc) : bool := u =? SearchIndex.userId d.

Definition isPdfText (d : SearchIndex.doc) : bool :=
  ContentType_eqb (SearchIndex.contentType d) pdf_text.

(** The store without the entries of owner [u]. *)
Definition withoutOwner (u : UserId) (w : world) : world :=
  withIndex w (filter (fun d => negb (ownedBy u d)) (searchIndex w)).

(** Every filter and every written document of the call names [u]. *)
Definition scopedTo (u : UserId) (c : call) : Prop :=
  Forall (fun o => o = Some u) (callScope c).

(** [w'] extends the journal of [w] by calls that all satisfy [P]. *)
Definition journalGrows (P : call -> Prop) (w w' : world) : Prop :=
  exists added, journal w' = journal w ++ added /\ Forall P added.

(** A query the validation of [search] / [advancedSearch] turns away:
    [!query || query.trim().length < 2]. *)
Definition tooShort (query : option string) : bool :=
  match query with
  | None => true
  | Some q => String.length (JS.trim q) <? 2
  end.

(** Exact substring. *)
Fixpoint occursIn (m s : string) : bool :=
  JS.startsWith s m ||
  match s with
  | EmptyString => false
  | String _ s' => occursIn m s'
  end.

(** [m] is the term [t] up to letter case. *)
Fixpoint ciEqual (m t : string) : bool :=
  match m, t with
  | EmptyString, EmptyString => true
  | String a m', String b t' => Regex.ciChar a b && ciEqual m' t'
  | _, _ => false
  end.

(** The left-to-right, non-overlapping wrapping of the matches of [t]:
    a character that starts no match is copied; at a match the matched
    text [m] goes between the markers and the scan resumes behind it. *)
Inductive Marked (t : string) : string -> string -> Prop :=
| Marked_end : Marked t EmptyString EmptyString
| Marked_copy c s r :
    Regex.ciPrefix t (String c s) = false ->
    Marked t s r ->
    Marked t (String c s) (String c r)
| Marked_wrap m s r :
    ciEqual m t = true ->
    Marked t s r ->
    Marked t (m @@ s) ("<mark>" @@ m @@ "</mark>" @@ r).

Definition noSpace (t : string) : bool :=
  negb (existsb (Ascii.eqb " "%char) (list_ascii_of_string t)).

(** Relations between a world and a later one that compose. *)
Class Stable (R : world -> world -> Prop) : Prop := {
  stable_refl : forall w, R w w;
  stable_trans : forall a b c, R a b -> R b c -> R a c
}.

(** Relations that only look at the journal. *)
Class Silent (R : world -> world -> Prop) : Prop :=
  silent : forall w w', journal w' = journal w -> R w w'.

(** The data-model invariants of the index: at most one entry per owner
    and annotation, and no highlight id on an entry of body text. *)
Definition wellFormed (index : list SearchIndex.doc) : Prop :=
  (forall id o, unitsOf id o index <= 1)
  /\ (forall d, In d index -> isPdfText d = true -> SearchIndex.highlightId d = None).

(** An index keeps its invariants from [w] to [w']. *)
Definition staysWellFormed (w w' : world) : Prop :=
  wellFormed (searchIndex w) -> wellFormed (searchIndex w').

(** [m] relates every world to the world it leaves behind by [R]. *)
Definition keeps {A} (R : world -> world -> Prop) (m : M A) : Prop :=
  forall w, R w (snd (m w)).

(** [m] does not see the index entries of owner [u]: run without them it
    gives the same outcome and leaves the same world, up to those entries. *)
Definition blindTo {A} (u : UserId) (m : M A) : Prop :=
  forall w, m (withoutOwner u w) = (fst (m w), withoutOwner u (snd (m w))).

(** Result [r] shows the index entry [d]. *)
Definition shows (r : Result) (d : SearchIndex.doc) : Prop :=
  r_id r = SearchIndex._id d
  /\ r_pdfUuid r = SearchIndex.pdfUuid d
  /\ r_pageNumber r = SearchIndex.pageNumber d
  /\ r_content r = SearchIndex.content d
  /\ r_contentType r = SearchIndex.contentType d
  /\ r_highlightId r = SearchIndex.highlightId d
  /\ r_position r = SearchIndex.position d
  /\ r_createdAt r = SearchIndex.createdAt d.

(** Whenever [m] returns normally, its value satisfies [Q]. *)
Definition yields {A} (Q : A -> Prop) (m : M A) : Prop :=
  forall w a w', m w = (Ok a, w') -> Q a.

(** The highlighting as the specification words it: of every term of
    the white-space split of the query that is longer than one character,
    every occurrence in the content (letter case ignored) stands between
    the markers in the output. *)
Definition wrapsEveryTerm (content query out : string) : Prop :=
  forall term m,
    In term (filter (fun t => 1 <? String.length t) (JS.splitWhitespace query)) ->
    ciEqual m term = true ->
    occursIn m content = true ->
    occursIn ("<mark>" @@ m @@ "</mark>") out = true.

(** A partial query [getSuggestions] answers with no suggestion:
    [!query || query.length < 2]. *)
Definition tooShortToComplete (query : option string) : bool :=
  match query with
  | None => true
  | Some q => String.length q <? 2
  end.

(** The entries of [user] whose content the compiled query matches. *)
Definition matching (re : string -> bool) (user : UserId) (d : SearchIndex.doc) : bool :=
  ownedBy user d && re (SearchIndex.content d).

(** The entries [getSuggestions] scans: the first five matching ones in
    storage order. *)
Definition scanned (re : string -> bool) (user : UserId) (index : list SearchIndex.doc)
  : list SearchIndex.doc :=
  firstn 5 (filter (matching re user) index).

(** The suggestions as the specification words them: the completions
    found in the five most recent matching entries. *)
Definition suggestionsAsClaimed (re : string -> bool) (user : UserId) (query : string)
           (index : list SearchIndex.doc) : list string :=
  firstn 5
    (JS.distinct []
       (flat_map (fun d => SearchController.completions (JS.toLowerCase query)
                             (SearchIndex.content d))
                 (firstn 5 (SearchIndex.newestFirst (filter (matching re user) index))))).

(** The one storage call of [getSuggestions]. *)
Definition suggestionsLookup (user : UserId) (q : string) : call :=
  SearchIndex_find
    {| SearchIndex.q_userId := Some user; SearchIndex.q_content := Some q;
       SearchIndex.q_pdfUuid := None; SearchIndex.q_contentType := None;
       SearchIndex.q_createdAt := None; SearchIndex.q_pageNumber := None;
       SearchIndex.q_highlightId := None |}
    {| SearchIndex.sortNewest := false; SearchIndex.skip := 0%Z; SearchIndex.limit := 5 |}.

Definition suggest (text : string) : Suggestion := {| text := text; count := 1 |}.

(** The same advanced request with another [fuzzy] flag. *)
Definition withFuzzy (flag : option bool) (req : Req.advanced) : Req.advanced :=
  {| Req.a_query := Req.a_query req; Req.a_pdfUuids := Req.a_pdfUuids req;
     Req.a_contentTypes := Req.a_contentTypes req; Req.a_dateFrom := Req.a_dateFrom req;
     Req.a_dateTo := Req.a_dateTo req; Req.a_pageNumber := Req.a_pageNumber req;
     Req.a_fuzzy := flag; Req.a_page := Req.a_page req; Req.a_limit := Req.a_limit req |}.

(** What a reply says about fuzzy matching: status 200 reports
    [fuzzy: false], any other reply has no such field. *)
Definition reportsNoFuzzy (r : reply) : Prop :=
  (statusOf r = Some 200 -> field "fuzzy" (bodyOf r) = Some (VBool false))
  /\ (statusOf r <> Some 200 -> field "fuzzy" (bodyOf r) = None).

(** The [i]-th of the calls [added], issued after the calls [before], failed. *)
Definition failsAt (E : Environment) (before added : list call) (i : nat) : Prop :=
  exists c, nth_error added i = Some c /\ faulty E (length before + i) c = true.

(** A call that fails is the last one issued. *)
Definition stopsAtFailure (E : Environment) (before added : list call) : Prop :=
  forall i, failsAt E before added i -> S i = length added.

(** [m] issues no call after a failed one, and returns normally only if
    none failed. *)
Definition orderly {A} (E : Environment) (m : M A) : Prop :=
  forall w, exists added,
    journal (snd (m w)) = journal w ++ added
    /\ stopsAtFailure E (journal w) added
    /\ (forall a, fst (m w) = Ok a -> forall i, ~ failsAt E (journal w) added i).

(** The worlds the handlers and the index maintenance lead to, one call
    after the other, from a world whose index is empty. *)
Inductive Reachable (E : Environment) : world -> Prop :=
| reach_empty w :
    searchIndex w = [] -> Reachable E w
| reach_search w this user req :
    Reachable E w -> Reachable E (snd (SearchController.search E this user req w))
| reach_advancedSearch w user req :
    Reachable E w -> Reachable E (snd (SearchController.advancedSearch E user req w))
| reach_getSuggestions w user query :
    Reachable E w -> Reachable E (snd (SearchController.getSuggestions E user query w))
| reach_indexPdf w user uuid :
    Reachable E w -> Reachable E (snd (SearchController.indexPdf E user uuid w))
| reach_indexHighlight w A user :
    Reachable E w -> Reachable E (snd (SearchController.indexHighlight E A user w))
| reach_removeHighlightIndex w highlightId user :
    Reachable E w ->
    Reachable E (snd (SearchController.removeHighlightIndex E highlightId user w))
| reach_autoIndexHighlights w user :
    Reachable E w -> Reachable E (snd (SearchController.autoIndexHighlights E user w))
| reach_delete w user uuid :
    Reachable E w -> Reachable E (snd (HighlightController.delete E user uuid w)).

(** The replies of [search] on its fallback and failure paths. *)
Definition needsIndexingReply : reply :=
  Json 200
    [("results", VResults []);
     ("pagination", VPagination SearchController.emptyPagination);
     ("message", VStr "No content indexed yet. Please create some highlights or upload PDFs to search.");
     ("needsIndexing", VBool true)].

Definition searchFailed (e : exn) : reply :=
  Json 500 [("error", VStr "Search failed");
            ("message", VStr (exnMessage e));
            ("results", VResults []);
            ("pagination", VPagination SearchController.emptyPagination)].

(* ================================================================== *)
(** * Sample data *)
(* ================================================================== *)

Module Sample.

Definition alice : UserId := 1.
Definition bob : UserId := 2.

Definition place : Position := {| x := 10; y := 20; width := 30; height := 5 |}.

Definition box : Highlight.BoundingBox :=
  {| Highlight.left := 10; Highlight.top := 20;
     Highlight.right := 40; Highlight.bottom := 25 |}.

Definition highlight (uuid pdf : string) (user : UserId) (page : nat) (text : string)
  : Highlight.doc :=
  {| Highlight.uuid := uuid; Highlight.pdfUuid := pdf; Highlight.userId := user;
     Highlight.pageNumber := page; Highlight.highlightedText := text;
     Highlight.position := place; Highlight.boundingBox := box;
     Highlight.color := "#ffff00" |}.

Definition h1 : Highlight.doc := highlight "h1" "pdf-1" alice 3 "machine learning basics".
Definition h2 : Highlight.doc := highlight "h2" "pdf-1" alice 5 "hello world".
Definition h3 : Highlight.doc := highlight "h3" "pdf-2" alice 1 "hello world".
Definition hb : Highlight.doc := highlight "hb" "pdf-9" bob 1 "machine code of bob".

Definition doc1 : PDF.doc :=
  {| PDF.uuid := "pdf-1"; PDF.originalName := "notes.pdf"; PDF.userId := alice |}.

(** The index entry of a highlight, as [indexHighlight] stores it. *)
Definition entry (id time : nat) (h : Highlight.doc) : SearchIndex.doc :=
  SearchIndex.stamp id time (SearchController.annotationEntry h (Highlight.userId h)).

(** An index entry of body text, as [indexPdf] stores them. *)
Definition pageText (id time : nat) (pdf : string) (user : UserId) (page : nat)
           (text : string) : SearchIndex.doc :=
  {| SearchIndex._id := id; SearchIndex.pdfUuid := pdf; SearchIndex.userId := user;
     SearchIndex.pageNumber := page; SearchIndex.content := text;
     SearchIndex.contentType := pdf_text; SearchIndex.position := None;
     SearchIndex.highlightId := None; SearchIndex.createdAt := time |}.

(** Six entries of one owner that all match "ap", stored in the order
    of their creation: the newest is the last. *)
Definition fruit : list SearchIndex.doc :=
  [pageText 1 1 "pdf-1" alice 1 "Apple pie";
   pageText 2 2 "pdf-1" alice 2 "apple, again";
   pageText 3 3 "pdf-1" alice 3 "an APPLE a day";
   pageText 4 4 "pdf-1" alice 4 "apple";
   pageText 5 5 "pdf-1" alice 5 "more apple";
   pageText 6 6 "pdf-1" alice 6 "apricot jam"].

Definition state (index : list SearchIndex.doc) (hs : list Highlight.doc)
           (docs : list PDF.doc) : world :=
  {| searchIndex := index; highlights := hs; pdfs := docs;
     nextId := 100; now := 1000; journal := [] |}.

(** A storage that never fails, with the reference engines. *)
Definition env : Environment := Reference.env Reference.reliable.

(** A storage that refuses to store the entry of one highlight. *)
Definition refusing (uuid : string) : nat -> call -> bool :=
  fun _ c =>
    match c with
    | SearchIndex_create d =>
        match SearchIndex.new_highlightId d with
        | Some h => String.eqb h uuid
        | None => false
        end
    | _ => false
    end.

Definition simple (query : string) : Req.search :=
  {| Req.s_query := Some query; Req.s_pdfUuid := None; Req.s_contentType := None |}.

Definition advanced (query : string) (fuzzy : option bool) : Req.advanced :=
  {| Req.a_query := Some query; Req.a_pdfUuids := None; Req.a_contentTypes := None;
     Req.a_dateFrom := None; Req.a_dateTo := None; Req.a_pageNumber := None;
     Req.a_fuzzy := fuzzy; Req.a_page := None; Req.a_limit := None |}.

Definition tab : string := String (ascii_of_nat 9) EmptyString.

End Sample.

(* ================================================================== *)
(** * controllers/highlightController.js: the handlers beside [delete] *)
(* ================================================================== *)

(** [req.body] of POST /highlights, as the validation lets it through. *)
Record NewHighlight := {
  n_pdfUuid : string;
  n_pageNumber : nat;
  n_highlightedText : string;
  n_position : Position;
  n_boundingBox : Highlight.BoundingBox;
  n_color : option string
}.

(** [req.body] of PATCH /highlights/:uuid. *)
Record Changes := {
  c_color : option string;
  c_highlightedText : option string;
  c_position : option Position;
  c_boundingBox : option Highlight.BoundingBox
}.

(** [if (value) updateData.key = value] for a string: the empty string
    is falsy. *)
Definition truthy (value : option string) : option string :=
  match value with
  | Some EmptyString | None => None
  | Some s => Some s
  end.

(** The [updateData] of [update]. *)
Definition updateData (body : Changes) : Changes :=
  {| c_color := truthy (c_color body);
     c_highlightedText := truthy (c_highlightedText body);
     c_position := c_position body;
     c_boundingBox := c_boundingBox body |}.

(** A highlight with the keys of [data] set. *)
Definition applyChanges (data : Changes) (h : Highlight.doc) : Highlight.doc :=
  {| Highlight.uuid := Highlight.uuid h;
     Highlight.pdfUuid := Highlight.pdfUuid h;
     Highlight.userId := Highlight.userId h;
     Highlight.pageNumber := Highlight.pageNumber h;
     Highlight.highlightedText := orDefault (Highlight.highlightedText h) (c_highlightedText data);
     Highlight.position := orDefault (Highlight.position h) (c_position data);
     Highlight.boundingBox := orDefault (Highlight.boundingBox h) (c_boundingBox data);
     Highlight.color := orDefault (Highlight.color h) (c_color data) |}.

(** [findOneAndUpdate]: the first document the filter selects is
    replaced by its update. *)
Fixpoint updateFirst (p : Highlight.doc -> bool) (f : Highlight.doc -> Highlight.doc)
         (l : list Highlight.doc) : list Highlight.doc :=
  match l with
  | [] => []
  | h :: l' => if p h then f h :: l' else h :: updateFirst p f l'
  end.

(** [{ uuid: { $in: uuids }, userId }] *)
Definition amongOwn (uuids : list string) (user : UserId) (h : Highlight.doc) : bool :=
  existsb (String.eqb (Highlight.uuid h)) uuids && (user =? Highlight.userId h).

(** [{ pdfUuid, userId }] *)
Definition onOwnPdf (pdfUuid : string) (user : UserId) (h : Highlight.doc) : bool :=
  String.eqb pdfUuid (Highlight.pdfUuid h) && (user =? Highlight.userId h).

(** The very document: [{ _id: pdf._id }]. *)
Definition samePdf (a b : PDF.doc) : bool :=
  String.eqb (PDF.uuid a) (PDF.uuid b)
  && String.eqb (PDF.originalName a) (PDF.originalName b)
  && (PDF.userId a =? PDF.userId b).

Fixpoint removeFirstPdf (p : PDF.doc -> bool) (l : list PDF.doc) : list PDF.doc :=
  match l with
  | [] => []
  | d :: l' => if p d then l' else d :: removeFirstPdf p l'
  end.

(** The calls of these handlers on the Highlight and PDF collections
    that the search code does not issue. *)
Inductive CrudCall :=
| Highlight_save (h : Highlight.doc)
| Highlight_findOne (f : Highlight.filter)
| Highlight_findOneAndUpdate (f : Highlight.filter) (data : Changes)
| Highlight_deleteMany (uuids : list string) (user : UserId)
| Highlight_deleteManyOfPdf (pdfUuid : string) (user : UserId)
| PDF_deleteOne (pdf : PDF.doc).

(** The JSON values these handlers send. *)
Inductive hvalue :=
| HStr (s : string)
| HNat (n : nat)
| HDoc (h : Highlight.doc).

Inductive hreply :=
| HJson (status : nat) (body : list (string * hvalue))
| HNext (error : exn).

(** [try { ... } catch (error) { next(error) }] *)
Definition hhandler (body : M hreply) : world -> hreply * world :=
  fun w => match body w with
           | (Ok r, w') => (r, w')
           | (Throw e, w') => (HNext e, w')
           end.

(** A number in a template literal. *)
Definition decimal (n : nat) : string := NilZero.string_of_uint (Nat.to_uint n).

(** Those calls, as Mongoose exposes them. *)
Module Store.
Section Store.

(** The store refuses the call in this state (validation, the unique
    index on [uuid], connection, ...).  These calls are told apart from
    the journaled ones of the search code. *)
Variable refuses : world -> CrudCall -> bool.

Definition attempt (c : CrudCall) : M unit :=
  fun w => if refuses w c then (Throw StorageError, w) else (Ok tt, w).

(** [highlight.save()] *)
Definition save (h : Highlight.doc) : M unit :=
  attempt (Highlight_save h) ;;;
  fun w => (Ok tt, withHighlights w (highlights w ++ [h])).

(** [Highlight.findOne(filter)] *)
Definition findOne (f : Highlight.filter) : M (option Highlight.doc) :=
  attempt (Highlight_findOne f) ;;;
  fun w => (Ok (List.find (Highlight.holds f) (highlights w)), w).

(** [Highlight.findOneAndUpdate(filter, data, { new: true })] *)
Definition findOneAndUpdate (f : Highlight.filter) (data : Changes)
  : M (option Highlight.doc) :=
  attempt (Highlight_findOneAndUpdate f data) ;;;
  fun w => (Ok (option_map (applyChanges data) (List.find (Highlight.holds f) (highlights w))),
            withHighlights w (updateFirst (Highlight.holds f) (applyChanges data)
                                          (highlights w))).

(** [Highlight.deleteMany({ uuid: { $in: uuids }, userId })]: the
    [deletedCount]. *)
Definition deleteMany (uuids : list string) (user : UserId) : M nat :=
  attempt (Highlight_deleteMany uuids user) ;;;
  fun w => (Ok (length (filter (amongOwn uuids user) (highlights w))),
            withHighlights w (filter (fun h => negb (amongOwn uuids user h)) (highlights w))).

(** [Highlight.deleteMany({ pdfUuid, userId })] *)
Definition deleteManyOfPdf (pdfUuid : string) (user : UserId) : M unit :=
  attempt (Highlight_deleteManyOfPdf pdfUuid user) ;;;
  fun w => (Ok tt,
            withHighlights w (filter (fun h => negb (onOwnPdf pdfUuid user h)) (highlights w))).

(** [PDF.deleteOne({ _id: pdf._id })] *)
Definition deletePdf (pdf : PDF.doc) : M unit :=
  attempt (PDF_deleteOne pdf) ;;;
  fun w => (Ok tt,
            {| searchIndex := searchIndex w; highlights := highlights w;
               pdfs := removeFirstPdf (samePdf pdf) (pdfs w);
               nextId := nextId w; now := now w; journal := journal w |}).

End Store.
End Store.

Module HighlightCrud.
Section HighlightCrud.

Variable E : Environment.
Variable refuses : world -> CrudCall -> bool.

(** async create(req, res, next); [uuid] is what [uuidv4()] returns. *)
Definition create (uuid : string) (user : UserId) (body : NewHighlight)
  : world -> hreply * world :=
  hhandler
    (pdf <- Db.findOnePDF E {| PDF.q_uuid := Some (Is (n_pdfUuid body));
                               PDF.q_userId := Some user |} ;;
     match pdf with
     | None => ret (HJson 404 [("error", HStr "PDF not found")])
     | Some _ =>
         let highlight :=
           {| Highlight.uuid := uuid;
              Highlight.pdfUuid := n_pdfUuid body;
              Highlight.userId := user;
              Highlight.pageNumber := n_pageNumber body;
              Highlight.highlightedText := n_highlightedText body;
              Highlight.position := n_position body;
              Highlight.boundingBox := n_boundingBox body;
              Highlight.color := orDefault "#ffff00" (n_color body) |} in
         Store.save refuses highlight ;;;
         SearchController.indexHighlight E highlight user ;;;
         ret (HJson 201 [("message", HStr "Highlight created successfully");
                         ("highlight", HDoc highlight)])
     end).

(** async getById(req, res, next) *)
Definition getById (user : UserId) (uuid : string) : world -> hreply * world :=
  hhandler
    (highlight <- Store.findOne refuses {| Highlight.q_uuid := Some uuid;
                                           Highlight.q_userId := Some user |} ;;
     match highlight with
     | None => ret (HJson 404 [("error", HStr "Highlight not found")])
     | Some h => ret (HJson 200 [("highlight", HDoc h)])
     end).

(** async update(req, res, next) *)
Definition update (user : UserId) (uuid : string) (body : Changes)
  : world -> hreply * world :=
  hhandler
    (highlight <- Store.findOneAndUpdate refuses
                    {| Highlight.q_uuid := Some uuid; Highlight.q_userId := Some user |}
                    (updateData body) ;;
     match highlight with
     | None => ret (HJson 404 [("error", HStr "Highlight not found")])
     | Some h => ret (HJson 200 [("message", HStr "Highlight updated successfully");
                                 ("highlight", HDoc h)])
     end).

(** async bulkDelete(req, res, next); [highlightUuids] is [None] when
    the body has no array under that key. *)
Definition bulkDelete (user : UserId) (highlightUuids : option (list string))
  : world -> hreply * world :=
  hhandler
    (match highlightUuids with
     | None | Some [] =>
         ret (HJson 400 [("error", HStr "Highlight UUIDs array is required")])
     | Some uuids =>
         deletedCount <- Store.deleteMany refuses uuids user ;;
         ret (HJson 200 [("message",
                          HStr (decimal deletedCount @@ " highlights deleted successfully"));
                         ("deletedCount", HNat deletedCount)])
     end).

End HighlightCrud.
End HighlightCrud.

(* ================================================================== *)
(** * controllers/pdfController.js: the deletion of a PDF *)
(* ================================================================== *)

(** async delete(req, res, next).  Between the two deletions the file
    is removed from the disk, which is not part of the world; a failure
    there is caught and ignored. *)
Module PDFController.
Section PDFController.

Variable E : Environment.
Variable refuses : world -> CrudCall -> bool.

Definition delete (user : UserId) (uuid : string) : world -> hreply * world :=
  hhandler
    (pdf <- Db.findOnePDF E {| PDF.q_uuid := Some (Is uuid); PDF.q_userId := Some user |} ;;
     match pdf with
     | None => ret (HJson 404 [("error", HStr "PDF not found")])
     | Some pdf =>
         Store.deleteManyOfPdf refuses (PDF.uuid pdf) user ;;;
         Store.deletePdf refuses pdf ;;;
         ret (HJson 200 [("message", HStr "PDF deleted successfully")])
     end).

End PDFController.
End PDFController.

(* ================================================================== *)
(** * frontend/src/contexts/SearchContext.js: the caller of the search route *)
(* ================================================================== *)

Module SearchContext.

(** [searchState.filters] *)
Record Filters := { pdfUuid : option string; contentType : option string }.

(** The [filters] argument of [search]: the keys it sets. *)
Record Overrides := { set_pdfUuid : option (option string); set_contentType : option (option string) }.

Record SearchState := {
  query : string;
  results : option (list Result);
  loading : bool;
  error : option string;
  pagination : option Pagination;
  filters : Filters;
  suggestions : list Suggestion;
  showResults : bool
}.

(** What [await searchAPI.search(params)] comes to: the data of a
    response with a 2xx status, or the rejection axios throws, with
    [error.response?.data?.error] if there is one. *)
Inductive response :=
| Resolved (results : option (list Result)) (pagination : option Pagination)
| Rejected (error : option string).

(** [{ ...searchState.filters, ...filters }] *)
Definition merge (current : Filters) (given : Overrides) : Filters :=
  {| pdfUuid := orDefault (pdfUuid current) (set_pdfUuid given);
     contentType := orDefault (contentType current) (set_contentType given) |}.

(** The query string axios makes of the parameters: keys whose value is
    null or undefined are left out. *)
Definition params (query : string) (f : Filters) : Req.search :=
  {| Req.s_query := Some query; Req.s_pdfUuid := pdfUuid f;
     Req.s_contentType := contentType f |}.

(** [[q, ...prev.filter(h => h !== q)].slice(0, 10)] *)
Definition remember (q : string) (prev : list string) : list string :=
  firstn 10 (q :: filter (fun h => negb (String.eqb h q)) prev).

(** const search = useCallback(async (query, filters = {}) => ...) on the
    state and the history, with the API call as a parameter; [asked] is
    its argument [query]. *)
Definition search (api : Req.search -> response) (asked : option string) (given : Overrides)
           (state : SearchState) (history : list string) : SearchState * list string :=
  match asked with
  | Some q =>
      if String.eqb q "" || (String.length (JS.trim q) <? 2)
      then ({| query := query state; results := Some [];
               loading := loading state;
               error := Some "Search query must be at least 2 characters";
               pagination := pagination state; filters := filters state;
               suggestions := suggestions state; showResults := false |}, history)
      else
        match api (params (JS.trim q) (merge (filters state) given)) with
        | Resolved found pages =>
            ({| query := JS.trim q; results := found; loading := false; error := None;
                pagination := pages; filters := filters state;
                suggestions := suggestions state; showResults := true |},
             remember (JS.trim q) history)
        | Rejected message =>
            ({| query := query state; results := Some []; loading := false;
                error := Some (match message with
                               | Some EmptyString | None => "Search failed"
                               | Some text => text
                               end);
                pagination := pagination state; filters := filters state;
                suggestions := suggestions state; showResults := false |}, history)
        end
  | None =>
      ({| query := query state; results := Some [];
          loading := loading state;
          error := Some "Search query must be at least 2 characters";
          pagination := pagination state; filters := filters state;
          suggestions := suggestions state; showResults := false |}, history)
  end.

End SearchContext.

(** What the client gets of a reply of the server: axios resolves for a
    status from 200 to 299 and rejects otherwise; an error passed to
    [next] reaches the client as a 500 without a JSON body. *)
Definition viaAxios (r : reply) : SearchContext.response :=
  match r with
  | Json status body =>
      if (200 <=? status) && (status <? 300)
      then SearchContext.Resolved
             (match field "results" body with Some (VResults rs) => Some rs | _ => None end)
             (match field "pagination" body with Some (VPagination p) => Some p | _ => None end)
      else SearchContext.Rejected
             (match field "error" body with Some (VStr e) => Some e | _ => None end)
  | Next _ => SearchContext.Rejected None
  end.

(** The search route as the client of [user] reaches it in state [w]. *)
Definition searchRoute (E : Environment) (user : UserId) (w : world)
  : Req.search -> SearchContext.response :=
  fun req => viaAxios (fst (Router.get_search E user req w)).

(* ================================================================== *)
(** * The states the application can be in *)
(* ================================================================== *)

(** A call of a handler, or of one of the functions that maintain the
    index. *)
Inductive request :=
| GetSearch (this : receiver) (user : UserId) (req : Req.search)
| PostAdvancedSearch (user : UserId) (req : Req.advanced)
| GetSuggestions (user : UserId) (query : option string)
| PostIndexPdf (user : UserId) (uuid : string)
| PostHighlight (uuid : string) (user : UserId) (body : NewHighlight)
| GetHighlight (user : UserId) (uuid : string)
| PatchHighlight (user : UserId) (uuid : string) (body : Changes)
| DeleteHighlight (user : UserId) (uuid : string)
| PostBulkDelete (user : UserId) (highlightUuids : option (list string))
| DeletePdf (user : UserId) (uuid : string)
| IndexHighlight (highlight : Highlight.doc) (user : UserId)
| RemoveHighlightIndex (highlightId : string) (user : UserId)
| AutoIndexHighlights (user : UserId).

(** The state a request leaves behind. *)
Definition serve (E : Environment) (refuses : world -> CrudCall -> bool)
           (r : request) (w : world) : world :=
  match r with
  | GetSearch this user req => snd (SearchController.search E this user req w)
  | PostAdvancedSearch user req => snd (SearchController.advancedSearch E user req w)
  | GetSuggestions user query => snd (SearchController.getSuggestions E user query w)
  | PostIndexPdf user uuid => snd (SearchController.indexPdf E user uuid w)
  | PostHighlight uuid user body => snd (HighlightCrud.create E refuses uuid user body w)
  | GetHighlight user uuid => snd (HighlightCrud.getById refuses user uuid w)
  | PatchHighlight user uuid body => snd (HighlightCrud.update refuses user uuid body w)
  | DeleteHighlight user uuid => snd (HighlightController.delete E user uuid w)
  | PostBulkDelete user uuids => snd (HighlightCrud.bulkDelete refuses user uuids w)
  | DeletePdf user uuid => snd (PDFController.delete E refuses user uuid w)
  | IndexHighlight highlight user => snd (SearchController.indexHighlight E highlight user w)
  | RemoveHighlightIndex highlightId user =>
      snd (SearchController.removeHighlightIndex E highlightId user w)
  | AutoIndexHighlights user => snd (SearchController.autoIndexHighlights E user w)
  end.

(** The states the requests lead to, one after the other, from a state
    whose index is empty. *)
Inductive Served (E : Environment) (refuses : world -> CrudCall -> bool) : world -> Prop :=
| served_empty w : searchIndex w = [] -> Served E refuses w
| served_request w r : Served E refuses w -> Served E refuses (serve E refuses r w).

(* ================================================================== *)
(** * Vocabulary of the further properties *)
(* ================================================================== *)

(** The filter [search] builds for the query [query]. *)
Definition simpleFilter (user : UserId) (query : string) (req : Req.search)
  : SearchIndex.filter :=
  {| SearchIndex.q_userId := Some user;
     SearchIndex.q_content := Some query;
     SearchIndex.q_pdfUuid :=
       match Req.s_pdfUuid req with
       | Some EmptyString | None => None
       | Some pdfUuid => Some (Is pdfUuid)
       end;
     SearchIndex.q_contentType :=
       if String.eqb (orDefault "all" (Req.s_contentType req)) "all" then None
       else Some (Is (orDefault "all" (Req.s_contentType req)));
     SearchIndex.q_createdAt := None;
     SearchIndex.q_pageNumber := None;
     SearchIndex.q_highlightId := None |}.

(** [.sort({ createdAt: -1 }).limit(20)] *)
Definition simpleCursor : SearchIndex.cursor :=
  {| SearchIndex.sortNewest := true; SearchIndex.skip := 0%Z; SearchIndex.limit := 20 |}.

(** The reply of [search] that carries the formatted results. *)
Definition searchFound (query : string) (found : nat) (formatted : list Result) : reply :=
  Json 200
    [("results", VResults formatted);
     ("pagination",
      VPagination {| current := 1; pages := ceilDiv found 20; total := found |});
     ("query", VStr query)].

(** Every name of the map is the placeholder or the name of a PDF of
    [user] with that uuid. *)
Definition knownNames (user : UserId) (docs : list PDF.doc)
           (names : list (string * string)) : Prop :=
  forall uuid name, In (uuid, name) names ->
    name = "Unknown PDF"
    \/ exists pdf, In pdf docs /\ PDF.userId pdf = user
                   /\ PDF.uuid pdf = uuid /\ PDF.originalName pdf = name.

(** Newest first. *)
Fixpoint descending (times : list nat) : Prop :=
  match times with
  | [] => True
  | t :: rest => Forall (fun t' => t' <= t) rest /\ descending rest
  end.

(** The filter [advancedSearch] builds for the query [query]. *)
Definition advancedFilter (user : UserId) (query : string) (req : Req.advanced)
  : SearchIndex.filter :=
  {| SearchIndex.q_userId := Some user;
     SearchIndex.q_content := Some query;
     SearchIndex.q_pdfUuid :=
       if 0 <? length (orDefault [] (Req.a_pdfUuids req))
       then Some (Among (orDefault [] (Req.a_pdfUuids req))) else None;
     SearchIndex.q_contentType :=
       if existsb (String.eqb "all") (orDefault ["all"] (Req.a_contentTypes req)) then None
       else Some (Among (orDefault ["all"] (Req.a_contentTypes req)));
     SearchIndex.q_createdAt :=
       match Req.a_dateFrom req, Req.a_dateTo req with
       | None, None => None
       | dateFrom, dateTo => Some (dateFrom, dateTo)
       end;
     SearchIndex.q_pageNumber :=
       match Req.a_pageNumber req with
       | Some 0 | None => None
       | Some pageNumber => Some pageNumber
       end;
     SearchIndex.q_highlightId := None |}.

(** [.sort({ createdAt: -1 }).skip((page - 1) * limit).limit(parseInt(limit))] *)
Definition advancedCursor (req : Req.advanced) : SearchIndex.cursor :=
  {| SearchIndex.sortNewest := true;
     SearchIndex.skip := ((Z.of_nat (orDefault 1%nat (Req.a_page req)) - 1)
                          * Z.of_nat (orDefault 20%nat (Req.a_limit req)))%Z;
     SearchIndex.limit := orDefault 20 (Req.a_limit req) |}.

(** The reply of [advancedSearch] that carries the formatted results. *)
Definition advancedFound (req : Req.advanced) (query : string) (matches : nat)
           (formatted : list Result) : reply :=
  Json 200
    [("results", VResults formatted);
     ("pagination",
      VPagination {| current := orDefault 1 (Req.a_page req);
                     pages := ceilDiv matches (orDefault 20 (Req.a_limit req));
                     total := matches |});
     ("query", VStr query);
     ("fuzzy", VBool false)].

(** A request of GET /search. *)
Definition searchFor (query : string) (pdfUuid contentType : option string) : Req.search :=
  {| Req.s_query := Some query; Req.s_pdfUuid := pdfUuid; Req.s_contentType := contentType |}.

(** The failure reply of [advancedSearch]. *)
Definition advancedFailed (e : exn) : reply :=
  Json 500 [("error", VStr "Advanced search failed");
            ("message", VStr (exnMessage e));
            ("results", VResults []);
            ("pagination", VPagination SearchController.emptyPagination)].

(** From [w] to [w'] nothing stored has changed: the three collections,
    the next id and the clock are the same; the journal may have grown. *)
Definition sameData (w w' : world) : Prop :=
  searchIndex w' = searchIndex w /\ highlights w' = highlights w /\ pdfs w' = pdfs w
  /\ nextId w' = nextId w /\ now w' = now w.

(** The name map [search] and [advancedSearch] build when the lookup of
    the PDFs succeeds: later documents are written over earlier ones. *)
Definition namesFor (user : UserId) (pdfUuids : list string) (docs : list PDF.doc)
  : list (string * string) :=
  if 0 <? length pdfUuids then
    fold_left (fun pdfMap pdf => (PDF.uuid pdf, PDF.originalName pdf) :: pdfMap)
              (filter (PDF.holds {| PDF.q_uuid := Some (Among pdfUuids);
                                    PDF.q_userId := Some user |}) docs)
              []
  else [].

(** The terms [highlightSearchTerms] marks: the fields between single
    spaces that are longer than one character. *)
Definition termsOf (query : string) : list string :=
  filter (fun term => 1 <? String.length term) (JS.split " " query).

(** The advanced request that says what the simple request [req] says. *)
Definition asAdvanced (req : Req.search) : Req.advanced :=
  {| Req.a_query := Req.s_query req;
     Req.a_pdfUuids := match Req.s_pdfUuid req with
                       | Some EmptyString | None => None
                       | Some pdfUuid => Some [pdfUuid]
                       end;
     Req.a_contentTypes := option_map (fun contentType => [contentType]) (Req.s_contentType req);
     Req.a_dateFrom := None; Req.a_dateTo := None; Req.a_pageNumber := None;
     Req.a_fuzzy := None; Req.a_page := None; Req.a_limit := None |}.

(** [d] is an entry of body text of document [uuid] for [user]. *)
Definition isPageOf (uuid : string) (user : UserId) (d : SearchIndex.doc) : bool :=
  (user =? SearchIndex.userId d) && String.eqb uuid (SearchIndex.pdfUuid d) && isPdfText d.

(** The filter by which [indexPdf] looks for an entry of the document. *)
Definition pagesFilter (uuid : string) (user : UserId) : SearchIndex.filter :=
  {| SearchIndex.q_userId := Some user; SearchIndex.q_content := None;
     SearchIndex.q_pdfUuid := Some (Is uuid);
     SearchIndex.q_contentType := Some (Is "pdf_text");
     SearchIndex.q_createdAt := None; SearchIndex.q_pageNumber := None;
     SearchIndex.q_highlightId := None |}.

(** The filter by which the handlers look for a PDF of [user]. *)
Definition ownPdf (uuid : string) (user : UserId) : PDF.filter :=
  {| PDF.q_uuid := Some (Is uuid); PDF.q_userId := Some user |}.

(** The replies of [indexPdf]. *)
Definition pdfNotFound : reply := Json 404 [("error", VStr "PDF not found")].

Definition alreadyIndexed : reply :=
  Json 200 [("message", VStr "PDF already indexed"); ("indexed", VBool true)].

Definition pdfIndexed (pagesIndexed : nat) : reply :=
  Json 200 [("message", VStr "PDF indexed successfully");
            ("indexed", VBool true);
            ("pagesIndexed", VNat pagesIndexed)].

Definition failedToIndex : reply := Json 500 [("error", VStr "Failed to index PDF")].

(** From [w] to [w'] the index has only grown, by entries that satisfy
    [P]; the highlights and the PDFs are the same. *)
Definition appends (P : SearchIndex.doc -> Prop) (w w' : world) : Prop :=
  highlights w' = highlights w /\ pdfs w' = pdfs w
  /\ exists added, searchIndex w' = searchIndex w ++ added /\ Forall P added.

(** [d] is an entry [indexHighlight] or the backfill stores for the
    highlight [h] of [owner]. *)
Definition entryOf (h : Highlight.doc) (owner : UserId) (d : SearchIndex.doc) : Prop :=
  exists id time, d = SearchIndex.stamp id time (SearchController.annotationEntry h owner).

(** The documents the store makes of [ds], stored one after the other. *)
Fixpoint stamps (id time : nat) (ds : list SearchIndex.fresh) : list SearchIndex.doc :=
  match ds with
  | [] => []
  | d :: rest => SearchIndex.stamp id time d :: stamps (S id) (S time) rest
  end.

(** One turn of the loop of [autoIndexHighlights]. *)
Definition indexPass (E : Environment) (userId : UserId) (highlight : Highlight.doc) : M unit :=
  existing <- Db.findOne E (SearchController.byHighlight (Highlight.uuid highlight) userId) ;;
  match existing with
  | Some _ => ret tt
  | None => Db.create E (SearchController.annotationEntry highlight userId)
  end.

(** The filter of the backfill: all highlights of the user. *)
Definition highlightsOf (userId : UserId) : Highlight.filter :=
  {| Highlight.q_uuid := None; Highlight.q_userId := Some userId |}.

(** The filter by which the handlers look for a highlight of [user]. *)
Definition ownHighlight (uuid : string) (user : UserId) : Highlight.filter :=
  {| Highlight.q_uuid := Some uuid; Highlight.q_userId := Some user |}.

Definition highlightDeleted : reply :=
  Json 200 [("message", VStr "Highlight deleted successfully")].

(** From [w] to [w'] nothing that belongs to another user than [u] has
    changed: the index entries and the highlights of the others are the
    same, in the same order, and so are the PDFs. *)
Definition othersKept (u : UserId) (w w' : world) : Prop :=
  filter (fun d => negb (ownedBy u d)) (searchIndex w')
  = filter (fun d => negb (ownedBy u d)) (searchIndex w)
  /\ filter (fun h => negb (u =? Highlight.userId h)) (highlights w')
     = filter (fun h => negb (u =? Highlight.userId h)) (highlights w)
  /\ pdfs w' = pdfs w.

(** What an entry of the index looks like: body text is one of the
    sample sentences of [indexPdf], on the page of its rank, without
    highlight id or position; an annotation has both. *)
Definition entryShape (d : SearchIndex.doc) : Prop :=
  match SearchIndex.contentType d with
  | pdf_text =>
      SearchIndex.highlightId d = None /\ SearchIndex.position d = None
      /\ exists index, nth_error SearchController.dummyContent index
                       = Some (SearchIndex.content d)
                       /\ SearchIndex.pageNumber d = index + 1
  | annotation =>
      SearchIndex.highlightId d <> None /\ SearchIndex.position d <> None
  end.

(** Every entry keeps its shape from [w] to [w']. *)
Definition staysShaped (w w' : world) : Prop :=
  Forall entryShape (searchIndex w) -> Forall entryShape (searchIndex w').

(** The highlight [create] makes of a request. *)
Definition newHighlight (uuid : string) (user : UserId) (body : NewHighlight)
  : Highlight.doc :=
  {| Highlight.uuid := uuid;
     Highlight.pdfUuid := n_pdfUuid body;
     Highlight.userId := user;
     Highlight.pageNumber := n_pageNumber body;
     Highlight.highlightedText := n_highlightedText body;
     Highlight.position := n_position body;
     Highlight.boundingBox := n_boundingBox body;
     Highlight.color := orDefault "#ffff00" (n_color body) |}.

(** The replies of the highlight handlers. *)
Definition highlightCreated (h : Highlight.doc) : hreply :=
  HJson 201 [("message", HStr "Highlight created successfully"); ("highlight", HDoc h)].

Definition highlightUpdated (h : Highlight.doc) : hreply :=
  HJson 200 [("message", HStr "Highlight updated successfully"); ("highlight", HDoc h)].

Definition highlightNotFound : hreply := HJson 404 [("error", HStr "Highlight not found")].

Definition highlightsDeleted (deletedCount : nat) : hreply :=
  HJson 200 [("message", HStr (decimal deletedCount @@ " highlights deleted successfully"));
             ("deletedCount", HNat deletedCount)].

(** Two worlds a search cannot tell apart: the same index, the same
    PDFs and the same journal. *)
Definition sameForSearch (w1 w2 : world) : Prop :=
  searchIndex w1 = searchIndex w2 /\ pdfs w1 = pdfs w2 /\ journal w1 = journal w2.

(** [m] gives the same outcome in worlds a search cannot tell apart,
    and leaves such worlds behind. *)
Definition readsIndexOnly {A} (m : M A) : Prop :=
  forall w1 w2, sameForSearch w1 w2 ->
    fst (m w1) = fst (m w2) /\ sameForSearch (snd (m w1)) (snd (m w2)).

Definition pdfDeleted : hreply := HJson 200 [("message", HStr "PDF deleted successfully")].

(** [d] has the uuid [uuid]. *)
Definition hasUuid (uuid : string) (d : PDF.doc) : bool := String.eqb uuid (PDF.uuid d).

(* ================================================================== *)
(** * Strings: basic facts *)
(* ================================================================== *)

Arguments Ascii.eqb : simpl never.

Lemma take_drop (n : nat) (s : string) : JS.take n s @@ JS.drop n s = s.
Proof.
  revert s; induction n as [|n IH]; intros [|c s]; simpl; try reflexivity.
  now rewrite IH.
Qed.

Lemma length_drop (n : nat) (s : string) :
  String.length (JS.drop n s) = String.length s - n.
Proof.
  revert s; induction n as [|n IH]; intros [|c s]; simpl; auto with arith.
Qed.

Lemma ciPrefix_take (t s : string) :
  Regex.ciPrefix t s = true -> ciEqual (JS.take (String.length t) s) t = true.
Proof.
  revert s; induction t as [|a t IH]; intros [|b s]; simpl; try easy.
  intros H; apply andb_true_iff in H as [Hc Hp].
  unfold Regex.ciChar in *. apply Ascii.eqb_eq in Hc.
  rewrite (IH _ Hp), <- Hc, Ascii.eqb_refl. reflexivity.
Qed.

Lemma ciEqual_prefix (m t s : string) :
  ciEqual m t = true -> Regex.ciPrefix t (m @@ s) = true.
Proof.
  revert t; induction m as [|a m IH]; intros [|b t]; simpl; try easy.
  intros H; apply andb_true_iff in H as [Hc He].
  rewrite (IH _ He), andb_true_r.
  unfold Regex.ciChar in *. apply Ascii.eqb_eq in Hc. rewrite Hc. apply Ascii.eqb_refl.
Qed.

(** The scan of [markFrom] produces the wrapping [Marked] describes. *)
Lemma markFrom_Marked (t : string) :
  t <> EmptyString ->
  forall fuel s, String.length s <= fuel -> Marked t s (Regex.markFrom fuel t s).
Proof.
  intros Ht fuel; induction fuel as [|fuel IH]; intros s Hlen.
  - destruct s; [constructor | simpl in Hlen; lia].
  - destruct s as [|c s]; [constructor|].
    cbn [Regex.markFrom].
    destruct (Regex.ciPrefix t (String c s)) eqn:Hp.
    + rewrite <- (take_drop (String.length t) (String c s)) at 1.
      apply Marked_wrap; [now apply ciPrefix_take|].
      apply IH. rewrite length_drop. simpl in Hlen |- *.
      destruct t; [congruence | simpl; lia].
    + apply Marked_copy; [exact Hp|]. apply IH. simpl in Hlen; lia.
Qed.

Lemma markAll_Marked (t s : string) :
  t <> EmptyString -> Marked t s (Regex.markAll t s).
Proof. intros Ht. apply markFrom_Marked; auto. Qed.

Lemma ciEqual_length (m t : string) :
  ciEqual m t = true -> String.length m = String.length t.
Proof.
  revert t; induction m as [|a m IH]; intros [|b t]; simpl; try easy.
  intros H; apply andb_true_iff in H as [_ H]. now rewrite (IH _ H).
Qed.

Lemma append_same_length (a b c d : string) :
  String.length a = String.length c -> a @@ b = c @@ d -> a = c /\ b = d.
Proof.
  revert c; induction a as [|x a IH]; intros [|y c]; simpl; try easy.
  intros Hl H. inversion H; subst.
  destruct (IH c) as [-> ->]; auto.
Qed.

(** [Marked] determines the output. *)
Lemma Marked_unique (t : string) :
  t <> EmptyString ->
  forall s r1, Marked t s r1 -> forall r2, Marked t s r2 -> r1 = r2.
Proof.
  intros Ht s r1 H1. induction H1 as [|c s r Hp H1 IH|m s r Hm H1 IH]; intros r2 H2.
  - remember EmptyString as e eqn:He. destruct H2 as [| |m s r Hm H2]; try easy.
    destruct m; [|discriminate]. destruct t; [congruence | discriminate].
  - remember (String c s) as cs eqn:He.
    destruct H2 as [|c' s' r' Hp' H2|m s' r' Hm H2]; try discriminate.
    + inversion He; subst. f_equal. auto.
    + subst. rewrite (ciEqual_prefix _ _ _ Hm) in Hp. discriminate.
  - remember (m @@ s) as ms eqn:He.
    destruct H2 as [|c' s' r' Hp' H2|m' s' r' Hm' H2].
    + destruct m; [|discriminate]. destruct t; [congruence | discriminate].
    + rewrite He, (ciEqual_prefix _ _ _ Hm) in Hp'. discriminate.
    + apply append_same_length in He as [-> ->].
      * f_equal. f_equal. f_equal. auto.
      * rewrite (ciEqual_length _ _ Hm), (ciEqual_length _ _ Hm'). reflexivity.
Qed.

Lemma split_noSpace (t : string) :
  noSpace t = true -> JS.split " " t = [t].
Proof.
  unfold noSpace. induction t as [|c t IH]; simpl; [reflexivity|].
  rewrite negb_true_iff, orb_false_iff. intros [Hc Ht].
  rewrite Ascii.eqb_sym, Hc, IH; [reflexivity|]. now rewrite Ht.
Qed.

Lemma split_noSpace_cons (t q : string) :
  noSpace t = true -> JS.split " " (t @@ String " " q) = t :: JS.split " " q.
Proof.
  unfold noSpace. induction t as [|c t IH]; [reflexivity|]. simpl.
  rewrite negb_true_iff, orb_false_iff. intros [Hc Ht].
  rewrite Ascii.eqb_sym, Hc, IH; [reflexivity|]. now rewrite Ht.
Qed.

Section Highlighting.

Variable E : Environment.
Hypothesis HE : LiteralMark E.

Let highlight := SearchController.highlightSearchTerms E.

(** One pass of the loop over the terms. *)
Let step (highlighted : outcome string) (term : string) : outcome string :=
  match highlighted with
  | Throw e => Throw e
  | Ok text =>
      match markRegExp E term with
      | Some replace => Ok (replace text)
      | None => Throw SyntaxError
      end
  end.

Lemma fold_step_Throw (terms : list string) (e : exn) :
  fold_left step terms (Throw e) = Throw e.
Proof. induction terms; simpl; auto. Qed.

Lemma highlight_short_term (content t : string) :
  noSpace t = true -> String.length t <= 1 -> highlight content t = Ok content.
Proof.
  intros Hs Hl. unfold highlight, SearchController.highlightSearchTerms.
  rewrite (split_noSpace _ Hs). simpl.
  destruct (Nat.ltb_spec 1 (String.length t)); [lia | reflexivity].
Qed.

Lemma highlight_one_term (content t : string) :
  noSpace t = true -> 1 < String.length t -> Regex.isLiteral t = true ->
  highlight content t = Ok (Regex.markAll t content).
Proof.
  intros Hs Hl Hlit. unfold highlight, SearchController.highlightSearchTerms.
  rewrite (split_noSpace _ Hs). simpl.
  destruct (Nat.ltb_spec 1 (String.length t)); [|lia]. simpl.
  destruct (HE t Hlit) as (f & Hf & Hfs); [destruct t; simpl in Hl; [lia | discriminate]|].
  now rewrite Hf, Hfs.
Qed.

(** The terms are applied one after another, each to the text the
    previous ones produced. *)
Lemma highlight_sequential (content t q : string) :
  noSpace t = true ->
  highlight content (t @@ String " " q) =
  match highlight content t with
  | Ok text => highlight text q
  | Throw e => Throw e
  end.
Proof.
  intros Hs. unfold highlight, SearchController.highlightSearchTerms.
  rewrite (split_noSpace_cons _ _ Hs), (split_noSpace _ Hs). simpl.
  destruct (1 <? String.length t); simpl; [|reflexivity].
  destruct (markRegExp E t); [reflexivity|].
  apply fold_step_Throw.
Qed.

End Highlighting.

(* ================================================================== *)
(** * The monad: how computations run *)
(* ================================================================== *)

Lemma bind_inv_Ok {A B} (m : M A) (k : A -> M B) w b w' :
  bind m k w = (Ok b, w') ->
  exists a w1, m w = (Ok a, w1) /\ k a w1 = (Ok b, w').
Proof.
  unfold bind. destruct (m w) as [[a|e] w1]; intros H; [eauto | discriminate].
Qed.

(** ** Relations every step keeps *)

Section Keeps.

Context {R : world -> world -> Prop} {HR : Stable R}.

Lemma keeps_ret {A} (a : A) : keeps R (ret a).
Proof. intros w; apply stable_refl. Qed.

Lemma keeps_throw {A} (e : exn) : keeps R (@throw A e).
Proof. intros w; apply stable_refl. Qed.

Lemma keeps_liftOutcome {A} (o : outcome A) : keeps R (liftOutcome o).
Proof. intros w; apply stable_refl. Qed.

Lemma keeps_bind {A B} (m : M A) (k : A -> M B) :
  keeps R m -> (forall a, keeps R (k a)) -> keeps R (bind m k).
Proof.
  intros Hm Hk w. unfold bind. specialize (Hm w).
  destruct (m w) as [[a|e] w1]; simpl in *; [|exact Hm].
  eapply stable_trans; [exact Hm | apply Hk].
Qed.

Lemma keeps_tryCatch {A} (m : M A) (h : exn -> M A) :
  keeps R m -> (forall e, keeps R (h e)) -> keeps R (tryCatch m h).
Proof.
  intros Hm Hh w. unfold tryCatch. specialize (Hm w).
  destruct (m w) as [[a|e] w1]; simpl in *; [exact Hm|].
  eapply stable_trans; [exact Hm | apply Hh].
Qed.

Lemma keeps_forOf {A} (xs : list A) (body : A -> M unit) :
  (forall x, keeps R (body x)) -> keeps R (forOf xs body).
Proof.
  intros Hb. induction xs as [|x xs IH]; simpl.
  - apply keeps_ret.
  - apply keeps_bind; auto.
Qed.

Lemma keeps_promiseAll {A B} (m1 : M A) (m2 : M B) :
  keeps R m1 -> keeps R m2 -> keeps R (promiseAll m1 m2).
Proof.
  intros H1 H2 w. unfold promiseAll. specialize (H1 w).
  destruct (m1 w) as [o1 w1]. specialize (H2 w1).
  destruct (m2 w1) as [o2 w2]. simpl in *. eapply stable_trans; eauto.
Qed.

Lemma keeps_viaThis {A} (this : receiver) (m : M A) :
  keeps R m -> keeps R (viaThis this m).
Proof. destruct this; simpl; auto using @keeps_throw. Qed.

Lemma keeps_handler (body : M reply) (onError : exn -> reply) :
  keeps R body -> forall w, R w (snd (handler body onError w)).
Proof.
  intros Hb w. unfold handler. specialize (Hb w).
  destruct (body w) as [[a|e] w1]; exact Hb.
Qed.

Lemma keeps_datastep {A} {HS : Silent R} (f : world -> outcome A * world) :
  (forall w, journal (snd (f w)) = journal w) -> keeps R f.
Proof. intros Hf w. apply silent, Hf. Qed.

End Keeps.

(** ** The journal only grows *)

Section Journal.

Variable P : call -> Prop.

#[export] Instance journalGrows_Stable : Stable (journalGrows P).
Proof.
  split.
  - intros w. exists []. now rewrite app_nil_r.
  - intros a b c (l1 & H1 & F1) (l2 & H2 & F2).
    exists (l1 ++ l2). rewrite H2, H1, app_assoc. split; [reflexivity|].
    apply Forall_app; auto.
Qed.

#[export] Instance journalGrows_Silent : Silent (journalGrows P).
Proof. intros w w' H. exists []. now rewrite app_nil_r. Qed.

Variable E : Environment.

Lemma grows_issue (c : call) : P c -> keeps (journalGrows P) (Db.issue E c).
Proof.
  intros Hc w. unfold Db.issue.
  destruct (faulty E _ c); exists [c]; simpl; auto.
Qed.

Ltac db_step :=
  repeat (apply keeps_bind; [|intros ?]);
  try (apply grows_issue; assumption);
  try apply keeps_liftOutcome;
  try (apply keeps_datastep; intros; reflexivity).

Lemma grows_countDocuments f :
  P (SearchIndex_countDocuments f) -> keeps (journalGrows P) (Db.countDocuments E f).
Proof. intros Hp. unfold Db.countDocuments. db_step. Qed.

Lemma grows_find f c :
  P (SearchIndex_find f c) -> keeps (journalGrows P) (Db.find E f c).
Proof.
  intros Hp. unfold Db.find. db_step.
  destruct (_ <? _)%Z; [apply keeps_throw | apply keeps_datastep; intros; reflexivity].
Qed.

Lemma grows_findOne f :
  P (SearchIndex_findOne f) -> keeps (journalGrows P) (Db.findOne E f).
Proof. intros Hp. unfold Db.findOne. db_step. Qed.

Lemma grows_create d :
  P (SearchIndex_create d) -> keeps (journalGrows P) (Db.create E d).
Proof. intros Hp. unfold Db.create. db_step. Qed.

Lemma grows_deleteOne f :
  P (SearchIndex_deleteOne f) -> keeps (journalGrows P) (Db.deleteOne E f).
Proof. intros Hp. unfold Db.deleteOne. db_step. Qed.

Lemma grows_findHighlights f :
  P (Highlight_find f) -> keeps (journalGrows P) (Db.findHighlights E f).
Proof. intros Hp. unfold Db.findHighlights. db_step. Qed.

Lemma grows_findPDFs f :
  P (PDF_find f) -> keeps (journalGrows P) (Db.findPDFs E f).
Proof. intros Hp. unfold Db.findPDFs. db_step. Qed.

End Journal.

(* ================================================================== *)
(** * Every call of the search operations names the requesting owner *)
(* ================================================================== *)

Ltac grows :=
  repeat first
    [ apply keeps_ret | apply keeps_throw | apply keeps_liftOutcome
    | apply keeps_viaThis | apply keeps_promiseAll
    | apply grows_countDocuments | apply grows_find | apply grows_findOne
    | apply grows_create | apply grows_deleteOne | apply grows_findHighlights
    | apply grows_findPDFs
    | apply keeps_forOf; intros ?
    | apply keeps_tryCatch; [|intros ?]
    | apply keeps_bind; [|intros ?]
    | match goal with
      | |- keeps _ (match ?x with _ => _ end) => destruct x
      | |- keeps _ (if ?b then _ else _) => destruct b
      end ].

Ltac scoped := unfold scopedTo; simpl; repeat constructor.

Section Scoping.

Variable E : Environment.
Variable user : UserId.

Lemma autoIndexHighlights_scoped :
  keeps (journalGrows (scopedTo user)) (SearchController.autoIndexHighlights E user).
Proof. unfold SearchController.autoIndexHighlights. grows; scoped. Qed.

Lemma resolveNames_scoped (uuids : list string) :
  keeps (journalGrows (scopedTo user)) (SearchController.resolveNames E user uuids).
Proof. unfold SearchController.resolveNames. grows; scoped. Qed.

Lemma search_scoped (this : receiver) (req : Req.search) (w : world) :
  journalGrows (scopedTo user) w (snd (SearchController.search E this user req w)).
Proof.
  apply keeps_handler. cbv zeta.
  destruct (Req.s_query req) as [query|]; [|grows].
  destruct (_ || _); [grows|].
  apply keeps_bind; [grows; scoped | intros n].
  destruct (n =? 0).
  - apply keeps_bind; [|intros ?; grows].
    apply keeps_viaThis, autoIndexHighlights_scoped.
  - apply keeps_bind; [grows; scoped | intros results].
    apply keeps_bind; [apply resolveNames_scoped | intros pdfMap]. grows.
Qed.

Lemma advancedSearch_scoped (req : Req.advanced) (w : world) :
  journalGrows (scopedTo user) w (snd (SearchController.advancedSearch E user req w)).
Proof.
  apply keeps_handler. cbv zeta.
  destruct (Req.a_query req) as [query|]; [|grows].
  destruct (_ || _); [grows|].
  apply keeps_bind; [grows; scoped | intros found].
  apply keeps_bind; [apply resolveNames_scoped | intros pdfMap]. grows.
Qed.

Lemma getSuggestions_scoped (query : option string) (w : world) :
  journalGrows (scopedTo user) w (snd (SearchController.getSuggestions E user query w)).
Proof.
  apply keeps_handler.
  destruct query as [query|]; [|grows].
  destruct (_ || _); [grows|].
  apply keeps_bind; [grows; scoped | intros results]. grows.
Qed.

End Scoping.

(* ================================================================== *)
(** * Entries of another owner are invisible *)
(* ================================================================== *)

Lemma filter_absorb {A} (p q : A -> bool) (l : list A) :
  (forall a, p a = true -> q a = true) ->
  filter p (filter q l) = filter p l.
Proof.
  intros H. induction l as [|a l IH]; simpl; [reflexivity|].
  destruct (q a) eqn:Hq; simpl.
  - now rewrite IH.
  - destruct (p a) eqn:Hp; [|exact IH]. apply H in Hp. congruence.
Qed.

Lemma holds_owner re f u d :
  SearchIndex.q_userId f = Some u ->
  SearchIndex.holds re f d = true -> SearchIndex.userId d = u.
Proof.
  unfold SearchIndex.holds. intros ->. simpl.
  rewrite !andb_true_iff. intros [[[[[[H _] _] _] _] _] _].
  apply Nat.eqb_eq in H. congruence.
Qed.

Section Blind.

Variable E : Environment.
Variables u1 u2 : UserId.
Hypothesis distinct_owners : u1 <> u2.

Lemma blind_ret {A} (a : A) : blindTo u2 (ret a).
Proof. intros w; reflexivity. Qed.

Lemma blind_throw {A} (e : exn) : blindTo u2 (@throw A e).
Proof. intros w; reflexivity. Qed.

Lemma blind_liftOutcome {A} (o : outcome A) : blindTo u2 (liftOutcome o).
Proof. intros w; reflexivity. Qed.

Lemma blind_bind {A B} (m : M A) (k : A -> M B) :
  blindTo u2 m -> (forall a, blindTo u2 (k a)) -> blindTo u2 (bind m k).
Proof.
  intros Hm Hk w. unfold bind. rewrite Hm.
  destruct (m w) as [[a|e] w1]; simpl; [apply Hk | reflexivity].
Qed.

Lemma blind_tryCatch {A} (m : M A) (h : exn -> M A) :
  blindTo u2 m -> (forall e, blindTo u2 (h e)) -> blindTo u2 (tryCatch m h).
Proof.
  intros Hm Hh w. unfold tryCatch. rewrite Hm.
  destruct (m w) as [[a|e] w1]; simpl; [reflexivity | apply Hh].
Qed.

Lemma blind_forOf {A} (xs : list A) (body : A -> M unit) :
  (forall x, blindTo u2 (body x)) -> blindTo u2 (forOf xs body).
Proof.
  intros Hb. induction xs as [|x xs IH]; simpl.
  - apply blind_ret.
  - apply blind_bind; auto.
Qed.

Lemma blind_promiseAll {A B} (m1 : M A) (m2 : M B) :
  blindTo u2 m1 -> blindTo u2 m2 -> blindTo u2 (promiseAll m1 m2).
Proof.
  intros H1 H2 w. unfold promiseAll. rewrite H1.
  destruct (m1 w) as [o1 w1]; simpl. rewrite H2.
  destruct (m2 w1) as [o2 w2]; reflexivity.
Qed.

Lemma blind_viaThis {A} (this : receiver) (m : M A) :
  blindTo u2 m -> blindTo u2 (viaThis this m).
Proof. destruct this; simpl; auto using @blind_throw. Qed.

Lemma blind_handler (body : M reply) (onError : exn -> reply) :
  blindTo u2 body ->
  forall w, handler body onError (withoutOwner u2 w)
            = (fst (handler body onError w), withoutOwner u2 (snd (handler body onError w))).
Proof.
  intros Hb w. unfold handler. rewrite Hb.
  destruct (body w) as [[a|e] w1]; reflexivity.
Qed.

Lemma blind_issue (c : call) : blindTo u2 (Db.issue E c).
Proof.
  intros w. unfold Db.issue. simpl.
  destruct (faulty E _ c); reflexivity.
Qed.

(** What a filter naming [u1] selects does not change. *)
Lemma select_withoutOwner f p (l : list SearchIndex.doc) :
  SearchIndex.q_userId f = Some u1 ->
  Db.compile E f = Ok p ->
  filter p (filter (fun d => negb (ownedBy u2 d)) l) = filter p l.
Proof.
  intros Hu Hc. apply filter_absorb. intros d Hp.
  unfold Db.compile in Hc.
  assert (SearchIndex.userId d = u1) as Hd.
  { destruct (SearchIndex.q_content f) as [pat|].
    - destruct (mongoRegex E pat) as [re|]; [|discriminate].
      inversion Hc; subst. eapply holds_owner; eauto.
    - inversion Hc; subst. eapply holds_owner; eauto. }
  unfold ownedBy. rewrite Hd. apply negb_true_iff, Nat.eqb_neq. congruence.
Qed.

Lemma blind_countDocuments f :
  SearchIndex.q_userId f = Some u1 -> blindTo u2 (Db.countDocuments E f).
Proof.
  intros Hu. unfold Db.countDocuments.
  apply blind_bind; [apply blind_issue | intros _].
  destruct (Db.compile E f) as [p|e] eqn:Hc; [|intros w; reflexivity].
  intros w. unfold bind, liftOutcome. simpl.
  now rewrite (select_withoutOwner f p _ Hu Hc).
Qed.

Lemma blind_find f c :
  SearchIndex.q_userId f = Some u1 -> blindTo u2 (Db.find E f c).
Proof.
  intros Hu. unfold Db.find.
  apply blind_bind; [apply blind_issue | intros _].
  destruct (Db.compile E f) as [p|e] eqn:Hc; [|intros w; reflexivity].
  intros w. unfold bind, liftOutcome. simpl.
  destruct (_ <? _)%Z; [reflexivity|]. simpl.
  now rewrite (select_withoutOwner f p _ Hu Hc).
Qed.

Lemma blind_findOne f :
  SearchIndex.q_userId f = Some u1 -> blindTo u2 (Db.findOne E f).
Proof.
  intros Hu. unfold Db.findOne.
  apply blind_bind; [apply blind_issue | intros _].
  destruct (Db.compile E f) as [p|e] eqn:Hc; [|intros w; reflexivity].
  intros w. unfold bind, liftOutcome. simpl.
  f_equal. f_equal.
  assert (forall l, List.find p (filter (fun d => negb (ownedBy u2 d)) l) = List.find p l) as H.
  { intros l. induction l as [|d l IH]; simpl; [reflexivity|].
    destruct (p d) eqn:Hp.
    - assert (negb (ownedBy u2 d) = true) as ->.
      { pose proof (select_withoutOwner f p [d] Hu Hc) as Hs. simpl in Hs.
        rewrite Hp in Hs. destruct (negb (ownedBy u2 d)); [reflexivity|discriminate]. }
      simpl. now rewrite Hp.
    - destruct (negb (ownedBy u2 d)); simpl; [now rewrite Hp|]; exact IH. }
  apply H.
Qed.

Lemma blind_create d :
  SearchIndex.new_userId d = u1 -> blindTo u2 (Db.create E d).
Proof.
  intros Hu. unfold Db.create.
  apply blind_bind; [apply blind_issue | intros _].
  intros w. unfold withoutOwner, withIndex, Db.store. simpl.
  rewrite filter_app. simpl.
  assert (ownedBy u2 (SearchIndex.stamp (nextId w) (now w) d) = false) as ->.
  { unfold ownedBy. simpl. rewrite Hu. apply Nat.eqb_neq; congruence. }
  reflexivity.
Qed.

Lemma blind_findHighlights f : blindTo u2 (Db.findHighlights E f).
Proof.
  unfold Db.findHighlights.
  apply blind_bind; [apply blind_issue | intros _]. intros w; reflexivity.
Qed.

Lemma blind_findPDFs f : blindTo u2 (Db.findPDFs E f).
Proof.
  unfold Db.findPDFs.
  apply blind_bind; [apply blind_issue | intros _]. intros w; reflexivity.
Qed.

Ltac blind :=
  repeat first
    [ apply blind_ret | apply blind_throw | apply blind_liftOutcome
    | apply blind_viaThis | apply blind_promiseAll
    | apply blind_countDocuments; reflexivity
    | apply blind_find; reflexivity
    | apply blind_findOne; reflexivity
    | apply blind_create; reflexivity
    | apply blind_findHighlights | apply blind_findPDFs
    | apply blind_forOf; intros ?
    | apply blind_tryCatch; [|intros ?]
    | apply blind_bind; [|intros ?]
    | match goal with
      | |- blindTo _ (match ?x with _ => _ end) => destruct x
      | |- blindTo _ (if ?b then _ else _) => destruct b
      end ].

Lemma autoIndexHighlights_blind :
  blindTo u2 (SearchController.autoIndexHighlights E u1).
Proof. unfold SearchController.autoIndexHighlights. blind. Qed.

Lemma resolveNames_blind (uuids : list string) :
  blindTo u2 (SearchController.resolveNames E u1 uuids).
Proof. unfold SearchController.resolveNames. blind. Qed.

Lemma search_blind (this : receiver) (req : Req.search) (w : world) :
  fst (SearchController.search E this u1 req (withoutOwner u2 w))
  = fst (SearchController.search E this u1 req w).
Proof.
  unfold SearchController.search. rewrite blind_handler; [reflexivity|].
  cbv zeta.
  destruct (Req.s_query req) as [query|]; [|blind].
  destruct (_ || _); [blind|].
  apply blind_bind; [blind | intros n].
  destruct (n =? 0).
  - apply blind_bind; [|intros ?; blind].
    apply blind_viaThis, autoIndexHighlights_blind.
  - apply blind_bind; [blind | intros results].
    apply blind_bind; [apply resolveNames_blind | intros pdfMap]. blind.
Qed.

Lemma advancedSearch_blind (req : Req.advanced) (w : world) :
  fst (SearchController.advancedSearch E u1 req (withoutOwner u2 w))
  = fst (SearchController.advancedSearch E u1 req w).
Proof.
  unfold SearchController.advancedSearch. rewrite blind_handler; [reflexivity|].
  cbv zeta.
  destruct (Req.a_query req) as [query|]; [|blind].
  destruct (_ || _); [blind|].
  apply blind_bind; [blind | intros found].
  apply blind_bind; [apply resolveNames_blind | intros pdfMap]. blind.
Qed.

Lemma getSuggestions_blind (query : option string) (w : world) :
  fst (SearchController.getSuggestions E u1 query (withoutOwner u2 w))
  = fst (SearchController.getSuggestions E u1 query w).
Proof.
  unfold SearchController.getSuggestions. rewrite blind_handler; [reflexivity|].
  destruct query as [query|]; [|blind].
  destruct (_ || _); [blind|].
  apply blind_bind; [blind | intros results]. blind.
Qed.

End Blind.

(* ================================================================== *)
(** * The storage operations, step by step *)
(* ================================================================== *)

Section Runs.

Variable E : Environment.

Lemma countDocuments_run f w :
  Db.countDocuments E f w =
  (if faulty E (length (journal w)) (SearchIndex_countDocuments f)
   then Throw StorageError
   else match Db.compile E f with
        | Ok p => Ok (length (filter p (searchIndex w)))
        | Throw e => Throw e
        end,
   record (SearchIndex_countDocuments f) w).
Proof.
  unfold Db.countDocuments, bind, Db.issue, liftOutcome.
  destruct (faulty E _ _); [reflexivity|].
  destruct (Db.compile E f); reflexivity.
Qed.

Lemma find_run f c w :
  Db.find E f c w =
  (if faulty E (length (journal w)) (SearchIndex_find f c)
   then Throw StorageError
   else match Db.compile E f with
        | Ok p => if (SearchIndex.skip c <? 0)%Z then Throw StorageError
                  else Ok (SearchIndex.page c (filter p (searchIndex w)))
        | Throw e => Throw e
        end,
   record (SearchIndex_find f c) w).
Proof.
  unfold Db.find, bind, Db.issue, liftOutcome.
  destruct (faulty E _ _); [reflexivity|].
  destruct (Db.compile E f); [|reflexivity].
  destruct (_ <? _)%Z; reflexivity.
Qed.

Lemma findOne_run f w :
  Db.findOne E f w =
  (if faulty E (length (journal w)) (SearchIndex_findOne f)
   then Throw StorageError
   else match Db.compile E f with
        | Ok p => Ok (List.find p (searchIndex w))
        | Throw e => Throw e
        end,
   record (SearchIndex_findOne f) w).
Proof.
  unfold Db.findOne, bind, Db.issue, liftOutcome.
  destruct (faulty E _ _); [reflexivity|].
  destruct (Db.compile E f); reflexivity.
Qed.

Lemma create_run d w :
  Db.create E d w =
  if faulty E (length (journal w)) (SearchIndex_create d)
  then (Throw StorageError, record (SearchIndex_create d) w)
  else (Ok tt, Db.store d (record (SearchIndex_create d) w)).
Proof.
  unfold Db.create, bind, Db.issue.
  destruct (faulty E _ _); reflexivity.
Qed.

Lemma deleteOne_run f w :
  Db.deleteOne E f w =
  if faulty E (length (journal w)) (SearchIndex_deleteOne f)
  then (Throw StorageError, record (SearchIndex_deleteOne f) w)
  else match Db.compile E f with
       | Ok p => (Ok tt, withIndex (record (SearchIndex_deleteOne f) w)
                           (SearchIndex.removeFirst p (searchIndex w)))
       | Throw e => (Throw e, record (SearchIndex_deleteOne f) w)
       end.
Proof.
  unfold Db.deleteOne, bind, Db.issue, liftOutcome.
  destruct (faulty E _ _); [reflexivity|].
  destruct (Db.compile E f); reflexivity.
Qed.

Lemma compile_plain f :
  SearchIndex.q_content f = None ->
  Db.compile E f = Ok (SearchIndex.holds (fun _ => true) f).
Proof. unfold Db.compile. now intros ->. Qed.

Lemma compile_regex f pattern :
  SearchIndex.q_content f = Some pattern ->
  Db.compile E f = match mongoRegex E pattern with
                   | Some re => Ok (SearchIndex.holds re f)
                   | None => Throw StorageError
                   end.
Proof. unfold Db.compile. now intros ->. Qed.

(** The filter of an annotation's entry selects exactly its entries. *)
Lemma compile_byHighlight annotationId owner :
  Db.compile E (SearchController.byHighlight annotationId owner)
  = Ok (SearchIndex.holds (fun _ => true) (SearchController.byHighlight annotationId owner)).
Proof. reflexivity. Qed.

Lemma holds_byHighlight re annotationId owner d :
  SearchIndex.holds re (SearchController.byHighlight annotationId owner) d
  = isUnitOf annotationId owner d.
Proof.
  unfold SearchIndex.holds, isUnitOf. simpl.
  rewrite !andb_true_r. apply andb_comm.
Qed.

End Runs.

(* ================================================================== *)
(** * Where search results come from *)
(* ================================================================== *)

Lemma mapOutcome_In {A B} (f : A -> outcome B) (l : list A) (bs : list B) :
  SearchController.mapOutcome f l = Ok bs ->
  forall b, In b bs -> exists a, In a l /\ f a = Ok b.
Proof.
  revert bs. induction l as [|a l IH]; simpl; intros bs H b Hb.
  - inversion H; subst. contradiction.
  - destruct (f a) as [b0|e] eqn:Hf; [|discriminate].
    destruct (SearchController.mapOutcome f l) as [bs0|e]; [|discriminate].
    inversion H; subst. destruct Hb as [<-|Hb]; [eauto|].
    destruct (IH _ eq_refl _ Hb) as (a' & Ha & Hfa). eauto.
Qed.

Lemma insertNewest_In d e l :
  In e (SearchIndex.insertNewest d l) -> e = d \/ In e l.
Proof.
  induction l as [|x l IH]; simpl.
  - intros [<-|[]]; auto.
  - destruct (_ <=? _); simpl; intros [H|H]; auto.
    destruct (IH H); auto.
Qed.

Lemma newestFirst_In e l : In e (SearchIndex.newestFirst l) -> In e l.
Proof.
  induction l as [|d l IH]; simpl; [auto|].
  intros H. apply insertNewest_In in H as [->|H]; auto.
Qed.

Lemma firstn_In {A} (n : nat) (l : list A) (a : A) : In a (firstn n l) -> In a l.
Proof.
  intros H. rewrite <- (firstn_skipn n l). apply in_or_app; auto.
Qed.

Lemma skipn_In {A} (n : nat) (l : list A) (a : A) : In a (skipn n l) -> In a l.
Proof.
  intros H. rewrite <- (firstn_skipn n l). apply in_or_app; auto.
Qed.

Lemma page_In c e l : In e (SearchIndex.page c l) -> In e l.
Proof.
  unfold SearchIndex.page, SearchIndex.limitTo. intros H.
  assert (In e (skipn (Z.to_nat (SearchIndex.skip c))
                  (if SearchIndex.sortNewest c then SearchIndex.newestFirst l else l))) as H'.
  { destruct (_ =? 0); [exact H | eapply firstn_In; eauto]. }
  apply skipn_In in H'. destruct (SearchIndex.sortNewest c); auto using newestFirst_In.
Qed.

Lemma formatResult_shows E pdfMap query d r :
  SearchController.formatResult E pdfMap query d = Ok r -> shows r d.
Proof.
  unfold SearchController.formatResult.
  destruct (SearchController.highlightSearchTerms E _ _); [|discriminate].
  intros H; inversion H; subst. repeat split.
Qed.

(** Replies of the failure paths carry no result. *)
Ltac no_results :=
  repeat match goal with
         | |- context [faulty ?E ?n ?c] => destruct (faulty E n c)
         end;
  simpl; contradiction.

Lemma search_results_origin E this user req w r :
  In r (resultsOf (fst (SearchController.search E this user req w))) ->
  exists q re d,
    Req.s_query req = Some q /\ mongoRegex E q = Some re
    /\ In d (searchIndex w) /\ SearchIndex.userId d = user
    /\ re (SearchIndex.content d) = true /\ shows r d.
Proof.
  unfold SearchController.search, handler. cbv zeta.
  destruct (Req.s_query req) as [q|] eqn:Hq; [|simpl; contradiction].
  destruct (_ || _) eqn:Hshort; [simpl; contradiction|].
  unfold bind at 1. rewrite countDocuments_run.
  destruct (faulty E _ _); [simpl; contradiction|].
  rewrite compile_plain by reflexivity. cbv iota.
  destruct (_ =? 0).
  - unfold bind. destruct (viaThis _ _ _) as [[a|e] w1]; simpl; contradiction.
  - unfold bind at 1. rewrite find_run.
    destruct (faulty E _ _); [simpl; contradiction|].
    rewrite (compile_regex _ _ q) by reflexivity.
    destruct (mongoRegex E q) as [re|] eqn:Hre; [|simpl; contradiction].
    cbn [SearchIndex.skip]. change (0 <? 0)%Z with false. cbv iota.
    match goal with |- context [SearchIndex.page ?c (filter ?p ?l)] =>
      set (results := SearchIndex.page c (filter p l));
      assert (forall d, In d results -> In d (searchIndex w) /\ p d = true) as Hres
    end.
    { intros d Hd. apply page_In, filter_In in Hd. exact Hd. }
    clearbody results.
    unfold bind at 1.
    destruct (SearchController.resolveNames _ _ _ _) as [[pdfMap|e] w2]; [|simpl; contradiction].
    unfold bind, liftOutcome.
    destruct (SearchController.mapOutcome _ _) as [formatted|e] eqn:Hmap; [|simpl; contradiction].
    simpl. intros Hin.
    destruct (mapOutcome_In _ _ _ Hmap _ Hin) as (d & Hd & Hfmt).
    apply Hres in Hd as [Hd Hp].
    exists q, re, d. split; [reflexivity|]. split; [exact Hre|].
    split; [exact Hd|]. split; [|split].
    + eapply holds_owner; [|exact Hp]. reflexivity.
    + unfold SearchIndex.holds in Hp. simpl in Hp.
      rewrite !andb_true_iff in Hp. tauto.
    + apply (formatResult_shows _ _ _ _ _ Hfmt).
Qed.

Lemma advancedSearch_results_origin E user req w r :
  In r (resultsOf (fst (SearchController.advancedSearch E user req w))) ->
  exists q re d,
    Req.a_query req = Some q /\ mongoRegex E q = Some re
    /\ In d (searchIndex w) /\ SearchIndex.userId d = user
    /\ re (SearchIndex.content d) = true /\ shows r d.
Proof.
  unfold SearchController.advancedSearch, handler. cbv zeta.
  destruct (Req.a_query req) as [q|] eqn:Hq; [|simpl; contradiction].
  destruct (_ || _) eqn:Hshort; [simpl; contradiction|].
  unfold bind at 1. unfold promiseAll.
  rewrite find_run. cbv beta iota. rewrite countDocuments_run.
  rewrite (compile_regex _ _ q) by reflexivity.
  destruct (mongoRegex E q) as [re|] eqn:Hre; [|no_results].
  destruct (faulty E _ (SearchIndex_find _ _)); [no_results|].
  destruct (_ <? _)%Z; [no_results|].
  destruct (faulty E _ _); [no_results|].
  cbn [fst snd searchIndex record].
  match goal with |- context [SearchIndex.page ?c (filter ?p ?l)] =>
    set (results := SearchIndex.page c (filter p l));
    assert (forall d, In d results -> In d (searchIndex w) /\ p d = true) as Hres
  end.
  { intros d Hd. apply page_In, filter_In in Hd. exact Hd. }
  clearbody results.
  unfold bind at 1.
  destruct (SearchController.resolveNames _ _ _ _) as [[pdfMap|e] w2]; [|simpl; contradiction].
  unfold bind, liftOutcome.
  destruct (SearchController.mapOutcome _ _) as [formatted|e] eqn:Hmap; [|simpl; contradiction].
  simpl. intros Hin.
  destruct (mapOutcome_In _ _ _ Hmap _ Hin) as (d & Hd & Hfmt).
  apply Hres in Hd as [Hd Hp].
  exists q, re, d. split; [reflexivity|]. split; [exact Hre|].
  split; [exact Hd|]. split; [|split].
  - eapply holds_owner; [|exact Hp]. reflexivity.
  - unfold SearchIndex.holds in Hp. simpl in Hp.
    rewrite !andb_true_iff in Hp. tauto.
  - apply (formatResult_shows _ _ _ _ _ Hfmt).
Qed.

(* ================================================================== *)
(** * What a computation returns *)
(* ================================================================== *)

Lemma yields_ret {A} (Q : A -> Prop) (a : A) : Q a -> yields Q (ret a).
Proof. intros H w a' w' E; inversion E; subst; exact H. Qed.

Lemma yields_throw {A} (Q : A -> Prop) (e : exn) : yields Q (throw e).
Proof. intros w a' w' E; inversion E. Qed.

Lemma yields_bind {A B} (Q : B -> Prop) (m : M A) (k : A -> M B) :
  (forall a, yields Q (k a)) -> yields Q (bind m k).
Proof.
  intros Hk w b w' H. apply bind_inv_Ok in H as (a & w1 & _ & H). eapply Hk; eauto.
Qed.

Ltac yields_auto :=
  repeat first
    [ apply yields_ret | apply yields_throw
    | apply yields_bind; intros ?
    | match goal with
      | |- yields _ (match ?x with _ => _ end) => destruct x
      | |- yields _ (if ?b then _ else _) => destruct b
      end ].

Lemma handler_status (P : reply -> Prop) (body : M reply) (onError : exn -> reply) w :
  yields P body -> (forall e, P (onError e)) -> P (fst (handler body onError w)).
Proof.
  intros Hb He. unfold handler.
  destruct (body w) as [[r|e] w1] eqn:Hw; simpl; [eapply Hb; eauto | apply He].
Qed.

Lemma tooShort_guard (q : string) :
  String.eqb q "" || (String.length (JS.trim q) <? 2) = tooShort (Some q).
Proof.
  unfold tooShort. destruct q as [|c q]; [reflexivity|].
  reflexivity.
Qed.

(* ================================================================== *)
(** * The reference environment meets the assumptions *)
(* ================================================================== *)

Lemma isMeta_dot (c : ascii) : Regex.isMeta c = false -> Ascii.eqb c "."%char = false.
Proof.
  intros H. destruct (Ascii.eqb_spec c "."%char) as [->|]; [discriminate H | reflexivity].
Qed.

Lemma parse_literal (p : string) :
  Regex.isLiteral p = true ->
  exists r, Regex.parse p = Some r
            /\ forall s, Regex.atomsPrefix r s = Regex.ciPrefix p s.
Proof.
  induction p as [|c p IH]; simpl; intros H.
  - exists []. split; [reflexivity|]. intros s; destruct s; reflexivity.
  - apply andb_true_iff in H as [Hc Hp]. apply negb_true_iff in Hc.
    destruct (IH Hp) as (r & -> & Hr).
    rewrite (isMeta_dot _ Hc), Hc. exists (Regex.Lit c :: r). split; [reflexivity|].
    intros [|b s]; simpl; [reflexivity|]. now rewrite Hr.
Qed.

Lemma Reference_LiteralMongo faults : LiteralMongo (Reference.env faults).
Proof.
  intros p Hp. destruct (parse_literal p Hp) as (r & Hr & Hpre).
  exists (Regex.atomsOccur r). simpl. unfold Reference.mongo. rewrite Hr.
  split; [reflexivity|].
  intros s. induction s as [|c s IH]; simpl; rewrite Hpre; [reflexivity|].
  now rewrite IH.
Qed.

Lemma Reference_LiteralMark faults : LiteralMark (Reference.env faults).
Proof.
  intros t Hlit Hne. exists (Regex.markAll t). simpl. unfold Reference.mark.
  rewrite Hlit. destruct (String.eqb_spec t ""); [contradiction|]. auto.
Qed.

Lemma Reference_Reliable : Reliable (Reference.env Reference.reliable).
Proof. intros n c; reflexivity. Qed.

(* ================================================================== *)
(** * Validation of the query *)
(* ================================================================== *)


(* ================================================================== *)
(** * Indexing and removing one annotation *)
(* ================================================================== *)

Lemma find_pointwise {A} (p q : A -> bool) (l : list A) :
  (forall a, p a = q a) -> List.find p l = List.find q l.
Proof.
  intros H. induction l as [|a l IH]; simpl; [reflexivity|]. now rewrite H, IH.
Qed.

Section Annotation.

Variable E : Environment.

Lemma indexHighlight_run (A : Highlight.doc) (owner : UserId) (w : world) :
  let look := SearchIndex_findOne (SearchController.byHighlight (Highlight.uuid A) owner) in
  let add := SearchIndex_create (SearchController.annotationEntry A owner) in
  SearchController.indexHighlight E A owner w =
  (Ok tt,
   if faulty E (length (journal w)) look then record look w
   else match List.find (isUnitOf (Highlight.uuid A) owner) (searchIndex w) with
        | Some _ => record look w
        | None =>
            if faulty E (length (journal (record look w))) add
            then record add (record look w)
            else Db.store (SearchController.annotationEntry A owner)
                          (record add (record look w))
        end).
Proof.
  cbv zeta. unfold SearchController.indexHighlight, tryCatch, bind.
  rewrite findOne_run, compile_byHighlight.
  destruct (faulty E _ _); [reflexivity|].
  rewrite (find_pointwise _ (isUnitOf (Highlight.uuid A) owner))
    by (intros d; apply holds_byHighlight).
  cbn [searchIndex record].
  destruct (List.find _ _); [reflexivity|].
  rewrite create_run. destruct (faulty E _ _); reflexivity.
Qed.

Lemma removeHighlightIndex_run (highlightId : string) (owner : UserId) (w : world) :
  let del := SearchIndex_deleteOne (SearchController.byHighlight highlightId owner) in
  SearchController.removeHighlightIndex E highlightId owner w =
  (Ok tt,
   if faulty E (length (journal w)) del then record del w
   else withIndex (record del w)
          (SearchIndex.removeFirst (isUnitOf highlightId owner) (searchIndex w))).
Proof.
  cbv zeta. unfold SearchController.removeHighlightIndex, tryCatch.
  rewrite deleteOne_run, compile_byHighlight.
  destruct (faulty E _ _); [reflexivity|].
  f_equal. f_equal. clear. induction (searchIndex w) as [|d l IH]; simpl; [reflexivity|].
  rewrite holds_byHighlight, IH. reflexivity.
Qed.

End Annotation.

Lemma find_none_count {A} (p : A -> bool) (l : list A) :
  List.find p l = None <-> length (filter p l) = 0.
Proof.
  induction l as [|a l IH]; simpl; [tauto|].
  destruct (p a); simpl; [split; discriminate | exact IH].
Qed.

Lemma unitsOf_store annotationId owner (A : Highlight.doc) (w : world) :
  Highlight.uuid A = annotationId ->
  unitsOf annotationId owner
    (searchIndex (Db.store (SearchController.annotationEntry A owner) w))
  = S (unitsOf annotationId owner (searchIndex w)).
Proof.
  intros <-. unfold unitsOf, Db.store. simpl. rewrite filter_app, length_app. simpl.
  unfold isUnitOf at 2. simpl. rewrite String.eqb_refl, Nat.eqb_refl. simpl. lia.
Qed.

Lemma removeFirst_length (p : SearchIndex.doc -> bool) l :
  length l <= S (length (SearchIndex.removeFirst p l)).
Proof.
  induction l as [|d l IH]; simpl; [lia|]. destruct (p d); simpl; lia.
Qed.

Lemma removeFirst_others (p : SearchIndex.doc -> bool) l :
  filter (fun d => negb (p d)) (SearchIndex.removeFirst p l)
  = filter (fun d => negb (p d)) l.
Proof.
  induction l as [|d l IH]; simpl; [reflexivity|].
  destruct (p d) eqn:Hp; simpl; [reflexivity|]. now rewrite Hp, IH.
Qed.

Lemma removeFirst_In (p : SearchIndex.doc -> bool) l d :
  In d (SearchIndex.removeFirst p l) -> In d l.
Proof.
  induction l as [|e l IH]; simpl; [auto|].
  destruct (p e); simpl; intuition.
Qed.

Lemma removeFirst_count (p : SearchIndex.doc -> bool) l :
  length (filter p (SearchIndex.removeFirst p l)) = pred (length (filter p l)).
Proof.
  induction l as [|d l IH]; simpl; [reflexivity|].
  destruct (p d) eqn:Hp; simpl; [reflexivity|]. now rewrite Hp.
Qed.

(** One call either leaves the index alone or adds the first entry of
    the annotation. *)
Lemma indexHighlight_effect E (A : Highlight.doc) (owner : UserId) (w : world) :
  let w' := snd (SearchController.indexHighlight E A owner w) in
  searchIndex w' = searchIndex w
  \/ (unitsOf (Highlight.uuid A) owner (searchIndex w) = 0
      /\ unitsOf (Highlight.uuid A) owner (searchIndex w') = 1).
Proof.
  cbv zeta. rewrite indexHighlight_run. cbv zeta. cbn [snd].
  destruct (faulty E _ _); [left; reflexivity|].
  destruct (List.find _ _) eqn:Hf; [left; reflexivity|].
  destruct (faulty E _ _); [left; reflexivity|].
  right. apply find_none_count in Hf.
  rewrite unitsOf_store by reflexivity. unfold unitsOf at 1 2. cbn [searchIndex record].
  rewrite Hf. auto.
Qed.

(** With a storage that does not fail the annotation is indexed after
    the call, and an annotation already indexed leaves the index alone. *)
Lemma indexHighlight_reliable E (A : Highlight.doc) (owner : UserId) (w : world) :
  Reliable E ->
  let w' := snd (SearchController.indexHighlight E A owner w) in
  (unitsOf (Highlight.uuid A) owner (searchIndex w) = 0
   -> unitsOf (Highlight.uuid A) owner (searchIndex w') = 1)
  /\ (1 <= unitsOf (Highlight.uuid A) owner (searchIndex w)
      -> searchIndex w' = searchIndex w).
Proof.
  intros HE. cbv zeta. rewrite indexHighlight_run. cbv zeta. cbn [snd].
  rewrite !HE.
  destruct (List.find _ _) eqn:Hf.
  - split; [|reflexivity]. intros H0. apply find_none_count in H0. congruence.
  - apply find_none_count in Hf. split.
    + intros _. rewrite unitsOf_store by reflexivity.
      unfold unitsOf. cbn [searchIndex record]. now rewrite Hf.
    + unfold unitsOf. rewrite Hf. lia.
Qed.

(** The data-model invariant "at most one entry per owner and
    annotation" is kept by indexing and by removing an annotation. *)
Lemma indexHighlight_invariant E (A : Highlight.doc) (owner : UserId) (w : world) :
  (forall id o, unitsOf id o (searchIndex w) <= 1) ->
  forall id o,
    unitsOf id o (searchIndex (snd (SearchController.indexHighlight E A owner w))) <= 1.
Proof.
  intros Hinv id o.
  destruct (indexHighlight_effect E A owner w) as [Hsame|[Hzero Hone]].
  - rewrite Hsame. apply Hinv.
  - revert Hone. rewrite indexHighlight_run. cbv zeta. cbn [snd].
    destruct (faulty E _ _); [intros _; apply Hinv|].
    destruct (List.find _ _); [intros _; apply Hinv|].
    destruct (faulty E _ _); [intros _; apply Hinv|].
    intros Hone. unfold unitsOf in *. cbn [Db.store searchIndex record] in *.
    rewrite filter_app, length_app in *. cbn [filter] in *.
    destruct (isUnitOf id o _) eqn:Hnew; [|simpl; specialize (Hinv id o); lia].
    assert (id = Highlight.uuid A /\ o = owner) as [-> ->].
    { unfold isUnitOf in Hnew. cbn in Hnew. apply andb_true_iff in Hnew as [Hi Ho].
      apply String.eqb_eq in Hi. apply Nat.eqb_eq in Ho. auto. }
    rewrite Hzero. simpl. lia.
Qed.

Lemma removeHighlightIndex_invariant E (annotationId : string) (owner : UserId) (w : world) :
  (forall id o, unitsOf id o (searchIndex w) <= 1) ->
  forall id o,
    unitsOf id o
      (searchIndex (snd (SearchController.removeHighlightIndex E annotationId owner w))) <= 1.
Proof.
  intros Hinv id o. rewrite removeHighlightIndex_run. cbv zeta. cbn [snd].
  destruct (faulty E _ _); [apply Hinv|]. cbn [searchIndex withIndex].
  specialize (Hinv id o). unfold unitsOf in *.
  etransitivity; [|exact Hinv]. clear.
  induction (searchIndex w) as [|d l IH]; cbn [SearchIndex.removeFirst filter]; [lia|].
  destruct (isUnitOf annotationId owner d); cbn [filter];
    destruct (isUnitOf id o d); cbn [length]; lia.
Qed.

(* ================================================================== *)
(** * The invariants of the index *)
(* ================================================================== *)

#[export] Instance staysWellFormed_Stable : Stable staysWellFormed.
Proof. split; unfold staysWellFormed; auto. Qed.

Lemma tryCatch_swallow (m : M unit) (w : world) :
  snd (tryCatch m (fun _ => ret tt) w) = snd (m w).
Proof. unfold tryCatch. destruct (m w) as [[[]|e] w1]; reflexivity. Qed.

Section Invariants.

Variable E : Environment.

(** A step that leaves the index alone keeps its invariants. *)
Lemma keeps_index {A} (m : M A) :
  (forall w, searchIndex (snd (m w)) = searchIndex w) -> keeps staysWellFormed m.
Proof. intros H w Hwf. now rewrite H. Qed.

Lemma wf_issue c : keeps staysWellFormed (Db.issue E c).
Proof. apply keeps_index. intros w. unfold Db.issue. destruct (faulty E _ c); reflexivity. Qed.

Ltac reads :=
  repeat (apply keeps_bind; [|intros ?]);
  try apply wf_issue; try apply keeps_liftOutcome;
  try (apply keeps_index; intros; reflexivity).

Lemma wf_countDocuments f : keeps staysWellFormed (Db.countDocuments E f).
Proof. unfold Db.countDocuments. reads. Qed.

Lemma wf_find f c : keeps staysWellFormed (Db.find E f c).
Proof.
  unfold Db.find. reads.
  destruct (_ <? _)%Z; [apply keeps_throw | apply keeps_index; intros; reflexivity].
Qed.

Lemma wf_findOne f : keeps staysWellFormed (Db.findOne E f).
Proof. unfold Db.findOne. reads. Qed.

Lemma wf_findHighlights f : keeps staysWellFormed (Db.findHighlights E f).
Proof. unfold Db.findHighlights. reads. Qed.

Lemma wf_findOneAndDeleteHighlight f :
  keeps staysWellFormed (Db.findOneAndDeleteHighlight E f).
Proof. unfold Db.findOneAndDeleteHighlight. reads. Qed.

Lemma wf_findPDFs f : keeps staysWellFormed (Db.findPDFs E f).
Proof. unfold Db.findPDFs. reads. Qed.

Lemma wf_findOnePDF f : keeps staysWellFormed (Db.findOnePDF E f).
Proof. unfold Db.findOnePDF. reads. Qed.

Lemma wf_indexHighlight (A : Highlight.doc) (owner : UserId) :
  keeps staysWellFormed (SearchController.indexHighlight E A owner).
Proof.
  intros w [Hone Hpdf]. split.
  - now apply indexHighlight_invariant.
  - rewrite indexHighlight_run. cbv zeta. cbn [snd].
    destruct (faulty E _ _); [exact Hpdf|].
    destruct (List.find _ _); [exact Hpdf|].
    destruct (faulty E _ _); [exact Hpdf|].
    cbn [Db.store searchIndex record]. intros d Hd Hkind.
    apply in_app_or in Hd as [Hd|[<-|[]]]; [now apply Hpdf | discriminate Hkind].
Qed.

Lemma wf_removeHighlightIndex (highlightId : string) (owner : UserId) :
  keeps staysWellFormed (SearchController.removeHighlightIndex E highlightId owner).
Proof.
  intros w [Hone Hpdf]. split.
  - now apply removeHighlightIndex_invariant.
  - rewrite removeHighlightIndex_run. cbv zeta. cbn [snd].
    destruct (faulty E _ _); [exact Hpdf|]. cbn [searchIndex withIndex].
    intros d Hd. apply Hpdf. eapply removeFirst_In; eauto.
Qed.

Lemma wf_autoIndexHighlights (user : UserId) :
  keeps staysWellFormed (SearchController.autoIndexHighlights E user).
Proof.
  unfold SearchController.autoIndexHighlights.
  apply keeps_tryCatch; [|intros _; apply keeps_ret].
  apply keeps_bind; [apply wf_findHighlights | intros hs].
  apply keeps_forOf. intros h w.
  rewrite <- tryCatch_swallow. apply (wf_indexHighlight h user).
Qed.

(** Entries of body text do not touch the invariants. *)
Lemma store_pageText_wellFormed (d : SearchIndex.fresh) (w : world) :
  SearchIndex.new_highlightId d = None ->
  wellFormed (searchIndex w) -> wellFormed (searchIndex (Db.store d w)).
Proof.
  intros Hd [Hone Hpdf]. unfold Db.store. cbn [searchIndex]. split.
  - intros id o. unfold unitsOf. rewrite filter_app, length_app. cbn [filter].
    unfold isUnitOf at 2. cbn [SearchIndex.highlightId SearchIndex.stamp]. rewrite Hd.
    cbn. specialize (Hone id o). unfold unitsOf in Hone. lia.
  - intros e He Hkind. apply in_app_or in He as [He|[<-|[]]]; [now apply Hpdf | exact Hd].
Qed.

Lemma indexEntries_plain uuid user contents index :
  Forall (fun d => SearchIndex.new_highlightId d = None)
         (SearchController.indexEntries uuid user index contents).
Proof. revert index. induction contents; intros index; simpl; constructor; auto. Qed.

Lemma wf_insertMany (ds : list SearchIndex.fresh) :
  Forall (fun d => SearchIndex.new_highlightId d = None) ds ->
  keeps staysWellFormed (Db.insertMany E ds).
Proof.
  intros Hds. unfold Db.insertMany.
  apply keeps_bind; [apply wf_issue | intros _].
  intros w. cbn [snd]. revert w.
  induction Hds as [|d ds Hd _ IH]; intros w Hwf; simpl; [exact Hwf|].
  apply IH. now apply store_pageText_wellFormed.
Qed.

Ltac wf :=
  repeat first
    [ apply keeps_ret | apply keeps_throw | apply keeps_liftOutcome
    | apply keeps_viaThis | apply keeps_promiseAll
    | apply wf_countDocuments | apply wf_find | apply wf_findOne
    | apply wf_findHighlights | apply wf_findPDFs | apply wf_findOnePDF
    | apply wf_findOneAndDeleteHighlight
    | apply wf_autoIndexHighlights | apply wf_removeHighlightIndex
    | apply wf_insertMany, indexEntries_plain
    | apply keeps_tryCatch; [|intros ?]
    | apply keeps_bind; [|intros ?]
    | match goal with
      | |- keeps _ (match ?x with _ => _ end) => destruct x
      | |- keeps _ (if ?b then _ else _) => destruct b
      end ].

(** Every world the operations lead to from an empty index has a
    well-formed index. *)
Lemma Reachable_wellFormed (w : world) :
  Reachable E w -> wellFormed (searchIndex w).
Proof.
  induction 1 as [w Hempty| w this user req _ IH | w user req _ IH | w user query _ IH
                 | w user uuid _ IH | w A user _ IH | w highlightId user _ IH
                 | w user _ IH | w user uuid _ IH].
  - rewrite Hempty. split; [intros id o; unfold unitsOf; simpl; lia | intros d []].
  - revert IH. unfold SearchController.search.
    apply (keeps_handler (R := staysWellFormed)). cbv zeta.
    destruct (Req.s_query req) as [q|]; [|wf].
    destruct (_ || _); [wf|].
    apply keeps_bind; [wf | intros n].
    destruct (n =? 0); [wf|].
    apply keeps_bind; [wf | intros results].
    unfold SearchController.resolveNames. wf.
  - revert IH. unfold SearchController.advancedSearch.
    apply (keeps_handler (R := staysWellFormed)). cbv zeta.
    destruct (Req.a_query req) as [q|]; [|wf].
    destruct (_ || _); [wf|].
    apply keeps_bind; [wf | intros found].
    unfold SearchController.resolveNames. wf.
  - revert IH. unfold SearchController.getSuggestions.
    apply (keeps_handler (R := staysWellFormed)).
    destruct query as [q|]; [|wf]. destruct (_ || _); wf.
  - revert IH. unfold SearchController.indexPdf.
    apply (keeps_handler (R := staysWellFormed)). wf.
  - revert IH. apply wf_indexHighlight.
  - revert IH. apply wf_removeHighlightIndex.
  - revert IH. apply wf_autoIndexHighlights.
  - revert IH. unfold HighlightController.delete.
    apply (keeps_handler (R := staysWellFormed)). wf.
Qed.

End Invariants.

(** Claim C1: Idempotent indexing.  Starting from an index that holds at
    most one entry for annotation [A] and [owner] (as every index does
    that the operations build from an empty one, [Reachable_wellFormed]),
    two calls of [indexHighlight A owner] in a row both return normally
    and never leave more than one such entry, whatever the storage does;
    when the storage does not fail, exactly one entry for [A] and [owner]
    is stored afterwards and the second call leaves the index as the
    first one left it. *)
Theorem C1_idempotent_indexing
  (E : Environment) (A : Highlight.doc) (owner : UserId) (w : world) :
  unitsOf (Highlight.uuid A) owner (searchIndex w) <= 1 ->
  let first := SearchController.indexHighlight E A owner w in
  let second := SearchController.indexHighlight E A owner (snd first) in
  fst first = Ok tt
  /\ fst second = Ok tt
  /\ unitsOf (Highlight.uuid A) owner (searchIndex (snd second)) <= 1
  /\ (Reliable E ->
      unitsOf (Highlight.uuid A) owner (searchIndex (snd second)) = 1
      /\ searchIndex (snd second) = searchIndex (snd first)).
Proof.
  intros Hw first second.
  pose proof (indexHighlight_effect E A owner w) as H1.
  pose proof (indexHighlight_effect E A owner (snd first)) as H2.
  cbv zeta in H1, H2. fold first in H1, H2. fold second in H2.
  split; [unfold first; now rewrite indexHighlight_run|].
  split; [unfold second; now rewrite indexHighlight_run|].
  split.
  - destruct H2 as [H2|[_ H2]]; [|lia]. rewrite H2.
    destruct H1 as [H1|[_ H1]]; [rewrite H1|]; lia.
  - intros HE.
    destruct (indexHighlight_reliable E A owner w HE) as [Ha Hb].
    destruct (indexHighlight_reliable E A owner (snd first) HE) as [Hc Hd].
    cbv zeta in Ha, Hb, Hc, Hd. fold first in Ha, Hb, Hc, Hd. fold second in Hc, Hd.
    assert (unitsOf (Highlight.uuid A) owner (searchIndex (snd first)) = 1) as Hone.
    { destruct (unitsOf (Highlight.uuid A) owner (searchIndex w)) as [|[|n]] eqn:Hn.
      - now apply Ha.
      - rewrite Hb by lia. exact Hn.
      - lia. }
    rewrite Hd by lia. auto.
Qed.

Lemma C1_idempotent_indexing_witness :
  let w := Sample.state [] [Sample.h1] [Sample.doc1] in
  let first := SearchController.indexHighlight Sample.env Sample.h1 Sample.alice w in
  let second := SearchController.indexHighlight Sample.env Sample.h1 Sample.alice (snd first) in
  unitsOf "h1" Sample.alice (searchIndex w) <= 1
  /\ fst second = Ok tt
  /\ unitsOf "h1" Sample.alice (searchIndex (snd second)) = 1
  /\ searchIndex (snd second) = searchIndex (snd first).
Proof.
  intros w first second.
  assert (unitsOf (Highlight.uuid Sample.h1) Sample.alice (searchIndex w) <= 1) as Hw
    by (vm_compute; lia).
  destruct (C1_idempotent_indexing Sample.env Sample.h1 Sample.alice w Hw)
    as (_ & Hsecond & _ & Hreliable).
  destruct (Hreliable Reference_Reliable) as [Hone Hsame].
  repeat split; assumption.
Defined.

Lemma removeFirst_keeps (p q : SearchIndex.doc -> bool) l :
  (forall d, In d l -> q d = true -> p d = false) ->
  filter q (SearchIndex.removeFirst p l) = filter q l.
Proof.
  induction l as [|d l IH]; simpl; intros H; [reflexivity|].
  destruct (p d) eqn:Hp.
  - destruct (q d) eqn:Hq; [|reflexivity].
    rewrite (H d) in Hp by auto. discriminate.
  - simpl. rewrite IH by auto. reflexivity.
Qed.




(* ================================================================== *)
(** * The zero-index fallback *)
(* ================================================================== *)

Lemma holds_byOwner re user d :
  SearchIndex.holds re (SearchController.byOwner user) d = ownedBy user d.
Proof. unfold SearchIndex.holds, ownedBy. simpl. now rewrite !andb_true_r. Qed.

Lemma autoIndexHighlights_returns E user w :
  fst (SearchController.autoIndexHighlights E user w) = Ok tt.
Proof.
  unfold SearchController.autoIndexHighlights, tryCatch.
  match goal with |- context [bind ?m ?k w] => destruct (bind m k w) as [[[]|e] w1] end;
    reflexivity.
Qed.

(** What [search] does for an owner without index entries, by receiver. *)
Lemma search_zero_index E (this : receiver) (user : UserId) (req : Req.search)
      (q : string) (w : world) :
  let count := SearchIndex_countDocuments (SearchController.byOwner user) in
  Req.s_query req = Some q ->
  tooShort (Some q) = false ->
  faulty E (length (journal w)) count = false ->
  filter (ownedBy user) (searchIndex w) = [] ->
  SearchController.search E this user req w =
  match this with
  | ThisUndefined => (searchFailed TypeError, record count w)
  | ThisController =>
      (needsIndexingReply,
       snd (SearchController.autoIndexHighlights E user (record count w)))
  end.
Proof.
  intros count Hq Hlen Hok Hnone.
  unfold SearchController.search, handler. cbv zeta.
  rewrite Hq, tooShort_guard, Hlen.
  unfold bind at 1. rewrite countDocuments_run. fold count. rewrite Hok.
  rewrite compile_plain by reflexivity.
  rewrite (filter_ext _ (ownedBy user)) by (intros d; apply holds_byOwner).
  rewrite Hnone. cbn [length Nat.eqb].
  destruct this; cbn [viaThis].
  - reflexivity.
  - unfold bind.
    pose proof (autoIndexHighlights_returns E user (record count w)) as Hret.
    destruct (SearchController.autoIndexHighlights E user (record count w)) as [[[]|e] w1];
      [reflexivity | discriminate].
Qed.

(** Called on the controller, [search] runs the fallback as written: the
    backfill is run to its end, the reply is the needsIndexing one, and
    no call of the request reads the content of the index. *)
Lemma search_zero_index_on_controller E (user : UserId) (req : Req.search)
      (q : string) (w : world) :
  let count := SearchIndex_countDocuments (SearchController.byOwner user) in
  Req.s_query req = Some q ->
  tooShort (Some q) = false ->
  faulty E (length (journal w)) count = false ->
  filter (ownedBy user) (searchIndex w) = [] ->
  SearchController.search E ThisController user req w
  = (needsIndexingReply, snd (SearchController.autoIndexHighlights E user (record count w)))
  /\ field "needsIndexing" (bodyOf needsIndexingReply) = Some (VBool true)
  /\ resultsOf needsIndexingReply = []
  /\ journalGrows (fun c => isContentQuery c = false) w
       (snd (SearchController.search E ThisController user req w)).
Proof.
  intros count Hq Hlen Hok Hnone.
  rewrite (search_zero_index E ThisController user req q w Hq Hlen Hok Hnone).
  split; [reflexivity|]. split; [reflexivity|]. split; [reflexivity|].
  cbn [snd]. eapply stable_trans with (b := record count w).
  - exists [count]. split; [reflexivity|]. repeat constructor.
  - assert (keeps (journalGrows (fun c => isContentQuery c = false))
              (SearchController.autoIndexHighlights E user)) as Hk
        by (unfold SearchController.autoIndexHighlights; grows; reflexivity).
    apply Hk.
Qed.

(** Claim C3: Zero-index fallback, as the router runs it.  For a valid query
    of an owner without index entries the handler registered for
    GET /search counts the entries and then fails on
    [this.autoIndexHighlights]: [this] is undefined, the backfill is never
    started, and the reply is the 500 "Search failed" body, without
    [needsIndexing]. *)
Theorem C3_zero_index_fallback_unbound
  (E : Environment) (user : UserId) (req : Req.search) (q : string) (w : world) :
  let count := SearchIndex_countDocuments (SearchController.byOwner user) in
  Req.s_query req = Some q ->
  tooShort (Some q) = false ->
  faulty E (length (journal w)) count = false ->
  filter (ownedBy user) (searchIndex w) = [] ->
  Router.get_search E user req w = (searchFailed TypeError, record count w)
  /\ field "needsIndexing" (bodyOf (fst (Router.get_search E user req w))) = None
  /\ statusOf (fst (Router.get_search E user req w)) = Some 500.
Proof.
  intros count Hq Hlen Hok Hnone. unfold Router.get_search.
  rewrite (search_zero_index E ThisUndefined user req q w Hq Hlen Hok Hnone).
  repeat split.
Qed.

Lemma C3_zero_index_fallback_unbound_witness :
  let w := Sample.state [Sample.entry 7 10 Sample.hb] [Sample.h1; Sample.h2] [Sample.doc1] in
  let run := Router.get_search Sample.env Sample.alice (Sample.simple "machine") w in
  filter (ownedBy Sample.alice) (searchIndex w) = []
  /\ fst run = searchFailed TypeError
  /\ journal (snd run) = [SearchIndex_countDocuments (SearchController.byOwner Sample.alice)]
  /\ searchIndex (snd run) = searchIndex w.
Proof.
  intros w run.
  destruct (C3_zero_index_fallback_unbound Sample.env Sample.alice
              (Sample.simple "machine") "machine" w
              eq_refl eq_refl eq_refl eq_refl) as (Hrun & _ & _).
  unfold run. rewrite Hrun. repeat split.
Defined.

(* ================================================================== *)
(** * Deleting a highlight *)
(* ================================================================== *)

(** Claim C10: Null-safe highlight deletion, as the code runs.  When no
    highlight with the given uuid exists for the owner,
    [findOneAndDelete] yields [null]; the handler then reads
    [highlight.uuid] before the test [if (!highlight)], which throws a
    TypeError: the reply is [next(error)], never the 404 "Highlight not
    found" body. *)
Theorem C10_delete_missing_highlight
  (E : Environment) (user : UserId) (uuid : string) (w : world) :
  let lookup := {| Highlight.q_uuid := Some uuid; Highlight.q_userId := Some user |} in
  faulty E (length (journal w)) (Highlight_findOneAndDelete lookup) = false ->
  List.find (Highlight.holds lookup) (highlights w) = None ->
  fst (HighlightController.delete E user uuid w) = Next TypeError
  /\ statusOf (fst (HighlightController.delete E user uuid w)) <> Some 404
  /\ journal (snd (HighlightController.delete E user uuid w))
     = journal w ++ [Highlight_findOneAndDelete lookup].
Proof.
  intros lookup Hok Hnone.
  assert (HighlightController.delete E user uuid w
          = (Next TypeError,
             withHighlights (record (Highlight_findOneAndDelete lookup) w)
               (Highlight.removeFirst (Highlight.holds lookup) (highlights w)))) as Hrun.
  { unfold HighlightController.delete, handler, bind at 1,
      Db.findOneAndDeleteHighlight, bind at 1, Db.issue.
    fold lookup. rewrite Hok. cbn [highlights record]. rewrite Hnone. reflexivity. }
  rewrite Hrun. split; [reflexivity|]. split; [discriminate | reflexivity].
Qed.

Lemma C10_delete_missing_highlight_witness :
  let w := Sample.state [Sample.entry 1 10 Sample.h1] [Sample.h1; Sample.hb] [Sample.doc1] in
  List.find (Highlight.holds {| Highlight.q_uuid := Some "no-such-uuid";
                                Highlight.q_userId := Some Sample.alice |})
            (highlights w) = None
  /\ fst (HighlightController.delete Sample.env Sample.alice "no-such-uuid" w) = Next TypeError.
Proof.
  intros w. split; [reflexivity|].
  apply (C10_delete_missing_highlight Sample.env Sample.alice "no-such-uuid" w);
    reflexivity.
Defined.

(* ================================================================== *)
(** * The backfill and storage failures *)
(* ================================================================== *)

Section Orderly.

Variable E : Environment.

Lemma orderly_silent {A} (m : M A) :
  (forall w, journal (snd (m w)) = journal w) -> orderly E m.
Proof.
  intros H w. exists []. rewrite app_nil_r. split; [apply H|].
  split; [intros i (c & Hc & _) | intros a _ i (c & Hc & _)];
    destruct i; discriminate.
Qed.

Lemma orderly_ret {A} (a : A) : orderly E (ret a).
Proof. apply orderly_silent. reflexivity. Qed.

Lemma orderly_throw {A} (e : exn) : orderly E (@throw A e).
Proof. apply orderly_silent. reflexivity. Qed.

Lemma orderly_liftOutcome {A} (o : outcome A) : orderly E (liftOutcome o).
Proof. apply orderly_silent. reflexivity. Qed.

Lemma orderly_issue (c : call) : orderly E (Db.issue E c).
Proof.
  intros w. exists [c]. unfold Db.issue.
  destruct (faulty E (length (journal w)) c) eqn:Hf; simpl.
  - split; [reflexivity|]. split.
    + intros [|i] (c' & Hc & _); [reflexivity | destruct i; discriminate].
    + intros a Ha; discriminate.
  - split; [reflexivity|]. split.
    + intros [|i] (c' & Hc & _); [reflexivity | destruct i; discriminate].
    + intros a _ [|i] (c' & Hc & Hfail); [|destruct i; discriminate].
      inversion Hc; subst. rewrite Nat.add_0_r in Hfail. congruence.
Qed.

Lemma orderly_bind {A B} (m : M A) (k : A -> M B) :
  orderly E m -> (forall a, orderly E (k a)) -> orderly E (bind m k).
Proof.
  intros Hm Hk w. unfold bind.
  destruct (Hm w) as (a1 & Hj1 & Hstop1 & Hclean1).
  destruct (m w) as [[a|e] w1]; cbn [fst snd] in *.
  - specialize (Hclean1 a eq_refl).
    destruct (Hk a w1) as (a2 & Hj2 & Hstop2 & Hclean2).
    exists (a1 ++ a2). rewrite Hj2, Hj1, app_assoc. split; [reflexivity|].
    assert (forall i, failsAt E (journal w) (a1 ++ a2) i ->
                      length a1 <= i /\ failsAt E (journal w1) a2 (i - length a1)) as Hsplit.
    { intros i (c & Hc & Hfail).
      destruct (Nat.lt_ge_cases i (length a1)) as [Hlt|Hge].
      - exfalso. apply (Hclean1 i). exists c. split; [|exact Hfail].
        now rewrite nth_error_app1 in Hc.
      - split; [exact Hge|]. exists c. rewrite nth_error_app2 in Hc by exact Hge.
        split; [exact Hc|]. rewrite Hj1, length_app.
        replace (length (journal w) + length a1 + (i - length a1))
          with (length (journal w) + i) by lia.
        exact Hfail. }
    split.
    + intros i Hi. apply Hsplit in Hi as [Hge Hi]. apply Hstop2 in Hi.
      rewrite length_app. lia.
    + intros b Hb i Hi. apply Hsplit in Hi as [_ Hi]. exact (Hclean2 b Hb _ Hi).
  - exists a1. split; [exact Hj1|]. split; [exact Hstop1|]. intros b Hb; discriminate.
Qed.

Lemma orderly_forOf {A} (xs : list A) (body : A -> M unit) :
  (forall x, orderly E (body x)) -> orderly E (forOf xs body).
Proof.
  intros Hb. induction xs as [|x xs IH]; simpl.
  - apply orderly_ret.
  - apply orderly_bind; auto.
Qed.

Ltac orderly_db :=
  repeat (apply orderly_bind; [|intros ?]);
  try apply orderly_issue; try apply orderly_liftOutcome;
  try (apply orderly_silent; intros; reflexivity).

Lemma orderly_findOne f : orderly E (Db.findOne E f).
Proof. unfold Db.findOne. orderly_db. Qed.

Lemma orderly_create d : orderly E (Db.create E d).
Proof. unfold Db.create. orderly_db. Qed.

Lemma orderly_findHighlights f : orderly E (Db.findHighlights E f).
Proof. unfold Db.findHighlights. orderly_db. Qed.

(** Whatever fails inside the loop ends the loop, and is swallowed. *)
Lemma autoIndexHighlights_stops (user : UserId) (w : world) :
  exists added,
    journal (snd (SearchController.autoIndexHighlights E user w)) = journal w ++ added
    /\ stopsAtFailure E (journal w) added.
Proof.
  unfold SearchController.autoIndexHighlights, tryCatch.
  match goal with |- context [bind ?m ?k w] =>
    assert (orderly E (bind m k)) as Hbody;
      [|destruct (Hbody w) as (added & Hj & Hstop & _);
        destruct (bind m k w) as [[[]|e] w1]; exists added; auto]
  end.
  apply orderly_bind; [apply orderly_findHighlights | intros hs].
  apply orderly_forOf. intros h.
  apply orderly_bind; [apply orderly_findOne | intros [d|]].
  - apply orderly_ret.
  - apply orderly_create.
Qed.

End Orderly.

Section Backfill.

Variable E : Environment.
Hypothesis storage_ok : Reliable E.
Variable user : UserId.

(** One pass of the loop of [autoIndexHighlights]. *)
Let pass (highlight : Highlight.doc) : M unit :=
  existing <- Db.findOne E (SearchController.byHighlight (Highlight.uuid highlight) user) ;;
  match existing with
  | Some _ => ret tt
  | None => Db.create E (SearchController.annotationEntry highlight user)
  end.

Lemma pass_indexes (h : Highlight.doc) (w : world) :
  fst (pass h w) = Ok tt
  /\ (exists extra, searchIndex (snd (pass h w)) = searchIndex w ++ extra)
  /\ 1 <= unitsOf (Highlight.uuid h) user (searchIndex (snd (pass h w))).
Proof.
  unfold pass, bind. rewrite findOne_run, compile_byHighlight, storage_ok.
  rewrite (find_pointwise _ (isUnitOf (Highlight.uuid h) user))
    by (intros d; apply holds_byHighlight).
  destruct (List.find _ _) eqn:Hf.
  - split; [reflexivity|]. split; [exists []; now rewrite app_nil_r|].
    cbn [ret snd searchIndex record]. unfold unitsOf.
    destruct (filter _ _) eqn:Hl; [|simpl; lia].
    apply (f_equal (@length _)), find_none_count in Hl. congruence.
  - rewrite create_run, storage_ok. split; [reflexivity|].
    split; [eexists; reflexivity|]. cbn [snd].
    rewrite unitsOf_store by reflexivity. lia.
Qed.

Lemma unitsOf_app annotationId owner l extra :
  unitsOf annotationId owner l <= unitsOf annotationId owner (l ++ extra).
Proof. unfold unitsOf. rewrite filter_app, length_app. lia. Qed.

Lemma passes_index (hs : list Highlight.doc) (w : world) :
  fst (forOf hs pass w) = Ok tt
  /\ (exists extra, searchIndex (snd (forOf hs pass w)) = searchIndex w ++ extra)
  /\ forall h, In h hs ->
       1 <= unitsOf (Highlight.uuid h) user (searchIndex (snd (forOf hs pass w))).
Proof.
  revert w. induction hs as [|h hs IH]; intros w; simpl.
  - split; [reflexivity|]. split; [exists []; now rewrite app_nil_r|]. intros h [].
  - unfold bind. destruct (pass_indexes h w) as (Hok & (e1 & He1) & Hone).
    destruct (pass h w) as [[[]|e] w1]; [|discriminate]. cbn [fst snd] in *.
    destruct (IH w1) as (Hok2 & (e2 & He2) & Hall).
    split; [exact Hok2|]. split.
    + exists (e1 ++ e2). now rewrite He2, He1, app_assoc.
    + intros h' [<-|Hin]; [|auto].
      rewrite He2. etransitivity; [exact Hone | apply unitsOf_app].
Qed.

(** When nothing fails the backfill indexes every highlight of the owner. *)
Lemma autoIndexHighlights_complete (w : world) (h : Highlight.doc) :
  In h (highlights w) -> Highlight.userId h = user ->
  1 <= unitsOf (Highlight.uuid h) user
         (searchIndex (snd (SearchController.autoIndexHighlights E user w))).
Proof.
  intros Hin Hu.
  unfold SearchController.autoIndexHighlights, tryCatch, bind at 1, Db.findHighlights,
    bind at 1, Db.issue.
  rewrite storage_ok. cbn [highlights record].
  match goal with |- context [forOf ?hs ?body ?w0] =>
    change body with pass;
    destruct (passes_index hs w0) as (Hok & _ & Hall);
    destruct (forOf hs pass w0) as [[[]|e] w1]; [|discriminate]
  end.
  cbn [snd] in *. apply Hall. apply filter_In. split; [exact Hin|].
  unfold Highlight.holds. simpl. rewrite Hu. apply Nat.eqb_refl.
Qed.

End Backfill.

(** Claim C6: Backfill failure tolerance (as amended).  [autoIndexHighlights]
    always returns normally: no failure inside it reaches the search
    that started it, which (called on the controller) answers with the
    needsIndexing reply.  A storage call of the backfill that fails is
    the last call it issues: the annotations after the failing one are
    not attempted.  When no call fails, every highlight of the owner has
    an index entry afterwards. *)
Theorem C6_backfill_stops_at_first_failure
  (E : Environment) (user : UserId) (w : world) :
  let backfill := SearchController.autoIndexHighlights E user w in
  fst backfill = Ok tt
  /\ (exists added,
         journal (snd backfill) = journal w ++ added
         /\ forall i c, nth_error added i = Some c ->
                        faulty E (length (journal w) + i) c = true ->
                        S i = length added)
  /\ (forall req q,
         Req.s_query req = Some q -> tooShort (Some q) = false ->
         faulty E (length (journal w)) (SearchIndex_countDocuments (SearchController.byOwner user))
         = false ->
         filter (ownedBy user) (searchIndex w) = [] ->
         fst (SearchController.search E ThisController user req w) = needsIndexingReply)
  /\ (Reliable E ->
      forall h, In h (highlights w) -> Highlight.userId h = user ->
                1 <= unitsOf (Highlight.uuid h) user (searchIndex (snd backfill))).
Proof.
  intros backfill. split; [apply autoIndexHighlights_returns|].
  split; [|split].
  - destruct (autoIndexHighlights_stops E user w) as (added & Hj & Hstop).
    exists added. split; [exact Hj|]. intros i c Hc Hf. apply Hstop. exists c; auto.
  - intros req q Hq Hlen Hok Hnone.
    now rewrite (search_zero_index E ThisController user req q w Hq Hlen Hok Hnone).
  - intros HE h Hin Hu. now apply autoIndexHighlights_complete.
Qed.

Lemma C6_backfill_stops_at_first_failure_witness :
  let w := Sample.state [] [Sample.h1; Sample.h2] [Sample.doc1] in
  fst (SearchController.search (Reference.env (Sample.refusing "h1")) ThisController
         Sample.alice (Sample.simple "machine") w) = needsIndexingReply
  /\ 1 <= unitsOf "h2" Sample.alice
            (searchIndex (snd (SearchController.autoIndexHighlights Sample.env Sample.alice w))).
Proof.
  intros w. split.
  - destruct (C6_backfill_stops_at_first_failure
                (Reference.env (Sample.refusing "h1")) Sample.alice w)
      as (_ & _ & Hsearch & _).
    apply (Hsearch (Sample.simple "machine") "machine"); reflexivity.
  - destruct (C6_backfill_stops_at_first_failure Sample.env Sample.alice w)
      as (_ & _ & _ & Hall).
    apply (Hall Reference_Reliable Sample.h2); [right; left; reflexivity | reflexivity].
Defined.

(** Claim C6: the claim as stated fails: storing the entry of [h1] fails,
    nothing stands in the way of [h2], and yet the backfill issues no
    call for [h2] and leaves it without an entry. *)
Lemma C6_backfill_counterexample :
  let E := Reference.env (Sample.refusing "h1") in
  let w := Sample.state [] [Sample.h1; Sample.h2] [Sample.doc1] in
  let backfill := SearchController.autoIndexHighlights E Sample.alice w in
  faulty E 2 (SearchIndex_create (SearchController.annotationEntry Sample.h1 Sample.alice)) = true
  /\ faulty E 3 (SearchIndex_findOne (SearchController.byHighlight "h2" Sample.alice)) = false
  /\ faulty E 4 (SearchIndex_create (SearchController.annotationEntry Sample.h2 Sample.alice)) = false
  /\ fst backfill = Ok tt
  /\ journal (snd backfill)
     = [Highlight_find {| Highlight.q_uuid := None; Highlight.q_userId := Some Sample.alice |};
        SearchIndex_findOne (SearchController.byHighlight "h1" Sample.alice);
        SearchIndex_create (SearchController.annotationEntry Sample.h1 Sample.alice)]
  /\ unitsOf "h2" Sample.alice (searchIndex (snd backfill)) = 0.
Proof. vm_compute. repeat split. Qed.

(* ================================================================== *)
(** * Term highlighting *)
(* ================================================================== *)




(* ================================================================== *)
(** * Suggestions *)
(* ================================================================== *)

Lemma distinct_spec (xs seen : list string) :
  NoDup (JS.distinct seen xs)
  /\ forall x, In x (JS.distinct seen xs) -> In x xs /\ ~ In x seen.
Proof.
  revert seen. induction xs as [|x xs IH]; intros seen; simpl.
  - split; [constructor | intros x []].
  - destruct (existsb (String.eqb x) seen) eqn:Hs.
    + destruct (IH seen) as [Hn Hin]. split; [exact Hn|].
      intros y Hy. apply Hin in Hy as [Hy Hns]. auto.
    + destruct (IH (x :: seen)) as [Hn Hin]. split.
      * constructor; [|exact Hn]. intros Hx. apply Hin in Hx as [_ Hx]. apply Hx. now left.
      * intros y [<-|Hy].
        -- split; [now left|]. intros Hx.
           assert (existsb (String.eqb x) seen = true) as Ht
               by (apply existsb_exists; exists x; split; [exact Hx | apply String.eqb_refl]).
           congruence.
        -- apply Hin in Hy as [Hy Hns]. split; [now right|].
           intros Hx. apply Hns. now right.
Qed.

Lemma NoDup_firstn {A} (n : nat) (l : list A) : NoDup l -> NoDup (firstn n l).
Proof.
  revert l. induction n as [|n IH]; intros [|a l] H; simpl; try constructor.
  - inversion H; subst. intros Hin. apply firstn_In in Hin. contradiction.
  - inversion H; subst. auto.
Qed.

Lemma holds_suggestions re user q d :
  SearchIndex.holds re
    {| SearchIndex.q_userId := Some user; SearchIndex.q_content := Some q;
       SearchIndex.q_pdfUuid := None; SearchIndex.q_contentType := None;
       SearchIndex.q_createdAt := None; SearchIndex.q_pageNumber := None;
       SearchIndex.q_highlightId := None |} d
  = matching re user d.
Proof. unfold SearchIndex.holds, matching, ownedBy. simpl. now rewrite !andb_true_r. Qed.

Lemma getSuggestions_run E user q w :
  tooShortToComplete (Some q) = false ->
  SearchController.getSuggestions E user (Some q) w =
  (Json 200
     [("suggestions",
       VSuggestions
         (match (if faulty E (length (journal w)) (suggestionsLookup user q)
                 then None else mongoRegex E q) with
          | Some re =>
              map suggest
                (firstn 5
                   (JS.distinct []
                      (flat_map (fun d => SearchController.completions (JS.toLowerCase q)
                                            (SearchIndex.content d))
                                (scanned re user (searchIndex w)))))
          | None => []
          end))],
   record (suggestionsLookup user q) w).
Proof.
  intros Hlen. unfold SearchController.getSuggestions, handler.
  unfold tooShortToComplete in Hlen.
  assert (String.eqb q "" = false) as -> by (destruct q; [discriminate | reflexivity]).
  rewrite Hlen. cbn [orb]. unfold bind at 1. rewrite find_run. fold (suggestionsLookup user q).
  destruct (faulty E _ _); [reflexivity|].
  rewrite (compile_regex _ _ q) by reflexivity.
  destruct (mongoRegex E q) as [re|]; [|reflexivity].
  cbn [SearchIndex.skip]. change (0 <? 0)%Z with false. cbv iota.
  unfold ret, scanned, SearchIndex.page, SearchIndex.limitTo. cbn [SearchIndex.limit
    SearchIndex.skip SearchIndex.sortNewest Nat.eqb Z.to_nat skipn].
  rewrite (filter_ext _ (matching re user)) by (intros d; apply holds_suggestions).
  reflexivity.
Qed.

Lemma suggestionsOf_Json (s : nat) (ss : list Suggestion) :
  suggestionsOf (Json s [("suggestions", VSuggestions ss)]) = ss.
Proof. reflexivity. Qed.

Lemma suggestions_field (s : nat) (ss : list Suggestion) :
  field "suggestions" (bodyOf (Json s [("suggestions", VSuggestions ss)]))
  = Some (VSuggestions ss).
Proof. reflexivity. Qed.




(* ================================================================== *)
(** * The fuzzy flag of the advanced search *)
(* ================================================================== *)

(** Claim C9: Fuzzy flag honesty (as amended).  An advanced search answered
    with status 200 reports [fuzzy: false]; the replies 400 and 500 carry
    no [fuzzy] field.  The flag sent with the request changes nothing in
    the reply or in the storage calls.  The query is handed to the store
    as a case-insensitive regular expression: for a query without
    metacharacters the content of every result contains the query,
    letter case ignored. *)
Theorem C9_fuzzy_flag_honesty
  (E : Environment) (user : UserId) (req : Req.advanced) (w : world) :
  let reply := fst (SearchController.advancedSearch E user req w) in
  reportsNoFuzzy reply
  /\ (forall flag,
         SearchController.advancedSearch E user (withFuzzy flag req) w
         = SearchController.advancedSearch E user req w)
  /\ (LiteralMongo E ->
      forall q r,
        Req.a_query req = Some q -> Regex.isLiteral q = true ->
        In r (resultsOf reply) ->
        Regex.ciOccurs q (r_content r) = true).
Proof.
  intros reply. split; [|split].
  - unfold reply, SearchController.advancedSearch.
    apply handler_status with (P := reportsNoFuzzy).
    + cbv zeta. yields_auto; (split; [reflexivity || discriminate | intros H; reflexivity || (exfalso; apply H; reflexivity)]).
    + intros e. split; [discriminate | reflexivity].
  - intros flag. destruct req; reflexivity.
  - intros HE q r Hq Hlit Hr. unfold reply in Hr.
    apply advancedSearch_results_origin in Hr as (q' & re & d & Hq' & Hre & _ & _ & Hm & Hs).
    rewrite Hq in Hq'. inversion Hq'; subst q'.
    destruct (HE q Hlit) as (re' & Hre' & Hsub).
    rewrite Hre in Hre'. inversion Hre'; subst re'.
    destruct Hs as (_ & _ & _ & -> & _). now rewrite <- Hsub.
Qed.

Lemma C9_fuzzy_flag_honesty_witness :
  let w := Sample.state [Sample.entry 1 10 Sample.h1; Sample.entry 2 11 Sample.h2]
                        [Sample.h1; Sample.h2] [Sample.doc1] in
  let reply := fst (SearchController.advancedSearch Sample.env Sample.alice
                      (Sample.advanced "Machine" (Some true)) w) in
  statusOf reply = Some 200
  /\ field "fuzzy" (bodyOf reply) = Some (VBool false)
  /\ map r_content (resultsOf reply) = ["machine learning basics"]
  /\ forall r, In r (resultsOf reply) -> Regex.ciOccurs "Machine" (r_content r) = true.
Proof.
  intros w reply.
  destruct (C9_fuzzy_flag_honesty Sample.env Sample.alice
              (Sample.advanced "Machine" (Some true)) w) as ((Hfuzzy & _) & _ & Hsub).
  assert (statusOf reply = Some 200) as Hstatus by reflexivity.
  split; [exact Hstatus|]. split; [exact (Hfuzzy Hstatus)|]. split; [reflexivity|].
  intros r. apply (Hsub (Reference_LiteralMongo Reference.reliable) "Machine" r); reflexivity.
Defined.

(** Claim C9: the claim as stated fails.  (1) A request turned away for its
    short query, sent with [fuzzy: true], gets a reply without a [fuzzy]
    field.  (2) The query "mach.ne", sent with [fuzzy: true], is no
    substring of "machine learning basics", letter case ignored or not,
    and yet the entry is returned: the query is read as a pattern. *)
Lemma C9_fuzzy_flag_honesty_counterexample :
  let w := Sample.state [Sample.entry 1 10 Sample.h1] [Sample.h1] [Sample.doc1] in
  let rejected := fst (SearchController.advancedSearch Sample.env Sample.alice
                         (Sample.advanced "m" (Some true)) w) in
  let pattern := fst (SearchController.advancedSearch Sample.env Sample.alice
                        (Sample.advanced "mach.ne" (Some true)) w) in
  (statusOf rejected = Some 400 /\ field "fuzzy" (bodyOf rejected) = None)
  /\ (Regex.ciOccurs "mach.ne" "machine learning basics" = false
      /\ statusOf pattern = Some 200
      /\ map r_content (resultsOf pattern) = ["machine learning basics"]
      /\ map r_highlightedContent (resultsOf pattern)
         = ["<mark>machine</mark> learning basics"]).
Proof. vm_compute. repeat split. Qed.

(* ================================================================== *)
(** * Isolation of owners *)
(* ================================================================== *)

(** Claim C2: Scoped isolation.  For distinct owners [u1] and [u2] and any
    simple search, advanced search or suggestion query issued as [u1]:
    the reply is the one the same query gets from the store without the
    entries of [u2]; every result shows an entry of the index that [u1]
    owns; and every storage call the operation issues carries the id of
    [u1] in its filter. *)
Theorem C2_scoped_isolation
  (E : Environment) (u1 u2 : UserId) (this : receiver)
  (simple : Req.search) (advanced : Req.advanced) (partial : option string) (w : world) :
  u1 <> u2 ->
  (fst (SearchController.search E this u1 simple (withoutOwner u2 w))
   = fst (SearchController.search E this u1 simple w)
   /\ fst (SearchController.advancedSearch E u1 advanced (withoutOwner u2 w))
      = fst (SearchController.advancedSearch E u1 advanced w)
   /\ fst (SearchController.getSuggestions E u1 partial (withoutOwner u2 w))
      = fst (SearchController.getSuggestions E u1 partial w))
  /\ ((forall r, In r (resultsOf (fst (SearchController.search E this u1 simple w))) ->
          exists d, In d (searchIndex w) /\ SearchIndex.userId d = u1
                    /\ SearchIndex.userId d <> u2 /\ shows r d)
      /\ (forall r, In r (resultsOf (fst (SearchController.advancedSearch E u1 advanced w))) ->
             exists d, In d (searchIndex w) /\ SearchIndex.userId d = u1
                       /\ SearchIndex.userId d <> u2 /\ shows r d))
  /\ (journalGrows (scopedTo u1) w (snd (SearchController.search E this u1 simple w))
      /\ journalGrows (scopedTo u1) w (snd (SearchController.advancedSearch E u1 advanced w))
      /\ journalGrows (scopedTo u1) w (snd (SearchController.getSuggestions E u1 partial w))).
Proof.
  intros Hne. split; [|split].
  - split; [|split].
    + now apply search_blind.
    + now apply advancedSearch_blind.
    + now apply getSuggestions_blind.
  - split; intros r Hr.
    + apply search_results_origin in Hr as (q & re & d & _ & _ & Hd & Hu & _ & Hs).
      exists d. repeat split; try assumption; try apply Hs. congruence.
    + apply advancedSearch_results_origin in Hr as (q & re & d & _ & _ & Hd & Hu & _ & Hs).
      exists d. repeat split; try assumption; try apply Hs. congruence.
  - split; [|split].
    + apply search_scoped.
    + apply advancedSearch_scoped.
    + apply getSuggestions_scoped.
Qed.

Lemma C2_scoped_isolation_witness :
  let w := Sample.state [Sample.entry 1 10 Sample.h1; Sample.entry 7 11 Sample.hb]
                        [Sample.h1; Sample.hb] [Sample.doc1] in
  Sample.alice <> Sample.bob
  /\ map r_content (resultsOf (fst (Router.get_search Sample.env Sample.alice
                                      (Sample.simple "machine") w)))
     = ["machine learning basics"]
  /\ fst (SearchController.search Sample.env ThisUndefined Sample.alice
            (Sample.simple "machine") (withoutOwner Sample.bob w))
     = fst (SearchController.search Sample.env ThisUndefined Sample.alice
              (Sample.simple "machine") w)
  /\ journalGrows (scopedTo Sample.alice) w
       (snd (SearchController.getSuggestions Sample.env Sample.alice (Some "ma") w)).
Proof.
  intros w.
  assert (Sample.alice <> Sample.bob) as Hne by discriminate.
  destruct (C2_scoped_isolation Sample.env Sample.alice Sample.bob ThisUndefined
              (Sample.simple "machine") (Sample.advanced "machine" None) (Some "ma") w Hne)
    as ((Hblind & _ & _) & _ & (_ & _ & Hscoped)).
  split; [exact Hne|]. split; [reflexivity|]. split; [exact Hblind | exact Hscoped].
Defined.

(* ================================================================== *)
(** * The answer of the simple search *)
(* ================================================================== *)

Lemma lookup_In key names name :
  SearchController.lookup key names = Some name -> In (key, name) names.
Proof.
  induction names as [|[k v] names IH]; simpl; [discriminate|].
  destruct (String.eqb_spec key k) as [->|_].
  - intros H; inversion H; auto.
  - auto.
Qed.

Lemma pdfNameOf_known user docs names uuid :
  knownNames user docs names ->
  SearchController.pdfNameOf names uuid = "Unknown PDF"
  \/ exists pdf, In pdf docs /\ PDF.userId pdf = user /\ PDF.uuid pdf = uuid
                 /\ PDF.originalName pdf = SearchController.pdfNameOf names uuid.
Proof.
  intros Hk. unfold SearchController.pdfNameOf.
  destruct (SearchController.lookup uuid names) as [[|c name]|] eqn:Hl; auto.
  apply lookup_In, Hk in Hl. exact Hl.
Qed.

Lemma findPDFs_run E f w :
  Db.findPDFs E f w =
  (if faulty E (length (journal w)) (PDF_find f)
   then Throw StorageError
   else Ok (filter (PDF.holds f) (pdfs w)),
   record (PDF_find f) w).
Proof.
  unfold Db.findPDFs, Db.issue, bind.
  destruct (faulty E _ _); reflexivity.
Qed.

Lemma findOnePDF_run E f w :
  Db.findOnePDF E f w =
  (if faulty E (length (journal w)) (PDF_findOne f)
   then Throw StorageError
   else Ok (List.find (PDF.holds f) (pdfs w)),
   record (PDF_findOne f) w).
Proof.
  unfold Db.findOnePDF, Db.issue, bind.
  destruct (faulty E _ _); reflexivity.
Qed.

Lemma resolveNames_known E user uuids w :
  exists names,
    fst (SearchController.resolveNames E user uuids w) = Ok names
    /\ knownNames user (pdfs w) names.
Proof.
  unfold SearchController.resolveNames.
  destruct (0 <? length uuids).
  - unfold tryCatch, bind. rewrite findPDFs_run.
    destruct (faulty E _ _); simpl.
    + eexists; split; [reflexivity|].
      assert (forall acc, (forall u n, In (u, n) acc -> n = "Unknown PDF") ->
                forall u n, In (u, n)
                  (fold_left (fun pdfMap uuid => (uuid, "Unknown PDF") :: pdfMap) uuids acc) ->
                  n = "Unknown PDF") as H.
      { induction uuids as [|x l IH]; simpl; [auto|].
        intros acc Hacc. apply IH. intros u n [Heq|Hin]; [congruence | eauto]. }
      intros u n Hin. left. eapply H; [|exact Hin]. intros ? ? [].
    + eexists; split; [reflexivity|].
      set (found := filter _ (pdfs w)).
      assert (forall p, In p found -> In p (pdfs w) /\ PDF.userId p = user) as Hfound.
      { intros p Hp. apply filter_In in Hp as [Hp Hh]. split; [exact Hp|].
        unfold PDF.holds in Hh. simpl in Hh. apply andb_true_iff in Hh as [_ Hu].
        apply Nat.eqb_eq in Hu. auto. }
      clearbody found.
      assert (forall acc, knownNames user (pdfs w) acc ->
                knownNames user (pdfs w)
                  (fold_left (fun pdfMap pdf => (PDF.uuid pdf, PDF.originalName pdf) :: pdfMap)
                             found acc)) as H.
      { induction found as [|p l IH]; simpl; [auto|].
        intros acc Hacc. apply IH; [intros q Hq; apply Hfound; right; exact Hq|].
        intros u n [Heq|Hin]; [|eauto].
        inversion Heq; subst. right. exists p.
        destruct (Hfound p (or_introl eq_refl)). auto. }
      apply H. intros ? ? [].
  - exists []. split; [reflexivity|]. intros ? ? [].
Qed.

Lemma mapOutcome_Forall2 {A B} (f : A -> outcome B) (l : list A) (bs : list B) :
  SearchController.mapOutcome f l = Ok bs -> Forall2 (fun a b => f a = Ok b) l bs.
Proof.
  revert bs. induction l as [|a l IH]; simpl; intros bs H.
  - inversion H. constructor.
  - destruct (f a) as [b|e] eqn:Hf; [|discriminate].
    destruct (SearchController.mapOutcome f l) as [bs0|e]; [|discriminate].
    inversion H; subst. constructor; auto.
Qed.

Ltac solve_failed :=
  first [ left; split;
          [ reflexivity
          | first [ reflexivity | rewrite <- tooShort_guard; assumption ] ]
        | right; left; reflexivity
        | right; right; eexists; reflexivity
        | right; eexists; reflexivity ].

Lemma search_answer E this user req w :
  let reply := fst (SearchController.search E this user req w) in
  (reply = SearchController.invalidQuery /\ tooShort (Req.s_query req) = true
   \/ reply = needsIndexingReply
   \/ exists e, reply = searchFailed e)
  \/ exists q re names formatted,
       Req.s_query req = Some q /\ mongoRegex E q = Some re
       /\ knownNames user (pdfs w) names
       /\ SearchController.mapOutcome (SearchController.formatResult E names q)
            (SearchIndex.page simpleCursor
               (filter (SearchIndex.holds re (simpleFilter user q req)) (searchIndex w)))
          = Ok formatted
       /\ reply = searchFound q (length formatted) formatted.
Proof.
  intros reply. assert (reply = fst (SearchController.search E this user req w)) as Hr
    by reflexivity.
  clearbody reply. revert Hr.
  unfold SearchController.search, handler. cbv zeta.
  destruct (Req.s_query req) as [q|] eqn:Hq; [|intros ->; left; solve_failed].
  destruct (_ || _) eqn:Hshort; [intros ->; left; solve_failed|].
  unfold bind at 1. rewrite countDocuments_run.
  destruct (faulty E _ _); [intros ->; left; solve_failed|].
  rewrite compile_plain by reflexivity. cbv iota.
  destruct (_ =? 0).
  - unfold bind. destruct (viaThis _ _ _) as [[a|e] w1]; intros ->; left; solve_failed.
  - unfold bind at 1. rewrite find_run.
    destruct (faulty E _ _); [intros ->; left; solve_failed|].
    rewrite (compile_regex _ _ q) by reflexivity.
    destruct (mongoRegex E q) as [re|] eqn:Hre; [|intros ->; left; solve_failed].
    cbn [SearchIndex.skip]. change (0 <? 0)%Z with false. cbv iota.
    fold simpleCursor. fold (simpleFilter user q req).
    set (results := SearchIndex.page _ _).
    unfold bind at 1.
    match goal with |- context [SearchController.resolveNames E user ?u ?w1] =>
      destruct (resolveNames_known E user u w1) as (names & Hn & Hknown);
      destruct (SearchController.resolveNames E user u w1) as [o w2]
    end.
    simpl in Hn. subst o.
    unfold bind, liftOutcome.
    destruct (SearchController.mapOutcome _ _) as [formatted|e] eqn:Hmap;
      [|intros ->; left; solve_failed].
    intros ->. right. exists q, re, names, formatted.
    split; [reflexivity|]. split; [exact Hre|]. split; [exact Hknown|].
    split; [exact Hmap|].
    apply mapOutcome_Forall2, Forall2_length in Hmap. fold results. rewrite <- Hmap.
    reflexivity.
Qed.

Lemma search_result_source E this user req w r :
  In r (resultsOf (fst (SearchController.search E this user req w))) ->
  exists q re names d,
    Req.s_query req = Some q /\ mongoRegex E q = Some re
    /\ knownNames user (pdfs w) names
    /\ In d (searchIndex w)
    /\ SearchIndex.holds re (simpleFilter user q req) d = true
    /\ SearchController.formatResult E names q d = Ok r.
Proof.
  destruct (search_answer E this user req w)
    as [[[-> _]|[->|[e ->]]]|(q & re & names & fm & Hq & Hre & Hk & Hmap & Hr)];
    try (intros []).
  rewrite Hr. change (resultsOf (searchFound q (length fm) fm)) with fm.
  intros Hin. destruct (mapOutcome_In _ _ _ Hmap _ Hin) as (d & Hd & Hfmt).
    apply page_In, filter_In in Hd as [Hd Hp].
    exists q, re, names, d. auto 8.
Qed.

(* ================================================================== *)
(** * Sorting and paging *)
(* ================================================================== *)

Lemma insertNewest_descending d l :
  descending (map SearchIndex.createdAt l) ->
  descending (map SearchIndex.createdAt (SearchIndex.insertNewest d l)).
Proof.
  induction l as [|e l IH]; simpl.
  - intros _. split; [constructor | exact I].
  - intros [Hall Hrest].
    destruct (SearchIndex.createdAt e <=? SearchIndex.createdAt d) eqn:Hle.
    + apply Nat.leb_le in Hle. simpl. split; [|split; assumption].
      constructor; [exact Hle|].
      eapply Forall_impl; [|exact Hall]. simpl. intros; lia.
    + apply Nat.leb_gt in Hle. simpl. split; [|apply IH; exact Hrest].
      apply Forall_forall. intros t Ht. apply in_map_iff in Ht as (x & <- & Hx).
      apply insertNewest_In in Hx as [->|Hx]; [lia|].
      rewrite Forall_forall in Hall. apply Hall, in_map, Hx.
Qed.

Lemma newestFirst_descending l :
  descending (map SearchIndex.createdAt (SearchIndex.newestFirst l)).
Proof.
  induction l as [|d l IH]; simpl; [exact I|]. apply insertNewest_descending, IH.
Qed.

Lemma descending_firstn n times : descending times -> descending (firstn n times).
Proof.
  revert n. induction times as [|t l IH]; intros [|n]; simpl; auto.
  intros [Hall Hrest]. split; [|auto].
  apply Forall_forall. intros t' Ht'. rewrite Forall_forall in Hall.
  apply Hall. eapply firstn_In, Ht'.
Qed.

Lemma descending_skipn n times : descending times -> descending (skipn n times).
Proof.
  revert n. induction times as [|t l IH]; intros [|n]; simpl; auto.
  intros [_ Hrest]. auto.
Qed.

Lemma page_descending c l :
  SearchIndex.sortNewest c = true ->
  descending (map SearchIndex.createdAt (SearchIndex.page c l)).
Proof.
  intros Hs. unfold SearchIndex.page, SearchIndex.limitTo. rewrite Hs.
  destruct (_ =? 0).
  - rewrite <- skipn_map. apply descending_skipn, newestFirst_descending.
  - rewrite <- firstn_map, <- skipn_map.
    apply descending_firstn, descending_skipn, newestFirst_descending.
Qed.

Lemma page_length c l :
  SearchIndex.limit c <> 0 -> length (SearchIndex.page c l) <= SearchIndex.limit c.
Proof.
  intros Hl. unfold SearchIndex.page, SearchIndex.limitTo.
  destruct (Nat.eqb_spec (SearchIndex.limit c) 0); [contradiction|].
  apply firstn_le_length.
Qed.

Lemma formatted_createdAt E names q results formatted :
  SearchController.mapOutcome (SearchController.formatResult E names q) results = Ok formatted ->
  map r_createdAt formatted = map SearchIndex.createdAt results.
Proof.
  intros H. apply mapOutcome_Forall2 in H.
  induction H as [|d r l l' Hf _ IH]; simpl; [reflexivity|].
  apply formatResult_shows in Hf. destruct Hf as (_ & _ & _ & _ & _ & _ & _ & ->).
  now rewrite IH.
Qed.

Lemma ceilDiv_one_page n : n <= 20 -> ceilDiv n 20 = Some (if n =? 0 then 0 else 1).
Proof.
  intros Hn. unfold ceilDiv. cbn [Nat.eqb]. f_equal.
  destruct (Nat.eqb_spec n 0) as [->|Hne]; [reflexivity|].
  symmetry. apply (Nat.div_unique (n + 20 - 1) 20 1 (n - 1)); lia.
Qed.

(** Property X1: the simple search has one page.  Whatever the
    request and the state of the store, the reply of [search] carries at
    most twenty results, ordered from the newest to the oldest, and a
    pagination whose [total] is the number of results in the reply (not
    the number of matching entries), with [current] 1 and [pages] 0 for
    no result and 1 otherwise. *)
Theorem search_single_page
  (E : Environment) (this : receiver) (user : UserId) (req : Req.search) (w : world) :
  let reply := fst (SearchController.search E this user req w) in
  length (resultsOf reply) <= 20
  /\ descending (map r_createdAt (resultsOf reply))
  /\ exists p, field "pagination" (bodyOf reply) = Some (VPagination p)
               /\ total p = length (resultsOf reply)
               /\ current p = 1
               /\ pages p = Some (if length (resultsOf reply) =? 0 then 0 else 1).
Proof.
  intros reply.
  pose proof (search_answer E this user req w) as H. cbv zeta in H. fold reply in H.
  clearbody reply.
  destruct H as [[[-> _]|[->|[e ->]]]|(q & re & names & fm & Hq & Hre & Hk & Hmap & Hr)].
  1-3: (split; [simpl; lia|]; split; [exact I|];
        exists SearchController.emptyPagination; repeat split).
  assert (resultsOf reply = fm) as Hres by (rewrite Hr; reflexivity).
  assert (length fm <= 20) as Hlen.
  { apply mapOutcome_Forall2, Forall2_length in Hmap. rewrite <- Hmap.
    apply (page_length simpleCursor). discriminate. }
  rewrite Hres. split; [exact Hlen|]. split.
  - rewrite (formatted_createdAt _ _ _ _ _ Hmap). apply page_descending. reflexivity.
  - rewrite Hr. eexists. split; [reflexivity|]. cbn [total current pages].
    split; [reflexivity|]. split; [reflexivity|]. apply ceilDiv_one_page, Hlen.
Qed.

Lemma holds_simpleFilter re user q req d :
  SearchIndex.holds re (simpleFilter user q req) d = true ->
  SearchIndex.userId d = user
  /\ re (SearchIndex.content d) = true
  /\ (forall pdfUuid, Req.s_pdfUuid req = Some pdfUuid -> pdfUuid <> "" ->
        SearchIndex.pdfUuid d = pdfUuid)
  /\ (forall contentType, Req.s_contentType req = Some contentType -> contentType <> "all" ->
        contentTypeName (SearchIndex.contentType d) = contentType).
Proof.
  intros H. split; [eapply holds_owner; [|exact H]; reflexivity|].
  unfold SearchIndex.holds, simpleFilter in H. cbn [SearchIndex.q_userId SearchIndex.q_content
    SearchIndex.q_pdfUuid SearchIndex.q_contentType SearchIndex.q_createdAt
    SearchIndex.q_pageNumber SearchIndex.q_highlightId] in H.
  rewrite !andb_true_iff in H. destruct H as ((((((_ & Hc) & Hp) & Ht) & _) & _) & _).
  split; [exact Hc|]. split.
  - intros p Hreq Hne. rewrite Hreq in Hp. destruct p as [|c p]; [congruence|].
    cbn [optHolds condHolds] in Hp. apply String.eqb_eq in Hp. auto.
  - intros c Hreq Hne. rewrite Hreq in Ht. cbn [orDefault] in Ht.
    destruct (String.eqb_spec c "all"); [contradiction|].
    cbn [optHolds condHolds] in Ht. apply String.eqb_eq in Ht. auto.
Qed.

(** Property X2: the filters of the simple search.  Every
    result of [search] is of the document named by a non-empty [pdfUuid]
    parameter and of the kind named by a [contentType] parameter other
    than 'all'; its [score] is the constant 1; its content matches the
    query as it was given (the query is trimmed for the length check
    only), and its [highlightedContent] is what [highlightSearchTerms]
    makes of its content and that query. *)
Theorem search_results_respect_filters
  (E : Environment) (this : receiver) (user : UserId) (req : Req.search) (w : world)
  (r : Result) :
  In r (resultsOf (fst (SearchController.search E this user req w))) ->
  (forall pdfUuid, Req.s_pdfUuid req = Some pdfUuid -> pdfUuid <> "" -> r_pdfUuid r = pdfUuid)
  /\ (forall contentType,
         Req.s_contentType req = Some contentType -> contentType <> "all" ->
         contentTypeName (r_contentType r) = contentType)
  /\ r_score r = 1
  /\ exists query matches,
       Req.s_query req = Some query
       /\ mongoRegex E query = Some matches
       /\ matches (r_content r) = true
       /\ SearchController.highlightSearchTerms E (r_content r) query
          = Ok (r_highlightedContent r).
Proof.
  intros Hin.
  destruct (search_result_source _ _ _ _ _ _ Hin)
    as (q & re & names & d & Hq & Hre & _ & _ & Hh & Hf).
  apply holds_simpleFilter in Hh as (_ & Hc & Hp & Ht).
  unfold SearchController.formatResult in Hf.
  destruct (SearchController.highlightSearchTerms E _ q) as [out|e] eqn:Hout; [|discriminate].
  inversion Hf; subst r; clear Hf.
  cbn [r_pdfUuid r_contentType r_score r_content r_highlightedContent].
  split; [exact Hp|]. split; [exact Ht|]. split; [reflexivity|].
  exists q, re. auto.
Qed.

Lemma search_results_respect_filters_witness :
  let w := Sample.state [Sample.entry 1 10 Sample.h1;
                         Sample.pageText 2 11 "pdf-1" Sample.alice 1 "machine translation";
                         Sample.entry 3 12 Sample.h2]
                        [Sample.h1; Sample.h2] [Sample.doc1] in
  let req := searchFor "machine" (Some "pdf-1") (Some "annotation") in
  exists r,
    In r (resultsOf (fst (Router.get_search Sample.env Sample.alice req w)))
    /\ r_pdfUuid r = "pdf-1"
    /\ contentTypeName (r_contentType r) = "annotation"
    /\ r_score r = 1.
Proof.
  intros w req.
  assert (exists r, In r (resultsOf (fst (Router.get_search Sample.env Sample.alice req w))))
    as [r Hin] by (eexists; left; reflexivity).
  exists r. split; [exact Hin|].
  destruct (search_results_respect_filters Sample.env ThisUndefined Sample.alice req w r Hin)
    as (Hp & Ht & Hs & _).
  split; [apply (Hp "pdf-1"); [reflexivity | discriminate]|].
  split; [apply (Ht "annotation"); [reflexivity | discriminate] | exact Hs].
Defined.

(** Property X3: where the PDF names of the results come
    from.  The [pdfName] of a result of [search] is either the
    placeholder 'Unknown PDF' or the [originalName] of a PDF of the
    requesting user whose uuid is the result's [pdfUuid]; a name of
    another user's PDF is never shown. *)
Theorem search_names_from_own_pdfs
  (E : Environment) (this : receiver) (user : UserId) (req : Req.search) (w : world)
  (r : Result) :
  In r (resultsOf (fst (SearchController.search E this user req w))) ->
  r_pdfName r = "Unknown PDF"
  \/ exists pdf, In pdf (pdfs w) /\ PDF.userId pdf = user
                 /\ PDF.uuid pdf = r_pdfUuid r /\ PDF.originalName pdf = r_pdfName r.
Proof.
  intros Hin.
  destruct (search_result_source _ _ _ _ _ _ Hin) as (q & re & names & d & _ & _ & Hk & _ & _ & Hf).
  unfold SearchController.formatResult in Hf.
  destruct (SearchController.highlightSearchTerms E _ q) as [out|e]; [|discriminate].
  inversion Hf; subst r; clear Hf. cbn [r_pdfName r_pdfUuid].
  apply (pdfNameOf_known user (pdfs w) names _ Hk).
Qed.

Lemma search_names_from_own_pdfs_witness :
  let w := Sample.state [Sample.entry 1 10 Sample.h1; Sample.entry 2 11 Sample.h3]
                        [Sample.h1; Sample.h3] [Sample.doc1] in
  exists r,
    In r (resultsOf (fst (Router.get_search Sample.env Sample.alice (Sample.simple "machine") w)))
    /\ (r_pdfName r = "Unknown PDF"
        \/ exists pdf, In pdf (pdfs w) /\ PDF.userId pdf = Sample.alice
                       /\ PDF.uuid pdf = r_pdfUuid r /\ PDF.originalName pdf = r_pdfName r).
Proof.
  intros w. eexists. split; [left; reflexivity|].
  apply (search_names_from_own_pdfs Sample.env ThisUndefined Sample.alice
           (Sample.simple "machine") w).
  left; reflexivity.
Defined.

(* ================================================================== *)
(** * The answer of the advanced search *)
(* ================================================================== *)

Lemma advancedSearch_answer E user req w :
  let reply := fst (SearchController.advancedSearch E user req w) in
  (reply = SearchController.invalidQuery /\ tooShort (Req.a_query req) = true
   \/ exists e, reply = advancedFailed e)
  \/ exists q re names formatted,
       Req.a_query req = Some q /\ mongoRegex E q = Some re
       /\ (0 <= SearchIndex.skip (advancedCursor req))%Z
       /\ knownNames user (pdfs w) names
       /\ SearchController.mapOutcome (SearchController.formatResult E names q)
            (SearchIndex.page (advancedCursor req)
               (filter (SearchIndex.holds re (advancedFilter user q req)) (searchIndex w)))
          = Ok formatted
       /\ reply = advancedFound req q
                    (length (filter (SearchIndex.holds re (advancedFilter user q req))
                                    (searchIndex w)))
                    formatted.
Proof.
  intros reply. assert (reply = fst (SearchController.advancedSearch E user req w)) as Hr
    by reflexivity.
  clearbody reply. revert Hr.
  unfold SearchController.advancedSearch, handler. cbv zeta.
  destruct (Req.a_query req) as [q|] eqn:Hq;
    [|intros ->; left; solve_failed].
  destruct (_ || _) eqn:Hshort;
    [intros ->; left; solve_failed|].
  fold (advancedFilter user q req). fold (advancedCursor req).
  unfold bind at 1. unfold promiseAll.
  rewrite find_run. cbv beta iota. rewrite countDocuments_run.
  rewrite (compile_regex _ _ q) by reflexivity.
  destruct (mongoRegex E q) as [re|] eqn:Hre.
  2:{ intros ->. left.
      repeat match goal with
             | |- context [faulty ?E ?n ?c] => destruct (faulty E n c)
             end; solve_failed. }
  destruct (faulty E _ (SearchIndex_find _ _)).
  { intros ->. left.
    repeat match goal with
           | |- context [faulty ?E ?n ?c] => destruct (faulty E n c)
           end; solve_failed. }
  destruct (SearchIndex.skip (advancedCursor req) <? 0)%Z eqn:Hskip.
  { intros ->. left.
    repeat match goal with
           | |- context [faulty ?E ?n ?c] => destruct (faulty E n c)
           end; solve_failed. }
  destruct (faulty E _ _);
    [intros ->; left; solve_failed|].
  cbn [fst snd searchIndex record].
  set (results := SearchIndex.page _ _).
  unfold bind at 1.
  match goal with |- context [SearchController.resolveNames E user ?u ?w1] =>
    destruct (resolveNames_known E user u w1) as (names & Hn & Hknown);
    destruct (SearchController.resolveNames E user u w1) as [o w2]
  end.
  simpl in Hn. subst o.
  unfold bind, liftOutcome.
  destruct (SearchController.mapOutcome _ _) as [formatted|e] eqn:Hmap;
    [|intros ->; left; solve_failed].
  intros ->. right. exists q, re, names, formatted.
  split; [reflexivity|]. split; [exact Hre|].
  split; [apply Z.ltb_ge; exact Hskip|]. split; [exact Hknown|].
  split; [exact Hmap|]. reflexivity.
Qed.

Lemma advancedSearch_result_source E user req w r :
  In r (resultsOf (fst (SearchController.advancedSearch E user req w))) ->
  exists q re names d,
    Req.a_query req = Some q /\ mongoRegex E q = Some re
    /\ knownNames user (pdfs w) names
    /\ In d (searchIndex w)
    /\ SearchIndex.holds re (advancedFilter user q req) d = true
    /\ SearchController.formatResult E names q d = Ok r.
Proof.
  destruct (advancedSearch_answer E user req w)
    as [[[-> _]|[e ->]]|(q & re & names & fm & Hq & Hre & _ & Hk & Hmap & Hr)];
    try (intros []).
  rewrite Hr. change (resultsOf (advancedFound req q _ fm)) with fm.
  intros Hin. destruct (mapOutcome_In _ _ _ Hmap _ Hin) as (d & Hd & Hfmt).
  apply page_In, filter_In in Hd as [Hd Hp].
  exists q, re, names, d. auto 8.
Qed.

Lemma existsb_eqb_In (v : string) (vs : list string) :
  existsb (String.eqb v) vs = true -> In v vs.
Proof.
  intros H. apply existsb_exists in H as (x & Hx & He).
  apply String.eqb_eq in He. now subst.
Qed.

Lemma holds_advancedFilter re user q req d :
  SearchIndex.holds re (advancedFilter user q req) d = true ->
  (forall pdfUuids, Req.a_pdfUuids req = Some pdfUuids -> pdfUuids <> [] ->
     In (SearchIndex.pdfUuid d) pdfUuids)
  /\ (forall contentTypes, Req.a_contentTypes req = Some contentTypes ->
        ~ In "all" contentTypes ->
        In (contentTypeName (SearchIndex.contentType d)) contentTypes)
  /\ (forall dateFrom, Req.a_dateFrom req = Some dateFrom -> dateFrom <= SearchIndex.createdAt d)
  /\ (forall dateTo, Req.a_dateTo req = Some dateTo -> SearchIndex.createdAt d <= dateTo)
  /\ (forall pageNumber, Req.a_pageNumber req = Some pageNumber -> pageNumber <> 0 ->
        SearchIndex.pageNumber d = pageNumber).
Proof.
  intros H.
  unfold SearchIndex.holds, advancedFilter in H. cbn [SearchIndex.q_userId SearchIndex.q_content
    SearchIndex.q_pdfUuid SearchIndex.q_contentType SearchIndex.q_createdAt
    SearchIndex.q_pageNumber SearchIndex.q_highlightId] in H.
  rewrite !andb_true_iff in H. destruct H as ((((((_ & _) & Hp) & Ht) & Hd) & Hn) & _).
  split; [|split; [|split; [|split]]].
  - intros l Hreq Hne. rewrite Hreq in Hp. cbn [orDefault] in Hp.
    destruct l as [|u l]; [congruence|]. cbn [length Nat.ltb Nat.leb optHolds condHolds] in Hp.
    apply existsb_eqb_In, Hp.
  - intros l Hreq Hall. rewrite Hreq in Ht. cbn [orDefault] in Ht.
    destruct (existsb (String.eqb "all") l) eqn:Hex.
    + apply existsb_eqb_In in Hex. contradiction.
    + cbn [optHolds condHolds] in Ht. apply existsb_eqb_In, Ht.
  - intros lo Hreq. rewrite Hreq in Hd. cbn [optHolds fst snd] in Hd.
    destruct (Req.a_dateTo req); cbn [optHolds fst snd] in Hd;
      apply andb_true_iff in Hd as [Hlo _]; apply Nat.leb_le, Hlo.
  - intros hi Hreq. rewrite Hreq in Hd.
    destruct (Req.a_dateFrom req); cbn [optHolds fst snd] in Hd;
      apply andb_true_iff in Hd as [_ Hhi]; apply Nat.leb_le, Hhi.
  - intros n Hreq Hne. rewrite Hreq in Hn. destruct n as [|n]; [contradiction|].
    cbn [optHolds] in Hn. apply Nat.eqb_eq in Hn. auto.
Qed.



Lemma insertNewest_length d l :
  length (SearchIndex.insertNewest d l) = S (length l).
Proof.
  induction l as [|e l IH]; simpl; [reflexivity|].
  destruct (_ <=? _); simpl; [reflexivity | now rewrite IH].
Qed.

Lemma newestFirst_length l : length (SearchIndex.newestFirst l) = length l.
Proof.
  induction l as [|d l IH]; simpl; [reflexivity|]. now rewrite insertNewest_length, IH.
Qed.

Lemma page_length_all c l : length (SearchIndex.page c l) <= length l.
Proof.
  unfold SearchIndex.page, SearchIndex.limitTo.
  assert (length (if SearchIndex.sortNewest c then SearchIndex.newestFirst l else l) = length l)
    as Hs by (destruct (SearchIndex.sortNewest c); [apply newestFirst_length | reflexivity]).
  destruct (_ =? 0); [|rewrite length_firstn]; rewrite length_skipn; lia.
Qed.


(** Property X6: page 0 of the advanced search.  A
    request for page 0 with a limit other than 0 asks the store to skip a
    negative number of entries; the call fails and the request, whose
    query is long enough, is answered with status 500 and no result,
    never with an empty page. *)
Theorem advancedSearch_page_zero
  (E : Environment) (user : UserId) (req : Req.advanced) (w : world) :
  tooShort (Req.a_query req) = false ->
  Req.a_page req = Some 0 ->
  orDefault 20 (Req.a_limit req) <> 0 ->
  fst (SearchController.advancedSearch E user req w) = advancedFailed StorageError
  /\ statusOf (advancedFailed StorageError) = Some 500
  /\ resultsOf (advancedFailed StorageError) = [].
Proof.
  intros Hlong Hpage Hlimit. split; [|split; reflexivity].
  unfold SearchController.advancedSearch, handler. cbv zeta.
  destruct (Req.a_query req) as [q|] eqn:Hq; [|discriminate].
  rewrite tooShort_guard, Hlong.
  fold (advancedFilter user q req). fold (advancedCursor req).
  unfold bind at 1. unfold promiseAll.
  rewrite find_run. cbv beta iota. rewrite countDocuments_run.
  rewrite (compile_regex _ _ q) by reflexivity.
  assert ((SearchIndex.skip (advancedCursor req) <? 0)%Z = true) as ->.
  { apply Z.ltb_lt. unfold advancedCursor. cbn [SearchIndex.skip]. rewrite Hpage.
    cbn [orDefault]. lia. }
  destruct (mongoRegex E q);
    repeat match goal with
           | |- context [faulty ?E ?n ?c] => destruct (faulty E n c)
           end; reflexivity.
Qed.

Lemma advancedSearch_page_zero_witness :
  let w := Sample.state [Sample.entry 1 10 Sample.h1] [Sample.h1] [Sample.doc1] in
  let req := {| Req.a_query := Some "machine"; Req.a_pdfUuids := None;
                Req.a_contentTypes := None; Req.a_dateFrom := None; Req.a_dateTo := None;
                Req.a_pageNumber := None; Req.a_fuzzy := None;
                Req.a_page := Some 0; Req.a_limit := None |} in
  statusOf (fst (SearchController.advancedSearch Sample.env Sample.alice req w)) = Some 500.
Proof.
  intros w req.
  destruct (advancedSearch_page_zero Sample.env Sample.alice req w) as (-> & Hs & _);
    [reflexivity | reflexivity | discriminate | exact Hs].
Defined.

(* ================================================================== *)
(** * Queries do not write *)
(* ================================================================== *)

#[export] Instance sameData_Stable : Stable sameData.
Proof.
  split.
  - intros w. repeat split.
  - intros a b c (H1 & H2 & H3 & H4 & H5) (K1 & K2 & K3 & K4 & K5).
    repeat split; congruence.
Qed.

Section ReadOnly.

Variable E : Environment.

Lemma data_issue c : keeps sameData (Db.issue E c).
Proof. intros w. unfold Db.issue. destruct (faulty E _ _); repeat split. Qed.

Lemma data_pure {A} (f : world -> outcome A) :
  keeps sameData (fun w => (f w, w)).
Proof. intros w. repeat split. Qed.

Lemma data_countDocuments f : keeps sameData (Db.countDocuments E f).
Proof.
  unfold Db.countDocuments.
  repeat (apply keeps_bind; [|intros ?]);
    [apply data_issue | apply keeps_liftOutcome | apply data_pure].
Qed.

Lemma data_find f c : keeps sameData (Db.find E f c).
Proof.
  unfold Db.find.
  repeat (apply keeps_bind; [|intros ?]);
    [apply data_issue | apply keeps_liftOutcome |].
  destruct (_ <? _)%Z; [apply keeps_throw | apply data_pure].
Qed.

Lemma data_findOne f : keeps sameData (Db.findOne E f).
Proof.
  unfold Db.findOne.
  repeat (apply keeps_bind; [|intros ?]);
    [apply data_issue | apply keeps_liftOutcome | apply data_pure].
Qed.

Lemma data_findPDFs f : keeps sameData (Db.findPDFs E f).
Proof.
  unfold Db.findPDFs. apply keeps_bind; [apply data_issue | intros ?; apply data_pure].
Qed.

Lemma data_findOnePDF f : keeps sameData (Db.findOnePDF E f).
Proof.
  unfold Db.findOnePDF. apply keeps_bind; [apply data_issue | intros ?; apply data_pure].
Qed.

Lemma data_findHighlights f : keeps sameData (Db.findHighlights E f).
Proof.
  unfold Db.findHighlights. apply keeps_bind; [apply data_issue | intros ?; apply data_pure].
Qed.

End ReadOnly.

Lemma data_resolveNames E user uuids :
  keeps sameData (SearchController.resolveNames E user uuids).
Proof.
  unfold SearchController.resolveNames. destruct (0 <? _); [|apply keeps_ret].
  apply keeps_tryCatch; [|intros ?; apply keeps_ret].
  apply keeps_bind; [apply data_findPDFs | intros ?; apply keeps_ret].
Qed.

Ltac read_only :=
  repeat first
    [ apply keeps_ret | apply data_resolveNames | apply keeps_throw | apply keeps_liftOutcome
    | apply keeps_promiseAll
    | apply data_countDocuments | apply data_find | apply data_findOne
    | apply data_findPDFs | apply data_findOnePDF | apply data_findHighlights
    | apply keeps_tryCatch; [|intros ?]
    | apply keeps_bind; [|intros ?]
    | match goal with
      | |- keeps _ (match ?x with _ => _ end) => destruct x
      | |- keeps _ (if ?b then _ else _) => destruct b
      end ].

(** Property X7: searching does not write.  The search route,
    the advanced search and the suggestions leave the three collections
    as they are, whatever the request and whichever storage call fails:
    the only trace of a query is in the journal of calls.  (The search
    route never gets to the backfill: it is called without its
    controller.) *)
Theorem queries_leave_the_store_unchanged
  (E : Environment) (user : UserId) (simple : Req.search) (advanced : Req.advanced)
  (partial : option string) (w : world) :
  sameData w (snd (Router.get_search E user simple w))
  /\ sameData w (snd (SearchController.advancedSearch E user advanced w))
  /\ sameData w (snd (Router.get_suggestions E user partial w)).
Proof.
  split; [|split].
  - unfold Router.get_search, SearchController.search. cbn [viaThis].
    apply (keeps_handler (R := sameData)). read_only.
  - unfold SearchController.advancedSearch.
    apply (keeps_handler (R := sameData)). cbv zeta. read_only.
  - unfold Router.get_suggestions, SearchController.getSuggestions.
    apply (keeps_handler (R := sameData)). read_only.
Qed.

(* ================================================================== *)
(** * Highlighting with terms that are plain text *)
(* ================================================================== *)

Lemma split_literal (q : string) :
  Regex.isLiteral q = true -> Forall (fun t => Regex.isLiteral t = true) (JS.split " " q).
Proof.
  induction q as [|c q IH]; simpl; intros H.
  - repeat constructor.
  - apply andb_true_iff in H as [Hc Hq]. specialize (IH Hq).
    destruct (Ascii.eqb c " "); [constructor; [reflexivity | exact IH]|].
    destruct (JS.split " " q) as [|t ts].
    + constructor; [simpl; now rewrite Hc | constructor].
    + inversion IH; subst. constructor; [simpl; rewrite Hc; assumption | assumption].
Qed.

Lemma termsOf_literal (q : string) :
  Regex.isLiteral q = true ->
  Forall (fun t => Regex.isLiteral t = true /\ t <> EmptyString) (termsOf q).
Proof.
  intros H. apply split_literal in H. unfold termsOf.
  apply Forall_forall. intros t Ht. apply filter_In in Ht as [Ht Hl].
  rewrite Forall_forall in H. split; [apply H, Ht|].
  intros ->. discriminate Hl.
Qed.

Lemma markFrom_absent (t : string) fuel s :
  Regex.ciOccurs t s = false -> Regex.markFrom fuel t s = s.
Proof.
  revert s. induction fuel as [|fuel IH]; intros s Hs; [reflexivity|].
  destruct s as [|c s]; [reflexivity|].
  cbn [Regex.markFrom]. cbn [Regex.ciOccurs] in Hs.
  apply orb_false_iff in Hs as [Hp Hs]. rewrite Hp. now rewrite IH.
Qed.

Section LiteralTerms.

Variable E : Environment.
Hypothesis HE : LiteralMark E.

Lemma mark_terms (terms : list string) (content : string) :
  Forall (fun t => Regex.isLiteral t = true /\ t <> EmptyString) terms ->
  fold_left
    (fun highlighted term =>
       match highlighted with
       | Throw e => Throw e
       | Ok text =>
           match markRegExp E term with
           | Some replace => Ok (replace text)
           | None => Throw SyntaxError
           end
       end) terms (Ok content)
  = Ok (fold_left (fun text term => Regex.markAll term text) terms content).
Proof.
  intros H. revert content. induction H as [|t terms [Hl Hne] _ IH]; intros content.
  - reflexivity.
  - simpl. destruct (HE t Hl Hne) as (f & -> & Hf). rewrite Hf. apply IH.
Qed.

Lemma highlight_literal (content q : string) :
  Regex.isLiteral q = true ->
  SearchController.highlightSearchTerms E content q
  = Ok (fold_left (fun text term => Regex.markAll term text) (termsOf q) content).
Proof.
  intros H. unfold SearchController.highlightSearchTerms. cbv zeta.
  apply (mark_terms (termsOf q)), termsOf_literal, H.
Qed.

End LiteralTerms.

Lemma mark_absent_terms (terms : list string) (content : string) :
  Forall (fun t => Regex.ciOccurs t content = false) terms ->
  fold_left (fun text term => Regex.markAll term text) terms content = content.
Proof.
  induction 1 as [|t terms Ht _ IH]; simpl; [reflexivity|].
  unfold Regex.markAll at 2. now rewrite markFrom_absent.
Qed.



(* ================================================================== *)
(** * Searching a store that does not fail *)
(* ================================================================== *)

Lemma resolveNames_reliable E user uuids w :
  Reliable E ->
  fst (SearchController.resolveNames E user uuids w) = Ok (namesFor user uuids (pdfs w)).
Proof.
  intros HR. unfold SearchController.resolveNames, namesFor.
  destruct (0 <? length uuids); [|reflexivity].
  unfold tryCatch, bind. rewrite findPDFs_run, HR. reflexivity.
Qed.

Lemma search_reliable E this user req q re w :
  Reliable E ->
  Req.s_query req = Some q -> tooShort (Some q) = false ->
  mongoRegex E q = Some re ->
  filter (ownedBy user) (searchIndex w) <> [] ->
  let results := SearchIndex.page simpleCursor
                   (filter (SearchIndex.holds re (simpleFilter user q req)) (searchIndex w)) in
  fst (SearchController.search E this user req w) =
  match SearchController.mapOutcome
          (SearchController.formatResult E
             (namesFor user (JS.distinct [] (map SearchIndex.pdfUuid results)) (pdfs w)) q)
          results with
  | Ok formatted => searchFound q (length results) formatted
  | Throw e => searchFailed e
  end.
Proof.
  intros HR Hq Hlong Hre Hne results.
  unfold SearchController.search, handler. cbv zeta. rewrite Hq.
  rewrite tooShort_guard, Hlong.
  unfold bind at 1. rewrite countDocuments_run, HR.
  rewrite compile_plain by reflexivity. cbv iota.
  rewrite (filter_ext _ (ownedBy user)) by (intros d; apply holds_byOwner).
  destruct (filter (ownedBy user) (searchIndex w)) as [|d0 l0] eqn:Hown; [contradiction|].
  cbn [length Nat.eqb].
  unfold bind at 1. rewrite find_run, HR.
  rewrite (compile_regex _ _ q) by reflexivity. rewrite Hre.
  cbn [SearchIndex.skip]. change (0 <? 0)%Z with false. cbv iota.
  fold simpleCursor. fold (simpleFilter user q req).
  cbn [searchIndex record]. fold results.
  unfold bind at 1.
  match goal with |- context [SearchController.resolveNames E user ?u ?w1] =>
    pose proof (resolveNames_reliable E user u w1 HR) as Hn;
    destruct (SearchController.resolveNames E user u w1) as [o w2]
  end.
  cbn [fst pdfs record] in Hn. subst o.
  unfold bind, liftOutcome.
  destruct (SearchController.mapOutcome _ _); reflexivity.
Qed.

Lemma newestFirst_In_rev e l : In e l -> In e (SearchIndex.newestFirst l).
Proof.
  induction l as [|d l IH]; simpl; [auto|].
  assert (forall x m, In e (x :: m) -> In e (SearchIndex.insertNewest x m)) as Hins.
  { intros x m. induction m as [|y m IHm]; [auto|].
    cbn [SearchIndex.insertNewest]. destruct (_ <=? _); [auto|].
    intros [Hx|[Hy|H]].
    - right. apply IHm. left. exact Hx.
    - left. exact Hy.
    - right. apply IHm. right. exact H. }
  intros [->|H]; apply Hins; [left; reflexivity | right; auto].
Qed.

Lemma page_all e l :
  In e l -> length l <= 20 -> In e (SearchIndex.page simpleCursor l).
Proof.
  intros He Hl. unfold SearchIndex.page, SearchIndex.limitTo, simpleCursor.
  cbn [SearchIndex.limit SearchIndex.skip SearchIndex.sortNewest Nat.eqb Z.to_nat skipn].
  rewrite firstn_all2 by (rewrite newestFirst_length; exact Hl).
  apply newestFirst_In_rev, He.
Qed.

Lemma mapOutcome_total {A B} (f : A -> outcome B) (l : list A) :
  (forall a, In a l -> exists b, f a = Ok b) ->
  exists bs, SearchController.mapOutcome f l = Ok bs.
Proof.
  induction l as [|a l IH]; simpl; intros H; [eauto|].
  destruct (H a (or_introl eq_refl)) as [b ->].
  destruct IH as [bs ->]; [auto|]. eauto.
Qed.

Lemma mapOutcome_In_rev {A B} (f : A -> outcome B) (l : list A) (bs : list B) :
  SearchController.mapOutcome f l = Ok bs ->
  forall a, In a l -> exists b, In b bs /\ f a = Ok b.
Proof.
  intros H. apply mapOutcome_Forall2 in H.
  induction H as [|a b l bs Hf _ IH]; intros x []; subst; [exists b; simpl; auto|].
  destruct (IH x) as (b' & Hb' & Hfb); [assumption|]. exists b'. simpl; auto.
Qed.

Lemma search_finds_indexed
  (E : Environment) (this : receiver) (A : Highlight.doc) (owner : UserId)
  (query : string) (w : world) :
  Reliable E -> LiteralMongo E -> LiteralMark E ->
  Regex.isLiteral query = true ->
  tooShort (Some query) = false ->
  Regex.ciOccurs query (Highlight.highlightedText A) = true ->
  unitsOf (Highlight.uuid A) owner (searchIndex w) = 0 ->
  length (filter (matching (Regex.ciOccurs query) owner) (searchIndex w)) < 20 ->
  let indexed := snd (SearchController.indexHighlight E A owner w) in
  exists r,
    In r (resultsOf (fst (SearchController.search E this owner
                            (searchFor query None None) indexed)))
    /\ r_highlightId r = Some (Highlight.uuid A)
    /\ r_contentType r = annotation
    /\ r_content r = Highlight.highlightedText A
    /\ r_pdfUuid r = Highlight.pdfUuid A
    /\ r_pageNumber r = Highlight.pageNumber A
    /\ r_position r = Some (Highlight.position A).
Proof.
  intros HR HM HK Hlit Hlong Hocc Hnew Hfew indexed.
  destruct (HM query Hlit) as (re & Hre & Hres).
  set (e := SearchIndex.stamp (nextId w) (now w) (SearchController.annotationEntry A owner)).
  assert (searchIndex indexed = searchIndex w ++ [e]) as Hidx.
  { unfold indexed. rewrite indexHighlight_run. cbv zeta. cbn [snd]. rewrite !HR.
    apply find_none_count in Hnew. rewrite Hnew. reflexivity. }
  assert (forall d, SearchIndex.holds re (simpleFilter owner query (searchFor query None None)) d
                    = matching (Regex.ciOccurs query) owner d) as Hp.
  { intros d. change (simpleFilter owner query (searchFor query None None))
      with {| SearchIndex.q_userId := Some owner; SearchIndex.q_content := Some query;
              SearchIndex.q_pdfUuid := None; SearchIndex.q_contentType := None;
              SearchIndex.q_createdAt := None; SearchIndex.q_pageNumber := None;
              SearchIndex.q_highlightId := None |}.
    rewrite holds_suggestions. unfold matching. now rewrite Hres. }
  assert (matching (Regex.ciOccurs query) owner e = true) as He.
  { unfold matching, ownedBy, e. cbn. rewrite Nat.eqb_refl. exact Hocc. }
  pose proof (search_reliable E this owner (searchFor query None None) query re indexed
                HR eq_refl Hlong Hre) as Hrun.
  cbv zeta in Hrun. rewrite Hidx in Hrun.
  rewrite (filter_ext _ _ Hp) in Hrun.
  set (results := SearchIndex.page simpleCursor _) in Hrun.
  assert (In e results) as Hin.
  { apply page_all.
    - apply filter_In. split; [apply in_or_app; right; left; reflexivity | exact He].
    - rewrite filter_app, length_app. simpl. rewrite He. simpl. lia. }
  destruct (mapOutcome_total
              (SearchController.formatResult E
                 (namesFor owner (JS.distinct [] (map SearchIndex.pdfUuid results))
                    (pdfs indexed)) query) results) as [fm Hfm].
  { intros d _. unfold SearchController.formatResult.
    rewrite (highlight_literal E HK _ _ Hlit). eauto. }
  rewrite Hfm in Hrun.
  destruct (mapOutcome_In_rev _ _ _ Hfm e Hin) as (r & Hr & Hfr).
  exists r. split.
  - rewrite Hrun; [exact Hr|].
    rewrite filter_app. simpl.
    assert (ownedBy owner e = true) as -> by (unfold ownedBy, e; cbn; apply Nat.eqb_refl).
    intros Habs. apply app_eq_nil in Habs as [_ Habs]. discriminate.
  - apply formatResult_shows in Hfr.
    destruct Hfr as (_ & Hu & Hn & Hc & Ht & Hh & Hpos & _).
    rewrite Hh, Ht, Hc, Hu, Hn, Hpos. repeat split.
Qed.



Lemma advancedSearch_reliable E user req q re w :
  Reliable E ->
  Req.a_query req = Some q -> tooShort (Some q) = false ->
  mongoRegex E q = Some re ->
  (0 <= SearchIndex.skip (advancedCursor req))%Z ->
  let matches := filter (SearchIndex.holds re (advancedFilter user q req)) (searchIndex w) in
  let results := SearchIndex.page (advancedCursor req) matches in
  fst (SearchController.advancedSearch E user req w) =
  match SearchController.mapOutcome
          (SearchController.formatResult E
             (namesFor user (JS.distinct [] (map SearchIndex.pdfUuid results)) (pdfs w)) q)
          results with
  | Ok formatted => advancedFound req q (length matches) formatted
  | Throw e => advancedFailed e
  end.
Proof.
  intros HR Hq Hlong Hre Hskip matches results.
  unfold SearchController.advancedSearch, handler. cbv zeta. rewrite Hq.
  rewrite tooShort_guard, Hlong.
  fold (advancedFilter user q req). fold (advancedCursor req).
  unfold bind at 1. unfold promiseAll.
  rewrite find_run. cbv beta iota. rewrite countDocuments_run.
  rewrite (compile_regex _ _ q) by reflexivity. rewrite Hre, !HR.
  apply Z.ltb_ge in Hskip. rewrite Hskip.
  cbn [fst snd searchIndex record]. fold matches. fold results.
  unfold bind at 1.
  match goal with |- context [SearchController.resolveNames E user ?u ?w1] =>
    pose proof (resolveNames_reliable E user u w1 HR) as Hn;
    destruct (SearchController.resolveNames E user u w1) as [o w2]
  end.
  cbn [fst pdfs record] in Hn. subst o.
  unfold bind, liftOutcome.
  destruct (SearchController.mapOutcome _ _); reflexivity.
Qed.

Lemma holds_asAdvanced re user q req d :
  SearchIndex.holds re (advancedFilter user q (asAdvanced req)) d
  = SearchIndex.holds re (simpleFilter user q req) d.
Proof.
  unfold SearchIndex.holds, advancedFilter, simpleFilter, asAdvanced.
  cbn [SearchIndex.q_userId SearchIndex.q_content SearchIndex.q_pdfUuid
       SearchIndex.q_contentType SearchIndex.q_createdAt SearchIndex.q_pageNumber
       SearchIndex.q_highlightId Req.a_pdfUuids Req.a_contentTypes Req.a_dateFrom
       Req.a_dateTo Req.a_pageNumber].
  f_equal. f_equal. f_equal. f_equal; [f_equal|].
  - destruct (Req.s_pdfUuid req) as [[|c p]|]; try reflexivity.
    cbn [orDefault length Nat.ltb Nat.leb optHolds condHolds existsb].
    now rewrite orb_false_r, String.eqb_sym.
  - destruct (Req.s_contentType req) as [c|]; [|reflexivity].
    cbn [option_map orDefault existsb]. rewrite orb_false_r, (String.eqb_sym "all" c).
    destruct (String.eqb c "all"); [reflexivity|].
    cbn [optHolds condHolds existsb].
    now rewrite orb_false_r, String.eqb_sym.
Qed.

Lemma search_short E this user req w :
  tooShort (Req.s_query req) = true ->
  fst (SearchController.search E this user req w) = SearchController.invalidQuery.
Proof.
  intros H. unfold SearchController.search, handler. cbv zeta.
  destruct (Req.s_query req) as [q|]; [|reflexivity].
  now rewrite tooShort_guard, H.
Qed.

Lemma advancedSearch_short E user req w :
  tooShort (Req.a_query req) = true ->
  fst (SearchController.advancedSearch E user req w) = SearchController.invalidQuery.
Proof.
  intros H. unfold SearchController.advancedSearch, handler. cbv zeta.
  destruct (Req.a_query req) as [q|]; [|reflexivity].
  now rewrite tooShort_guard, H.
Qed.

Lemma search_no_results E this user req w :
  (forall q re, Req.s_query req = Some q -> mongoRegex E q = Some re ->
     filter (SearchIndex.holds re (simpleFilter user q req)) (searchIndex w) = []) ->
  resultsOf (fst (SearchController.search E this user req w)) = [].
Proof.
  intros H.
  destruct (search_answer E this user req w)
    as [[[-> _]|[->|[e ->]]]|(q & re & names & fm & Hq & Hre & Hk & Hmap & ->)];
    try reflexivity.
  rewrite (H q re Hq Hre) in Hmap. inversion Hmap. reflexivity.
Qed.

Lemma advancedSearch_no_results E user req w :
  (forall q re, Req.a_query req = Some q -> mongoRegex E q = Some re ->
     filter (SearchIndex.holds re (advancedFilter user q req)) (searchIndex w) = []) ->
  resultsOf (fst (SearchController.advancedSearch E user req w)) = [].
Proof.
  intros H.
  destruct (advancedSearch_answer E user req w)
    as [[[-> _]|[e ->]]|(q & re & names & fm & Hq & Hre & _ & Hk & Hmap & ->)];
    try reflexivity.
  rewrite (H q re Hq Hre) in Hmap.
  assert (SearchIndex.page (advancedCursor req) [] = []) as Hnil.
  { pose proof (page_length_all (advancedCursor req) []) as Hl.
    destruct (SearchIndex.page _ _); [reflexivity | simpl in Hl; lia]. }
  rewrite Hnil in Hmap. inversion Hmap. reflexivity.
Qed.

Lemma filter_nil_of_owner re f user (l : list SearchIndex.doc) :
  SearchIndex.q_userId f = Some user ->
  filter (ownedBy user) l = [] -> filter (SearchIndex.holds re f) l = [].
Proof.
  intros Hu Hnil.
  rewrite <- (filter_absorb (SearchIndex.holds re f) (ownedBy user)), Hnil; [reflexivity|].
  intros d Hd. unfold ownedBy. apply Nat.eqb_eq. symmetry. eapply holds_owner; eauto.
Qed.

(** Property X10: the advanced search answers the
    simple request alike.  With a store that does not fail, the advanced
    search asked for the same query, the one document and the one kind
    of the simple request (and nothing else) returns exactly the results
    of the simple search. *)
Theorem advanced_search_generalises_simple
  (E : Environment) (this : receiver) (user : UserId) (req : Req.search) (w : world) :
  Reliable E ->
  resultsOf (fst (SearchController.advancedSearch E user (asAdvanced req) w))
  = resultsOf (fst (SearchController.search E this user req w)).
Proof.
  intros HR.
  destruct (tooShort (Req.s_query req)) eqn:Hshort.
  { rewrite search_short, advancedSearch_short by exact Hshort. reflexivity. }
  destruct (Req.s_query req) as [q|] eqn:Hq; [|discriminate].
  destruct (mongoRegex E q) as [re|] eqn:Hre.
  2:{ rewrite search_no_results; [rewrite advancedSearch_no_results; [reflexivity|]|].
      - intros q' re' Hq'. cbn in Hq'. rewrite Hq in Hq'. inversion Hq'; subst. congruence.
      - intros q' re' Hq'. rewrite Hq in Hq'. inversion Hq'; subst. congruence. }
  destruct (filter (ownedBy user) (searchIndex w)) as [|d0 l0] eqn:Hown.
  { rewrite search_no_results; [rewrite advancedSearch_no_results; [reflexivity|]|];
      (intros q' re' _ _; eapply filter_nil_of_owner; [reflexivity | exact Hown]). }
  rewrite (search_reliable E this user req q re w HR Hq Hshort Hre)
    by (rewrite Hown; discriminate).
  rewrite (advancedSearch_reliable E user (asAdvanced req) q re w HR)
    by (try assumption; try (cbn; exact Hq); vm_compute; discriminate).
  cbv zeta. change (advancedCursor (asAdvanced req)) with simpleCursor.
  rewrite (filter_ext _ _ (holds_asAdvanced re user q req)).
  destruct (SearchController.mapOutcome _ _); reflexivity.
Qed.

Lemma advanced_search_generalises_simple_witness :
  let w := Sample.state [Sample.entry 1 10 Sample.h1;
                         Sample.pageText 2 11 "pdf-1" Sample.alice 1 "machine translation"]
                        [Sample.h1] [Sample.doc1] in
  let req := searchFor "machine" (Some "pdf-1") (Some "annotation") in
  resultsOf (fst (SearchController.advancedSearch Sample.env Sample.alice (asAdvanced req) w))
  = resultsOf (fst (Router.get_search Sample.env Sample.alice req w)).
Proof.
  intros w req.
  apply (advanced_search_generalises_simple Sample.env ThisUndefined Sample.alice req w
           Reference_Reliable).
Defined.

(* ================================================================== *)
(** * Indexing a PDF *)
(* ================================================================== *)

Lemma holds_pagesFilter re uuid user d :
  SearchIndex.holds re (pagesFilter uuid user) d = isPageOf uuid user d.
Proof.
  unfold SearchIndex.holds, pagesFilter, isPageOf, isPdfText. cbn.
  rewrite !andb_true_r. f_equal. destruct (SearchIndex.contentType d); reflexivity.
Qed.

Lemma insertMany_run E ds w :
  Db.insertMany E ds w =
  if faulty E (length (journal w)) (SearchIndex_insertMany ds)
  then (Throw StorageError, record (SearchIndex_insertMany ds) w)
  else (Ok tt, fold_left (fun w' d => Db.store d w') ds (record (SearchIndex_insertMany ds) w)).
Proof.
  unfold Db.insertMany, Db.issue, bind.
  destruct (faulty E _ _); reflexivity.
Qed.

Lemma indexPdf_run E user uuid w :
  let entries := SearchController.indexEntries uuid user 0 SearchController.dummyContent in
  let w1 := record (PDF_findOne (ownPdf uuid user)) w in
  let w2 := record (SearchIndex_findOne (pagesFilter uuid user)) w1 in
  let w3 := record (SearchIndex_insertMany entries) w2 in
  SearchController.indexPdf E user uuid w =
  if faulty E (length (journal w)) (PDF_findOne (ownPdf uuid user))
  then (failedToIndex, w1)
  else match List.find (PDF.holds (ownPdf uuid user)) (pdfs w) with
       | None => (pdfNotFound, w1)
       | Some _ =>
           if faulty E (length (journal w1)) (SearchIndex_findOne (pagesFilter uuid user))
           then (failedToIndex, w2)
           else match List.find (isPageOf uuid user) (searchIndex w) with
                | Some _ => (alreadyIndexed, w2)
                | None =>
                    if faulty E (length (journal w2)) (SearchIndex_insertMany entries)
                    then (failedToIndex, w3)
                    else (pdfIndexed 4, fold_left (fun w' d => Db.store d w') entries w3)
                end
       end.
Proof.
  intros entries w1 w2 w3.
  unfold SearchController.indexPdf, handler.
  fold (ownPdf uuid user). fold (pagesFilter uuid user). fold entries.
  unfold bind at 1. rewrite findOnePDF_run. fold w1.
  destruct (faulty E _ _); [reflexivity|].
  destruct (List.find _ (pdfs w)); [|reflexivity].
  unfold bind at 1. rewrite findOne_run. fold w2.
  destruct (faulty E _ _); [reflexivity|].
  rewrite compile_plain by reflexivity.
  cbn [searchIndex w1 record].
  rewrite (find_pointwise _ (isPageOf uuid user)) by (intros e; apply holds_pagesFilter).
  destruct (List.find _ (searchIndex w)); [reflexivity|].
  unfold bind. rewrite insertMany_run. fold w3.
  destruct (faulty E _ _); reflexivity.
Qed.

Lemma stores_index (ds : list SearchIndex.fresh) (w : world) :
  let w' := fold_left (fun w' d => Db.store d w') ds w in
  searchIndex w' = searchIndex w ++ stamps (nextId w) (now w) ds
  /\ highlights w' = highlights w /\ pdfs w' = pdfs w /\ journal w' = journal w.
Proof.
  revert w. induction ds as [|d ds IH]; intros w; cbn [fold_left stamps].
  - rewrite app_nil_r. repeat split.
  - destruct (IH (Db.store d w)) as (Hi & Hh & Hp & Hj). cbv zeta.
    rewrite Hi, Hh, Hp, Hj. cbn [Db.store searchIndex nextId now highlights pdfs journal].
    rewrite <- app_assoc. repeat split.
Qed.

Lemma find_owned_pdf (user : UserId) (uuid : string) (docs : list PDF.doc) :
  (List.find (PDF.holds (ownPdf uuid user)) docs = None
   <-> forall pdf, In pdf docs -> PDF.uuid pdf = uuid -> PDF.userId pdf <> user)
  /\ (forall pdf, List.find (PDF.holds (ownPdf uuid user)) docs = Some pdf ->
        In pdf docs /\ PDF.uuid pdf = uuid /\ PDF.userId pdf = user).
Proof.
  assert (forall pdf, PDF.holds (ownPdf uuid user) pdf = true
                      <-> PDF.uuid pdf = uuid /\ PDF.userId pdf = user) as Hh.
  { intros pdf. unfold PDF.holds, ownPdf. cbn.
    rewrite andb_true_iff, String.eqb_eq, Nat.eqb_eq. intuition congruence. }
  split.
  - split.
    + intros Hnone pdf Hin Hu Ho.
      pose proof (find_none _ _ Hnone pdf Hin) as Hf.
      assert (PDF.holds (ownPdf uuid user) pdf = true) by (apply Hh; auto). congruence.
    + intros Hall. destruct (List.find _ docs) as [pdf|] eqn:Hf; [|reflexivity].
      apply find_some in Hf as [Hin Hp]. apply Hh in Hp as [Hu Ho].
      exfalso. exact (Hall pdf Hin Hu Ho).
  - intros pdf Hf. apply find_some in Hf as [Hin Hp]. apply Hh in Hp. tauto.
Qed.

(** Property X11: indexing needs a PDF of one's own.
    When the user owns no PDF with the given uuid (there is none, or it
    belongs to someone else), [indexPdf] answers 404 'PDF not found' (500
    if the lookup fails), issues that one lookup, scoped to the user, and
    stores nothing. *)
Theorem indexPdf_needs_own_pdf
  (E : Environment) (user : UserId) (uuid : string) (w : world) :
  (forall pdf, In pdf (pdfs w) -> PDF.uuid pdf = uuid -> PDF.userId pdf <> user) ->
  let run := SearchController.indexPdf E user uuid w in
  fst run = (if faulty E (length (journal w)) (PDF_findOne (ownPdf uuid user))
             then failedToIndex else pdfNotFound)
  /\ statusOf pdfNotFound = Some 404
  /\ statusOf failedToIndex = Some 500
  /\ sameData w (snd run)
  /\ journal (snd run) = journal w ++ [PDF_findOne (ownPdf uuid user)].
Proof.
  intros Hnone run. unfold run. rewrite indexPdf_run. cbv zeta.
  apply (proj2 (proj1 (find_owned_pdf user uuid (pdfs w)))) in Hnone. rewrite Hnone.
  destruct (faulty E _ _); repeat split.
Qed.

Lemma indexPdf_needs_own_pdf_witness :
  let w := Sample.state [Sample.entry 1 10 Sample.h1] [Sample.h1] [Sample.doc1] in
  fst (SearchController.indexPdf Sample.env Sample.bob "pdf-1" w) = pdfNotFound
  /\ searchIndex (snd (SearchController.indexPdf Sample.env Sample.bob "pdf-1" w))
     = searchIndex w.
Proof.
  intros w.
  destruct (indexPdf_needs_own_pdf Sample.env Sample.bob "pdf-1" w) as (Hr & _ & _ & Hs & _).
  { intros pdf [<-|[]] _. discriminate. }
  split; [exact Hr | exact (proj1 Hs)].
Defined.

Lemma filter_all {A} (p : A -> bool) (l : list A) :
  Forall (fun a => p a = true) l -> filter p l = l.
Proof.
  induction 1 as [|a l Ha _ IH]; simpl; [reflexivity|]. now rewrite Ha, IH.
Qed.

Lemma find_filter_nil {A} (p : A -> bool) (l : list A) :
  List.find p l = None <-> filter p l = [].
Proof.
  rewrite find_none_count. split; [apply length_zero_iff_nil | intros ->; reflexivity].
Qed.

(** Property X12: a PDF is indexed once.  With a store that
    does not fail and a PDF of the user, the first [indexPdf] adds the
    four entries of body text (pages 1 to 4 with the sample sentences,
    owned by the user, without highlight id) if the document has no
    entry of body text yet, and adds nothing otherwise; a second call
    always answers 'PDF already indexed' and leaves the index as the
    first call left it. *)
Theorem indexPdf_indexes_once
  (E : Environment) (user : UserId) (uuid : string) (w : world) :
  Reliable E ->
  (exists pdf, In pdf (pdfs w) /\ PDF.uuid pdf = uuid /\ PDF.userId pdf = user) ->
  let first := SearchController.indexPdf E user uuid w in
  let second := SearchController.indexPdf E user uuid (snd first) in
  fst second = alreadyIndexed
  /\ searchIndex (snd second) = searchIndex (snd first)
  /\ (filter (isPageOf uuid user) (searchIndex w) = [] ->
      fst first = pdfIndexed 4
      /\ exists added,
           searchIndex (snd first) = searchIndex w ++ added
           /\ map (fun d => (SearchIndex.pageNumber d, SearchIndex.content d)) added
              = combine [1; 2; 3; 4] SearchController.dummyContent
           /\ Forall (fun d => isPageOf uuid user d = true
                               /\ SearchIndex.highlightId d = None) added)
  /\ (filter (isPageOf uuid user) (searchIndex w) <> [] ->
      fst first = alreadyIndexed /\ searchIndex (snd first) = searchIndex w).
Proof.
  intros HR (pdf & Hin & Hu & Ho) first second.
  assert (exists found, List.find (PDF.holds (ownPdf uuid user)) (pdfs w) = Some found)
    as [found Hfound].
  { destruct (List.find _ (pdfs w)) as [f|] eqn:Hf; [eauto|].
    exfalso. exact (proj1 (proj1 (find_owned_pdf user uuid (pdfs w))) Hf pdf Hin Hu Ho). }
  assert (forall w0, pdfs w0 = pdfs w ->
            forall e, List.find (isPageOf uuid user) (searchIndex w0) = Some e ->
            fst (SearchController.indexPdf E user uuid w0) = alreadyIndexed
            /\ searchIndex (snd (SearchController.indexPdf E user uuid w0)) = searchIndex w0)
    as Hagain.
  { intros w0 Hp e He. rewrite indexPdf_run. cbv zeta. rewrite !HR, Hp, Hfound, He.
    split; reflexivity. }
  set (entries := SearchController.indexEntries uuid user 0 SearchController.dummyContent).
  assert (Forall (fun d => isPageOf uuid user d = true /\ SearchIndex.highlightId d = None)
                 (stamps (nextId w) (now w) entries)) as Hpages.
  { unfold isPageOf, isPdfText. repeat constructor; cbn;
      now rewrite Nat.eqb_refl, String.eqb_refl. }
  destruct (List.find (isPageOf uuid user) (searchIndex w)) as [e|] eqn:Hpage.
  - destruct (Hagain w eq_refl e Hpage) as [Hr Hi]. fold first in Hr, Hi.
    assert (pdfs (snd first) = pdfs w) as Hp.
    { unfold first. rewrite indexPdf_run. cbv zeta. rewrite !HR, Hfound, Hpage. reflexivity. }
    assert (List.find (isPageOf uuid user) (searchIndex (snd first)) = Some e) as He
      by (rewrite Hi; exact Hpage).
    destruct (Hagain (snd first) Hp e He) as [Hr2 Hi2]. fold second in Hr2, Hi2.
    split; [exact Hr2|]. split; [exact Hi2|]. split.
    + intros Hnil. apply find_filter_nil in Hnil. congruence.
    + intros _. split; assumption.
  - assert (first = (pdfIndexed 4,
                     fold_left (fun w' d => Db.store d w') entries
                       (record (SearchIndex_insertMany entries)
                          (record (SearchIndex_findOne (pagesFilter uuid user))
                             (record (PDF_findOne (ownPdf uuid user)) w))))) as Hfirst.
    { unfold first. rewrite indexPdf_run. cbv zeta. rewrite !HR, Hfound, Hpage. reflexivity. }
    match type of Hfirst with _ = (_, fold_left _ _ ?w3) =>
      destruct (stores_index entries w3) as (Hi & _ & Hp & _) end.
    cbv zeta in Hi, Hp. cbn [searchIndex pdfs nextId now record] in Hi, Hp.
    assert (searchIndex (snd first) = searchIndex w ++ stamps (nextId w) (now w) entries)
      as Hidx by (rewrite Hfirst; exact Hi).
    assert (pdfs (snd first) = pdfs w) as Hpdfs by (rewrite Hfirst; exact Hp).
    assert (exists e, List.find (isPageOf uuid user) (searchIndex (snd first)) = Some e)
      as [e He].
    { destruct (List.find _ (searchIndex (snd first))) as [e|] eqn:Hf; [eauto|].
      exfalso. apply find_filter_nil in Hf. rewrite Hidx, filter_app in Hf.
      apply app_eq_nil in Hf as [_ Hf].
      rewrite filter_all in Hf by (eapply Forall_impl; [|exact Hpages]; intros d Hd; apply Hd).
      discriminate Hf. }
    destruct (Hagain (snd first) Hpdfs e He) as [Hr2 Hi2]. fold second in Hr2, Hi2.
    split; [exact Hr2|]. split; [exact Hi2|]. split.
    + intros _. split; [rewrite Hfirst; reflexivity|].
      exists (stamps (nextId w) (now w) entries).
      split; [exact Hidx|]. split; [reflexivity | exact Hpages].
    + intros Hne. apply find_filter_nil in Hpage. contradiction.
Qed.

Lemma indexPdf_indexes_once_witness :
  let w := Sample.state [Sample.entry 1 10 Sample.h1] [Sample.h1] [Sample.doc1] in
  let first := SearchController.indexPdf Sample.env Sample.alice "pdf-1" w in
  let second := SearchController.indexPdf Sample.env Sample.alice "pdf-1" (snd first) in
  fst first = pdfIndexed 4
  /\ fst second = alreadyIndexed
  /\ searchIndex (snd second) = searchIndex (snd first)
  /\ length (searchIndex (snd first)) = 5.
Proof.
  intros w first second.
  destruct (indexPdf_indexes_once Sample.env Sample.alice "pdf-1" w Reference_Reliable)
    as (H2 & Hi & Hnew & _).
  { exists Sample.doc1. split; [left; reflexivity|]. split; reflexivity. }
  destruct (Hnew eq_refl) as (H1 & _).
  split; [exact H1|]. split; [exact H2|]. split; [exact Hi | reflexivity].
Defined.

(* ================================================================== *)
(** * Indexing only appends *)
(* ================================================================== *)

#[export] Instance appends_Stable (P : SearchIndex.doc -> Prop) : Stable (appends P).
Proof.
  split.
  - intros w. split; [reflexivity|]. split; [reflexivity|].
    exists []. rewrite app_nil_r. auto.
  - intros a b c (Hh & Hp & l & Hl & HP) (Hh' & Hp' & l' & Hl' & HP').
    split; [congruence|]. split; [congruence|].
    exists (l ++ l'). rewrite Hl', Hl, app_assoc. split; [reflexivity|].
    apply Forall_app; auto.
Qed.

Lemma sameData_appends (P : SearchIndex.doc -> Prop) (w w' : world) :
  sameData w w' -> appends P w w'.
Proof.
  intros (Hi & Hh & Hp & _). split; [exact Hh|]. split; [exact Hp|].
  exists []. rewrite app_nil_r. auto.
Qed.

Lemma appends_weaken (P Q : SearchIndex.doc -> Prop) (w w' : world) :
  (forall d, P d -> Q d) -> appends P w w' -> appends Q w w'.
Proof.
  intros H (Hh & Hp & l & Hl & HP). split; [exact Hh|]. split; [exact Hp|].
  exists l. split; [exact Hl|]. eapply Forall_impl; eauto.
Qed.

Lemma appends_store (P : SearchIndex.doc -> Prop) (d : SearchIndex.fresh) (w : world) :
  (forall id time, P (SearchIndex.stamp id time d)) -> appends P w (Db.store d w).
Proof.
  intros H. split; [reflexivity|]. split; [reflexivity|].
  eexists. split; [reflexivity|]. constructor; [apply H | constructor].
Qed.

Lemma appends_record (P : SearchIndex.doc -> Prop) (c : call) (w : world) :
  appends P w (record c w).
Proof. apply sameData_appends. repeat split. Qed.

Lemma appends_indexHighlight E (A : Highlight.doc) (owner : UserId) (w : world) :
  appends (entryOf A owner) w (snd (SearchController.indexHighlight E A owner w)).
Proof.
  rewrite indexHighlight_run. cbv zeta. cbn [snd].
  destruct (faulty E _ _); [apply appends_record|].
  destruct (List.find _ _); [apply appends_record|].
  destruct (faulty E _ _).
  - eapply stable_trans; apply appends_record.
  - eapply stable_trans; [apply appends_record|].
    eapply stable_trans; [apply appends_record|].
    apply appends_store. intros id time. exists id, time. reflexivity.
Qed.

Lemma indexPass_indexHighlight E user h w :
  snd (indexPass E user h w) = snd (SearchController.indexHighlight E h user w).
Proof. symmetry. apply tryCatch_swallow. Qed.

Lemma appends_passes E user (Q : Highlight.doc -> Prop) (hs : list Highlight.doc) :
  (forall h, In h hs -> Q h) ->
  forall w,
    appends (fun d => exists h, Q h /\ entryOf h user d) w (snd (forOf hs (indexPass E user) w)).
Proof.
  induction hs as [|h hs IH]; intros HQ w; cbn [forOf].
  - apply stable_refl.
  - unfold bind.
    pose proof (appends_indexHighlight E h user w) as Hone.
    rewrite <- indexPass_indexHighlight in Hone.
    destruct (indexPass E user h w) as [[[]|e] w1]; cbn [snd] in *.
    + eapply stable_trans; [|apply IH; intros; apply HQ; right; assumption].
      eapply appends_weaken; [|exact Hone]. intros d Hd. exists h. split; [|exact Hd].
      apply HQ. left. reflexivity.
    + eapply appends_weaken; [|exact Hone]. intros d Hd. exists h. split; [|exact Hd].
      apply HQ. left. reflexivity.
Qed.

Lemma findHighlights_run E f w :
  Db.findHighlights E f w =
  (if faulty E (length (journal w)) (Highlight_find f)
   then Throw StorageError
   else Ok (filter (Highlight.holds f) (highlights w)),
   record (Highlight_find f) w).
Proof.
  unfold Db.findHighlights, Db.issue, bind.
  destruct (faulty E _ _); reflexivity.
Qed.

Lemma autoIndexHighlights_run E user w :
  snd (SearchController.autoIndexHighlights E user w) =
  if faulty E (length (journal w)) (Highlight_find (highlightsOf user))
  then record (Highlight_find (highlightsOf user)) w
  else snd (forOf (filter (Highlight.holds (highlightsOf user)) (highlights w))
                  (indexPass E user)
                  (record (Highlight_find (highlightsOf user)) w)).
Proof.
  unfold SearchController.autoIndexHighlights. rewrite tryCatch_swallow.
  fold (highlightsOf user). unfold bind at 1. rewrite findHighlights_run.
  destruct (faulty E _ _); reflexivity.
Qed.

Lemma holds_highlightsOf user h :
  Highlight.holds (highlightsOf user) h = true <-> Highlight.userId h = user.
Proof.
  unfold Highlight.holds, highlightsOf. cbn. rewrite Nat.eqb_eq. split; auto.
Qed.

Lemma pages_shaped uuid user id time :
  Forall (fun d => isPageOf uuid user d = true /\ entryShape d)
         (stamps id time
            (SearchController.indexEntries uuid user 0 SearchController.dummyContent)).
Proof.
  unfold isPageOf, isPdfText, entryShape.
  repeat constructor; cbn;
    first [ now rewrite Nat.eqb_refl, String.eqb_refl
          | exists 0; split; reflexivity
          | exists 1; split; reflexivity
          | exists 2; split; reflexivity
          | exists 3; split; reflexivity ].
Qed.

Lemma appends_indexPdf E user uuid w :
  appends (fun d => isPageOf uuid user d = true /\ entryShape d)
          w (snd (SearchController.indexPdf E user uuid w)).
Proof.
  rewrite indexPdf_run. cbv zeta.
  destruct (faulty E _ _); [apply appends_record|].
  destruct (List.find _ (pdfs w)); [|apply appends_record].
  destruct (faulty E _ _); [eapply stable_trans; apply appends_record|].
  destruct (List.find _ (searchIndex w)); [eapply stable_trans; apply appends_record|].
  destruct (faulty E _ _).
  - eapply stable_trans; [|apply appends_record].
    eapply stable_trans; apply appends_record.
  - cbn [snd].
    match goal with |- appends _ _ (fold_left _ ?ds ?w3) =>
      destruct (stores_index ds w3) as (Hi & Hh & Hp & _) end.
    cbv zeta in Hi, Hh, Hp. cbn [searchIndex highlights pdfs nextId now record] in Hi, Hh, Hp.
    split; [exact Hh|]. split; [exact Hp|].
    eexists. split; [exact Hi|]. apply pages_shaped.
Qed.

Lemma appends_autoIndexHighlights E user w :
  appends (fun d => exists h, (In h (highlights w) /\ Highlight.userId h = user)
                              /\ entryOf h user d)
          w (snd (SearchController.autoIndexHighlights E user w)).
Proof.
  rewrite autoIndexHighlights_run.
  destruct (faulty E _ _); [apply appends_record|].
  eapply stable_trans; [apply appends_record|].
  pose proof (appends_passes E user
                (fun h => In h (highlights w) /\ Highlight.userId h = user)
                (filter (Highlight.holds (highlightsOf user)) (highlights w))) as H.
  apply H. intros h Hh. apply filter_In in Hh as [Hin Hh].
  split; [exact Hin | apply holds_highlightsOf, Hh].
Qed.

(** Property X13: indexing only ever appends.  Whatever fails,
    [indexPdf], [indexHighlight] and the backfill leave every entry of
    the index in place and add entries behind them: [indexPdf] entries
    of body text of that PDF and user, each one of the four sample
    sentences on its page, without highlight id; [indexHighlight]
    entries made of the given highlight; the backfill entries made of
    highlights the user has.  None of them touches the highlights or
    the PDFs. *)
Theorem indexing_only_appends (E : Environment) (w : world) :
  (forall user uuid,
      appends (fun d => isPageOf uuid user d = true /\ entryShape d)
              w (snd (SearchController.indexPdf E user uuid w)))
  /\ (forall A owner,
         appends (entryOf A owner) w (snd (SearchController.indexHighlight E A owner w)))
  /\ (forall user,
         appends (fun d => exists h, (In h (highlights w) /\ Highlight.userId h = user)
                                     /\ entryOf h user d)
                 w (snd (SearchController.autoIndexHighlights E user w))).
Proof.
  split; [|split].
  - intros user uuid. apply appends_indexPdf.
  - intros A owner. apply appends_indexHighlight.
  - intros user. apply appends_autoIndexHighlights.
Qed.


(* ================================================================== *)
(** * The backfill converges *)
(* ================================================================== *)

Section Convergence.

Variable E : Environment.
Hypothesis storage_ok : Reliable E.
Variable user : UserId.

Lemma pass_present (h : Highlight.doc) (w : world) :
  1 <= unitsOf (Highlight.uuid h) user (searchIndex w) ->
  fst (indexPass E user h w) = Ok tt
  /\ searchIndex (snd (indexPass E user h w)) = searchIndex w.
Proof.
  intros Hone. split; [apply (pass_indexes E storage_ok user h w)|].
  rewrite indexPass_indexHighlight.
  apply (indexHighlight_reliable E h user w storage_ok), Hone.
Qed.

Lemma passes_present (hs : list Highlight.doc) (w : world) :
  (forall h, In h hs -> 1 <= unitsOf (Highlight.uuid h) user (searchIndex w)) ->
  searchIndex (snd (forOf hs (indexPass E user) w)) = searchIndex w.
Proof.
  revert w. induction hs as [|h hs IH]; intros w Hall; cbn [forOf]; [reflexivity|].
  unfold bind.
  destruct (pass_present h w (Hall h (or_introl eq_refl))) as [Hok Hidx].
  destruct (indexPass E user h w) as [o w1]. cbn [fst snd] in Hok, Hidx. subst o.
  rewrite IH; [exact Hidx|].
  intros h' Hh'. rewrite Hidx. apply Hall. right. exact Hh'.
Qed.

End Convergence.

(** Property X14: the backfill converges.  With a store
    that does not fail, a second run of [autoIndexHighlights] finds every
    highlight of the user indexed and adds nothing; and if the index had
    at most one entry per highlight before, it has exactly one for each
    highlight of the user after the first run. *)
Theorem backfill_converges (E : Environment) (user : UserId) (w : world) :
  Reliable E ->
  let once := snd (SearchController.autoIndexHighlights E user w) in
  let twice := snd (SearchController.autoIndexHighlights E user once) in
  searchIndex twice = searchIndex once
  /\ (wellFormed (searchIndex w) ->
      forall h, In h (highlights w) -> Highlight.userId h = user ->
                unitsOf (Highlight.uuid h) user (searchIndex once) = 1).
Proof.
  intros HR once twice.
  assert (forall h, In h (highlights w) -> Highlight.userId h = user ->
                    1 <= unitsOf (Highlight.uuid h) user (searchIndex once)) as Hall.
  { intros h Hin Hu. apply (autoIndexHighlights_complete E HR user w h Hin Hu). }
  assert (highlights once = highlights w) as Hsame
    by apply (appends_autoIndexHighlights E user w).
  split.
  - unfold twice. rewrite autoIndexHighlights_run, HR.
    rewrite passes_present; [reflexivity | exact HR |].
    intros h Hh. cbn [searchIndex record].
    apply filter_In in Hh as [Hin Hh]. apply holds_highlightsOf in Hh.
    rewrite Hsame in Hin. apply Hall; assumption.
  - intros Hwf h Hin Hu.
    pose proof (wf_autoIndexHighlights E user w Hwf) as [Hmost _].
    specialize (Hmost (Highlight.uuid h) user). fold once in Hmost.
    specialize (Hall h Hin Hu). lia.
Qed.

Lemma backfill_converges_witness :
  let w := Sample.state [Sample.entry 1 10 Sample.h1] [Sample.h1; Sample.h2; Sample.hb]
                        [Sample.doc1] in
  let once := snd (SearchController.autoIndexHighlights Sample.env Sample.alice w) in
  let twice := snd (SearchController.autoIndexHighlights Sample.env Sample.alice once) in
  searchIndex twice = searchIndex once
  /\ length (searchIndex once) = 2.
Proof.
  intros w once twice.
  split; [|reflexivity].
  apply (backfill_converges Sample.env Sample.alice w Reference_Reliable).
Defined.

(* ================================================================== *)
(** * Deleting a highlight that exists *)
(* ================================================================== *)

Lemma highlight_removeFirst_others (p : Highlight.doc -> bool) l :
  filter (fun h => negb (p h)) (Highlight.removeFirst p l) = filter (fun h => negb (p h)) l.
Proof.
  induction l as [|h l IH]; simpl; [reflexivity|].
  destruct (p h) eqn:Hp; simpl; [reflexivity|]. now rewrite Hp, IH.
Qed.

Lemma highlight_removeFirst_count (p : Highlight.doc -> bool) l :
  length (filter p (Highlight.removeFirst p l)) = pred (length (filter p l)).
Proof.
  induction l as [|h l IH]; simpl; [reflexivity|].
  destruct (p h) eqn:Hp; simpl; [reflexivity|]. now rewrite Hp.
Qed.

Lemma highlight_removeFirst_keeps (p q : Highlight.doc -> bool) l :
  (forall h, q h = true -> p h = false) ->
  filter q (Highlight.removeFirst p l) = filter q l.
Proof.
  intros H. induction l as [|h l IH]; simpl; [reflexivity|].
  destruct (p h) eqn:Hp; simpl.
  - destruct (q h) eqn:Hq; [|reflexivity]. rewrite (H h Hq) in Hp. discriminate.
  - now rewrite IH.
Qed.

Lemma findOneAndDeleteHighlight_run E f w :
  Db.findOneAndDeleteHighlight E f w =
  if faulty E (length (journal w)) (Highlight_findOneAndDelete f)
  then (Throw StorageError, record (Highlight_findOneAndDelete f) w)
  else (Ok (List.find (Highlight.holds f) (highlights w)),
        withHighlights (record (Highlight_findOneAndDelete f) w)
          (Highlight.removeFirst (Highlight.holds f) (highlights w))).
Proof.
  unfold Db.findOneAndDeleteHighlight, Db.issue, bind.
  destruct (faulty E _ _); reflexivity.
Qed.

Lemma delete_run E user uuid w :
  HighlightController.delete E user uuid w =
  if faulty E (length (journal w)) (Highlight_findOneAndDelete (ownHighlight uuid user))
  then (Next StorageError, record (Highlight_findOneAndDelete (ownHighlight uuid user)) w)
  else
    let w1 := withHighlights (record (Highlight_findOneAndDelete (ownHighlight uuid user)) w)
                (Highlight.removeFirst (Highlight.holds (ownHighlight uuid user))
                                       (highlights w)) in
    match List.find (Highlight.holds (ownHighlight uuid user)) (highlights w) with
    | None => (Next TypeError, w1)
    | Some h =>
        (highlightDeleted, snd (SearchController.removeHighlightIndex E (Highlight.uuid h) user w1))
    end.
Proof.
  unfold HighlightController.delete, handler. fold (ownHighlight uuid user).
  unfold bind at 1. rewrite findOneAndDeleteHighlight_run.
  destruct (faulty E _ _); [reflexivity|]. cbv zeta.
  destruct (List.find _ (highlights w)) as [h|]; [|reflexivity].
  unfold bind at 1. unfold ret at 1. unfold bind.
  rewrite removeHighlightIndex_run. reflexivity.
Qed.

(** Property X15: deleting a highlight that exists.  When
    the user has a highlight with the given uuid and the deletion call
    does not fail, [delete] answers 200 'Highlight deleted successfully';
    one highlight with that uuid of that user is gone and every other
    highlight is kept.  The entry of the highlight is removed from the
    index unless that call fails, in which case the entry stays in the
    index although the reply is still 200; with at most one entry for
    the highlight before and no failing call, none is left. *)
Theorem delete_existing_highlight
  (E : Environment) (user : UserId) (uuid : string) (w : world) (h : Highlight.doc) :
  let lookup := ownHighlight uuid user in
  let removal := SearchIndex_deleteOne (SearchController.byHighlight uuid user) in
  faulty E (length (journal w)) (Highlight_findOneAndDelete lookup) = false ->
  List.find (Highlight.holds lookup) (highlights w) = Some h ->
  let run := HighlightController.delete E user uuid w in
  fst run = highlightDeleted
  /\ statusOf highlightDeleted = Some 200
  /\ S (length (filter (Highlight.holds lookup) (highlights (snd run))))
     = length (filter (Highlight.holds lookup) (highlights w))
  /\ filter (fun h' => negb (Highlight.holds lookup h')) (highlights (snd run))
     = filter (fun h' => negb (Highlight.holds lookup h')) (highlights w)
  /\ journal (snd run) = journal w ++ [Highlight_findOneAndDelete lookup; removal]
  /\ searchIndex (snd run)
     = (if faulty E (S (length (journal w))) removal then searchIndex w
        else SearchIndex.removeFirst (isUnitOf uuid user) (searchIndex w))
  /\ (faulty E (S (length (journal w))) removal = false ->
      unitsOf uuid user (searchIndex w) <= 1 ->
      unitsOf uuid user (searchIndex (snd run)) = 0).
Proof.
  intros lookup removal Hok Hfound run.
  assert (Highlight.uuid h = uuid) as Hu.
  { apply find_some in Hfound as [_ Hh]. unfold Highlight.holds, lookup, ownHighlight in Hh.
    cbn in Hh. apply andb_true_iff in Hh as [Hh _]. apply String.eqb_eq in Hh. auto. }
  assert (run = (highlightDeleted,
                 snd (SearchController.removeHighlightIndex E uuid user
                        (withHighlights (record (Highlight_findOneAndDelete lookup) w)
                           (Highlight.removeFirst (Highlight.holds lookup) (highlights w))))))
    as Hrun.
  { unfold run. rewrite delete_run. fold lookup. rewrite Hok. cbv zeta.
    rewrite Hfound, Hu. reflexivity. }
  rewrite removeHighlightIndex_run in Hrun. cbv zeta in Hrun. cbn [snd] in Hrun.
  fold removal in Hrun.
  assert (length (journal (withHighlights (record (Highlight_findOneAndDelete lookup) w)
                             (Highlight.removeFirst (Highlight.holds lookup) (highlights w))))
          = S (length (journal w))) as Hlen.
  { cbn [journal withHighlights record]. rewrite length_app. simpl. lia. }
  rewrite Hlen in Hrun. rewrite Hrun. cbn [fst snd].
  split; [reflexivity|]. split; [reflexivity|].
  assert (0 < length (filter (Highlight.holds lookup) (highlights w))) as Hpos.
  { apply find_some in Hfound as [Hin Hh].
    assert (In h (filter (Highlight.holds lookup) (highlights w))) as Hf
      by (apply filter_In; auto).
    destruct (filter _ (highlights w)); [contradiction | simpl; lia]. }
  destruct (faulty E (S (length (journal w))) removal) eqn:Hfault;
    cbn [highlights searchIndex journal withHighlights withIndex record].
  - split; [rewrite highlight_removeFirst_count; lia|].
    split; [apply highlight_removeFirst_others|].
    split; [rewrite <- app_assoc; reflexivity|].
    split; [reflexivity | discriminate].
  - split; [rewrite highlight_removeFirst_count; lia|].
    split; [apply highlight_removeFirst_others|].
    split; [rewrite <- app_assoc; reflexivity|].
    split; [reflexivity|].
    intros _ Hone. unfold unitsOf in *. rewrite removeFirst_count. lia.
Qed.

Lemma delete_existing_highlight_witness :
  let w := Sample.state [Sample.entry 1 10 Sample.h1; Sample.entry 2 11 Sample.h2]
                        [Sample.h1; Sample.h2] [Sample.doc1] in
  let run := HighlightController.delete Sample.env Sample.alice "h1" w in
  fst run = highlightDeleted
  /\ highlights (snd run) = [Sample.h2]
  /\ unitsOf "h1" Sample.alice (searchIndex (snd run)) = 0.
Proof.
  intros w run.
  destruct (delete_existing_highlight Sample.env Sample.alice "h1" w Sample.h1
              eq_refl eq_refl) as (Hr & _ & _ & _ & _ & _ & Hgone).
  split; [exact Hr|]. split; [reflexivity|].
  apply Hgone; [reflexivity | vm_compute; lia].
Defined.

(* ================================================================== *)
(** * Writes stay with the owner *)
(* ================================================================== *)

#[export] Instance othersKept_Stable (u : UserId) : Stable (othersKept u).
Proof.
  split.
  - intros w. repeat split.
  - intros a b c (H1 & H2 & H3) (K1 & K2 & K3). repeat split; congruence.
Qed.

Lemma others_sameData u w w' : sameData w w' -> othersKept u w w'.
Proof. intros (Hi & Hh & Hp & _). unfold othersKept. rewrite Hi, Hh, Hp. auto. Qed.

Lemma others_appends u (P : SearchIndex.doc -> Prop) w w' :
  (forall d, P d -> ownedBy u d = true) -> appends P w w' -> othersKept u w w'.
Proof.
  intros HP (Hh & Hp & added & Hi & Hall). unfold othersKept. rewrite Hi, Hh, Hp.
  split; [|auto]. rewrite filter_app.
  assert (filter (fun d => negb (ownedBy u d)) added = []) as ->.
  { clear Hi. induction Hall as [|d l Hd _ IH]; simpl; [reflexivity|].
    rewrite (HP d Hd). exact IH. }
  apply app_nil_r.
Qed.

Lemma entryOf_owned h u d : entryOf h u d -> ownedBy u d = true.
Proof. intros (id & time & ->). unfold ownedBy. cbn. apply Nat.eqb_refl. Qed.

Lemma others_removeHighlightIndex E id u w :
  othersKept u w (snd (SearchController.removeHighlightIndex E id u w)).
Proof.
  rewrite removeHighlightIndex_run. cbv zeta. cbn [snd].
  destruct (faulty E _ _); [apply others_sameData; repeat split|].
  split; [|split; reflexivity]. cbn [searchIndex withIndex].
  apply removeFirst_keeps. intros d _ Hd. unfold isUnitOf.
  apply negb_true_iff in Hd. unfold ownedBy in Hd. rewrite Hd. apply andb_false_r.
Qed.

Lemma others_autoIndexHighlights E u w :
  othersKept u w (snd (SearchController.autoIndexHighlights E u w)).
Proof.
  eapply others_appends; [|apply appends_autoIndexHighlights].
  intros d (h & _ & Hd). eapply entryOf_owned, Hd.
Qed.

Lemma keeps_others_read {A} u (m : M A) : keeps sameData m -> keeps (othersKept u) m.
Proof. intros H w. apply others_sameData, H. Qed.

(** Property X16: writes stay with the owner.  Nothing a user
    asks for changes what belongs to someone else: after [search] (with
    or without its backfill), [indexPdf], [indexHighlight],
    [removeHighlightIndex], [autoIndexHighlights] and the deletion of a
    highlight, run for one user, the index entries and the highlights of
    every other user are the same as before, in the same order, and so
    are the PDFs, whichever storage call fails. *)
Theorem writes_stay_with_the_owner (E : Environment) (user : UserId) (w : world) :
  (forall this req, othersKept user w (snd (SearchController.search E this user req w)))
  /\ (forall uuid, othersKept user w (snd (SearchController.indexPdf E user uuid w)))
  /\ (forall A, othersKept user w (snd (SearchController.indexHighlight E A user w)))
  /\ (forall id, othersKept user w (snd (SearchController.removeHighlightIndex E id user w)))
  /\ othersKept user w (snd (SearchController.autoIndexHighlights E user w))
  /\ (forall uuid, othersKept user w (snd (HighlightController.delete E user uuid w))).
Proof.
  split; [|split; [|split; [|split; [|split]]]].
  - intros this req. unfold SearchController.search.
    apply (keeps_handler (R := othersKept user)). cbv zeta.
    repeat first
      [ apply keeps_ret | apply keeps_throw | apply keeps_liftOutcome
      | apply keeps_viaThis; intros w0; apply others_autoIndexHighlights
      | apply keeps_others_read;
        first [ apply data_countDocuments | apply data_find | apply data_resolveNames ]
      | apply keeps_bind; [|intros ?]
      | match goal with
        | |- keeps _ (match ?x with _ => _ end) => destruct x
        | |- keeps _ (if ?b then _ else _) => destruct b
        end ].
  - intros uuid. eapply others_appends; [|apply appends_indexPdf].
    intros d [Hd _]. unfold isPageOf in Hd. rewrite !andb_true_iff in Hd. apply Hd.
  - intros A. eapply others_appends; [|apply appends_indexHighlight].
    intros d Hd. eapply entryOf_owned, Hd.
  - intros id. apply others_removeHighlightIndex.
  - apply others_autoIndexHighlights.
  - intros uuid. rewrite delete_run.
    destruct (faulty E _ _); [apply others_sameData; repeat split|]. cbv zeta.
    assert (othersKept user w
              (withHighlights (record (Highlight_findOneAndDelete (ownHighlight uuid user)) w)
                 (Highlight.removeFirst (Highlight.holds (ownHighlight uuid user))
                    (highlights w)))) as Hfirst.
    { split; [reflexivity|]. split; [|reflexivity]. cbn [highlights withHighlights].
      apply highlight_removeFirst_keeps. intros h Hh. apply negb_true_iff in Hh.
      unfold Highlight.holds, ownHighlight. cbn. rewrite Hh. apply andb_false_r. }
    destruct (List.find _ (highlights w)) as [h|]; cbn [snd]; [|exact Hfirst].
    eapply stable_trans; [exact Hfirst | apply others_removeHighlightIndex].
Qed.

(* ================================================================== *)
(** * The shape of the entries *)
(* ================================================================== *)

#[export] Instance staysShaped_Stable : Stable staysShaped.
Proof. split; unfold staysShaped; auto. Qed.

Lemma shaped_sameData w w' : sameData w w' -> staysShaped w w'.
Proof. intros (Hi & _) H. now rewrite Hi. Qed.

Lemma shaped_appends (P : SearchIndex.doc -> Prop) w w' :
  (forall d, P d -> entryShape d) -> appends P w w' -> staysShaped w w'.
Proof.
  intros HP (_ & _ & added & Hi & Hall) H. rewrite Hi. apply Forall_app. split; [exact H|].
  eapply Forall_impl; eauto.
Qed.

Lemma entryOf_shaped h u d : entryOf h u d -> entryShape d.
Proof. intros (id & time & ->). unfold entryShape. cbn. split; discriminate. Qed.

Lemma shaped_removeHighlightIndex E id u w :
  staysShaped w (snd (SearchController.removeHighlightIndex E id u w)).
Proof.
  rewrite removeHighlightIndex_run. cbv zeta. cbn [snd].
  destruct (faulty E _ _); [apply shaped_sameData; repeat split|].
  intros H. cbn [searchIndex withIndex]. rewrite Forall_forall in *.
  intros d Hd. apply H. eapply removeFirst_In, Hd.
Qed.

Lemma shaped_autoIndexHighlights E u w :
  staysShaped w (snd (SearchController.autoIndexHighlights E u w)).
Proof.
  eapply shaped_appends; [|apply appends_autoIndexHighlights].
  intros d (h & _ & Hd). eapply entryOf_shaped, Hd.
Qed.

Lemma keeps_shaped_read {A} (m : M A) : keeps sameData m -> keeps staysShaped m.
Proof. intros H w. apply shaped_sameData, H. Qed.

Lemma shaped_delete E user uuid w :
  staysShaped w (snd (HighlightController.delete E user uuid w)).
Proof.
  rewrite delete_run.
  destruct (faulty E _ _); [apply shaped_sameData; repeat split|]. cbv zeta.
  destruct (List.find _ (highlights w)) as [h|]; cbn [snd].
  - eapply stable_trans; [|apply shaped_removeHighlightIndex].
    intros H. exact H.
  - intros H. exact H.
Qed.


(* ================================================================== *)
(** * Creating, reading, updating and bulk-deleting highlights *)
(* ================================================================== *)

Section Crud.

Variable E : Environment.
Variable refuses : world -> CrudCall -> bool.

Lemma createHighlight_run uuid user body w :
  let lookup := PDF_findOne (ownPdf (n_pdfUuid body) user) in
  let highlight := newHighlight uuid user body in
  let w1 := record lookup w in
  HighlightCrud.create E refuses uuid user body w =
  if faulty E (length (journal w)) lookup then (HNext StorageError, w1)
  else match List.find (PDF.holds (ownPdf (n_pdfUuid body) user)) (pdfs w) with
       | None => (HJson 404 [("error", HStr "PDF not found")], w1)
       | Some _ =>
           if refuses w1 (Highlight_save highlight) then (HNext StorageError, w1)
           else (highlightCreated highlight,
                 snd (SearchController.indexHighlight E highlight user
                        (withHighlights w1 (highlights w ++ [highlight]))))
       end.
Proof.
  intros lookup highlight w1.
  unfold HighlightCrud.create, hhandler. fold (ownPdf (n_pdfUuid body) user).
  fold (newHighlight uuid user body). fold highlight.
  unfold bind at 1. rewrite findOnePDF_run. fold lookup w1.
  destruct (faulty E _ _); [reflexivity|].
  destruct (List.find _ (pdfs w)); [|reflexivity].
  cbv zeta. unfold bind at 1. unfold Store.save, Store.attempt, bind at 1.
  destruct (refuses w1 _); [reflexivity|].
  unfold bind at 1. change (highlights w1) with (highlights w).
  match goal with |- context [SearchController.indexHighlight E highlight user ?W] =>
    pose proof (f_equal fst (indexHighlight_run E highlight user W)) as Hok;
    cbv zeta in Hok; cbn [fst] in Hok;
    destruct (SearchController.indexHighlight E highlight user W) as [o w2]
  end.
  cbn [fst] in Hok. subst o. reflexivity.
Qed.

Lemma update_run user uuid body w :
  let data := updateData body in
  HighlightCrud.update refuses user uuid body w =
  if refuses w (Highlight_findOneAndUpdate (ownHighlight uuid user) data)
  then (HNext StorageError, w)
  else (match List.find (Highlight.holds (ownHighlight uuid user)) (highlights w) with
        | Some h => highlightUpdated (applyChanges data h)
        | None => highlightNotFound
        end,
        withHighlights w (updateFirst (Highlight.holds (ownHighlight uuid user))
                                      (applyChanges data) (highlights w))).
Proof.
  intros data. unfold HighlightCrud.update, hhandler. fold (ownHighlight uuid user). fold data.
  unfold bind at 1. unfold Store.findOneAndUpdate, Store.attempt, bind at 1.
  destruct (refuses w _); [reflexivity|].
  destruct (List.find _ (highlights w)); reflexivity.
Qed.

Lemma bulkDelete_run user uuid uuids w :
  HighlightCrud.bulkDelete refuses user (Some (uuid :: uuids)) w =
  if refuses w (Highlight_deleteMany (uuid :: uuids) user) then (HNext StorageError, w)
  else (highlightsDeleted (length (filter (amongOwn (uuid :: uuids) user) (highlights w))),
        withHighlights w
          (filter (fun h => negb (amongOwn (uuid :: uuids) user h)) (highlights w))).
Proof.
  unfold HighlightCrud.bulkDelete, hhandler.
  unfold bind at 1. unfold Store.deleteMany, Store.attempt, bind at 1.
  destruct (refuses w _); reflexivity.
Qed.

Lemma getById_run user uuid w :
  HighlightCrud.getById refuses user uuid w =
  (if refuses w (Highlight_findOne (ownHighlight uuid user)) then HNext StorageError
   else match List.find (Highlight.holds (ownHighlight uuid user)) (highlights w) with
        | Some h => HJson 200 [("highlight", HDoc h)]
        | None => highlightNotFound
        end,
   w).
Proof.
  unfold HighlightCrud.getById, hhandler. fold (ownHighlight uuid user).
  unfold bind at 1. unfold Store.findOne, Store.attempt, bind at 1.
  destruct (refuses w _); [reflexivity|].
  destruct (List.find _ (highlights w)); reflexivity.
Qed.

End Crud.

Lemma holds_ownHighlight uuid user h :
  Highlight.holds (ownHighlight uuid user) h = true
  <-> Highlight.uuid h = uuid /\ Highlight.userId h = user.
Proof.
  unfold Highlight.holds, ownHighlight. cbn.
  rewrite andb_true_iff, String.eqb_eq, Nat.eqb_eq. intuition congruence.
Qed.

Lemma updateFirst_none (p : Highlight.doc -> bool) f l :
  List.find p l = None -> updateFirst p f l = l.
Proof.
  induction l as [|h l IH]; simpl; [reflexivity|].
  destruct (p h); [discriminate|]. intros H. now rewrite IH.
Qed.

Lemma updateFirst_length (p : Highlight.doc -> bool) f l :
  length (updateFirst p f l) = length l.
Proof.
  induction l as [|h l IH]; simpl; [reflexivity|].
  destruct (p h); simpl; [reflexivity | now rewrite IH].
Qed.

Lemma updateFirst_others (p q : Highlight.doc -> bool) f l :
  (forall h, q h = true -> p h = false) ->
  (forall h, q (f h) = q h) ->
  filter q (updateFirst p f l) = filter q l.
Proof.
  intros Hpq Hf. induction l as [|h l IH]; simpl; [reflexivity|].
  destruct (p h) eqn:Hp; simpl.
  - rewrite Hf. destruct (q h) eqn:Hq; [|reflexivity].
    rewrite (Hpq h Hq) in Hp. discriminate.
  - now rewrite IH.
Qed.

(** Property X17: creating a highlight.  [create] first looks for
    the PDF among the user's own: without one it answers 404 'PDF not
    found' and stores nothing.  With one, if the store refuses the new
    highlight the error goes to [next] and nothing is stored or indexed;
    otherwise the highlight (with the generated uuid, the user as owner
    and the default colour '#ffff00' if none is given) is appended to
    the highlights and the reply is 201 with it, whether or not the
    indexing that follows succeeds: the index only gains entries made of
    this highlight, and exactly one, stamped by the store, when no call
    fails and the uuid had no entry. *)
Theorem create_stores_then_indexes
  (E : Environment) (refuses : world -> CrudCall -> bool)
  (uuid : string) (user : UserId) (body : NewHighlight) (w : world) :
  let lookup := PDF_findOne (ownPdf (n_pdfUuid body) user) in
  let highlight := newHighlight uuid user body in
  let run := HighlightCrud.create E refuses uuid user body w in
  faulty E (length (journal w)) lookup = false ->
  match List.find (PDF.holds (ownPdf (n_pdfUuid body) user)) (pdfs w) with
  | None =>
      fst run = HJson 404 [("error", HStr "PDF not found")] /\ sameData w (snd run)
  | Some _ =>
      if refuses (record lookup w) (Highlight_save highlight)
      then fst run = HNext StorageError /\ sameData w (snd run)
      else fst run = highlightCreated highlight
           /\ highlights (snd run) = highlights w ++ [highlight]
           /\ pdfs (snd run) = pdfs w
           /\ (exists added, searchIndex (snd run) = searchIndex w ++ added
                             /\ Forall (entryOf highlight user) added)
           /\ (Reliable E -> unitsOf uuid user (searchIndex w) = 0 ->
               searchIndex (snd run)
               = searchIndex w ++ [SearchIndex.stamp (nextId w) (now w)
                                     (SearchController.annotationEntry highlight user)])
  end.
Proof.
  intros lookup highlight run Hok. unfold run. rewrite createHighlight_run. cbv zeta.
  fold lookup highlight. rewrite Hok.
  destruct (List.find _ (pdfs w)) as [pdf|]; [|split; [reflexivity | repeat split]].
  destruct (refuses _ _); [split; [reflexivity | repeat split]|].
  cbn [fst snd].
  set (w1 := withHighlights (record lookup w) (highlights w ++ [highlight])).
  pose proof (appends_indexHighlight E highlight user w1) as (Hh & Hp & added & Hi & Hall).
  split; [reflexivity|]. split; [exact Hh|]. split; [exact Hp|].
  split; [exists added; split; assumption|].
  intros HR Hnew. rewrite indexHighlight_run. cbv zeta. cbn [snd]. rewrite !HR.
  change (searchIndex w1) with (searchIndex w).
  apply find_none_count in Hnew. change (Highlight.uuid highlight) with uuid. rewrite Hnew.
  reflexivity.
Qed.

Lemma create_stores_then_indexes_witness :
  let w := Sample.state [] [] [Sample.doc1] in
  let body := {| n_pdfUuid := "pdf-1"; n_pageNumber := 2;
                 n_highlightedText := "formal methods";
                 n_position := Sample.place; n_boundingBox := Sample.box;
                 n_color := None |} in
  let run := HighlightCrud.create Sample.env (fun _ _ => false) "h9" Sample.alice body w in
  fst run = highlightCreated (newHighlight "h9" Sample.alice body)
  /\ map Highlight.color (highlights (snd run)) = ["#ffff00"]
  /\ map SearchIndex.content (searchIndex (snd run)) = ["formal methods"].
Proof.
  intros w body run.
  pose proof (create_stores_then_indexes Sample.env (fun _ _ => false) "h9" Sample.alice
                body w eq_refl) as H.
  cbv zeta in H. cbn in H. destruct H as (Hr & Hh & _ & _ & Hidx).
  split; [exact Hr|]. split; [unfold run; rewrite Hh; reflexivity|].
  unfold run. rewrite (Hidx Reference_Reliable eq_refl). reflexivity.
Defined.

(** Property X18: updating a highlight.  [update] changes at most
    the first highlight of the user with the given uuid, and of it only
    colour, text, position and bounding box; an empty colour or text in
    the request is ignored.  Without such a highlight the reply is 404
    and nothing changes.  The search index is never touched: the entry
    of a highlight keeps the text it was indexed with. *)
Theorem update_changes_the_highlight_only
  (refuses : world -> CrudCall -> bool)
  (user : UserId) (uuid : string) (body : Changes) (w : world) :
  let data := updateData body in
  let own := Highlight.holds (ownHighlight uuid user) in
  let run := HighlightCrud.update refuses user uuid body w in
  searchIndex (snd run) = searchIndex w
  /\ pdfs (snd run) = pdfs w
  /\ journal (snd run) = journal w
  /\ length (highlights (snd run)) = length (highlights w)
  /\ filter (fun h => negb (own h)) (highlights (snd run))
     = filter (fun h => negb (own h)) (highlights w)
  /\ (c_color body = Some "" -> c_color data = None)
  /\ (c_highlightedText body = Some "" -> c_highlightedText data = None)
  /\ (if refuses w (Highlight_findOneAndUpdate (ownHighlight uuid user) data)
      then run = (HNext StorageError, w)
      else match List.find own (highlights w) with
           | None => fst run = highlightNotFound /\ highlights (snd run) = highlights w
           | Some h =>
               let h' := applyChanges data h in
               fst run = highlightUpdated h'
               /\ In h' (highlights (snd run))
               /\ Highlight.uuid h' = uuid /\ Highlight.userId h' = user
               /\ Highlight.pdfUuid h' = Highlight.pdfUuid h
               /\ Highlight.pageNumber h' = Highlight.pageNumber h
           end).
Proof.
  intros data own run. unfold run. rewrite update_run. fold data. fold own.
  assert (forall h, own (applyChanges data h) = own h) as Hsame by reflexivity.
  split; [destruct (refuses w _); reflexivity|].
  split; [destruct (refuses w _); reflexivity|].
  split; [destruct (refuses w _); reflexivity|].
  split; [destruct (refuses w _); cbn [snd highlights withHighlights];
          [reflexivity | apply updateFirst_length]|].
  split.
  { destruct (refuses w _); cbn [snd highlights withHighlights]; [reflexivity|].
    apply updateFirst_others.
    - intros h Hh. apply negb_true_iff in Hh. exact Hh.
    - intros h. now rewrite Hsame. }
  split; [unfold data, updateData; cbn; intros ->; reflexivity|].
  split; [unfold data, updateData; cbn; intros ->; reflexivity|].
  destruct (refuses w _); [reflexivity|].
  destruct (List.find own (highlights w)) as [h|] eqn:Hfind; cbn [fst snd highlights withHighlights].
  - split; [reflexivity|]. split.
    + clear -Hfind. induction (highlights w) as [|x l IH]; simpl in *; [discriminate|].
      destruct (own x); [inversion Hfind; subst; left; reflexivity|].
      right. apply IH, Hfind.
    + apply find_some in Hfind as [_ Hh]. apply holds_ownHighlight in Hh as [Hu Ho].
      repeat split; assumption.
  - split; [reflexivity | apply updateFirst_none, Hfind].
Qed.

(** Property X19: deleting highlights in bulk.  Without an
    array of uuids, or with an empty one, [bulkDelete] answers 400 and
    changes nothing.  Otherwise, unless the store refuses the call, it
    removes exactly the highlights of the user whose uuid is listed (a
    listed highlight of someone else stays), and reports how many it
    removed; it issues no call on the search index, which keeps the
    entries of the removed highlights. *)
Theorem bulkDelete_removes_own_listed
  (refuses : world -> CrudCall -> bool)
  (user : UserId) (highlightUuids : option (list string)) (w : world) :
  let run := HighlightCrud.bulkDelete refuses user highlightUuids w in
  searchIndex (snd run) = searchIndex w
  /\ journal (snd run) = journal w
  /\ match highlightUuids with
     | None | Some [] =>
         run = (HJson 400 [("error", HStr "Highlight UUIDs array is required")], w)
     | Some uuids =>
         if refuses w (Highlight_deleteMany uuids user)
         then run = (HNext StorageError, w)
         else (forall h, In h (highlights (snd run))
                         <-> In h (highlights w)
                             /\ ~ (In (Highlight.uuid h) uuids /\ Highlight.userId h = user))
              /\ exists deletedCount,
                   fst run = highlightsDeleted deletedCount
                   /\ deletedCount + length (highlights (snd run)) = length (highlights w)
     end.
Proof.
  intros run. unfold run.
  destruct highlightUuids as [[|uuid uuids]|]; [repeat split | | repeat split].
  rewrite bulkDelete_run.
  destruct (refuses w _); [repeat split|]. cbn [fst snd searchIndex journal highlights withHighlights].
  split; [reflexivity|]. split; [reflexivity|]. split.
  - intros h. rewrite filter_In, negb_true_iff. unfold amongOwn.
    split.
    + intros [Hin Hno]. split; [exact Hin|]. intros [Hl Hu].
      assert (existsb (String.eqb (Highlight.uuid h)) (uuid :: uuids) = true) as Hex.
      { apply existsb_exists. exists (Highlight.uuid h). split; [exact Hl | apply String.eqb_refl]. }
      rewrite Hex, <- Hu, Nat.eqb_refl in Hno. discriminate.
    + intros [Hin Hno]. split; [exact Hin|].
      destruct (existsb _ _) eqn:Hex; [|reflexivity].
      destruct (Nat.eqb_spec user (Highlight.userId h)) as [Hu|]; [|reflexivity].
      exfalso. apply Hno. split; [apply existsb_eqb_In, Hex | auto].
  - eexists. split; [reflexivity|].
    induction (highlights w) as [|h l IH]; simpl; [reflexivity|].
    destruct (amongOwn _ _ h); simpl; lia.
Qed.

(** Property X20: reading one highlight.  [getById] changes
    nothing; a highlight it returns is a highlight of the requesting
    user with the requested uuid, and when the user has none with that
    uuid (it does not exist, or belongs to someone else) the reply is
    404 'Highlight not found'. *)
Theorem getById_is_scoped
  (refuses : world -> CrudCall -> bool) (user : UserId) (uuid : string) (w : world) :
  let run := HighlightCrud.getById refuses user uuid w in
  snd run = w
  /\ (forall h, fst run = HJson 200 [("highlight", HDoc h)] ->
        In h (highlights w) /\ Highlight.uuid h = uuid /\ Highlight.userId h = user)
  /\ (refuses w (Highlight_findOne (ownHighlight uuid user)) = false ->
      (forall h, In h (highlights w) -> Highlight.uuid h = uuid -> Highlight.userId h <> user) ->
      fst run = highlightNotFound)
  /\ (refuses w (Highlight_findOne (ownHighlight uuid user)) = false ->
      forall h, In h (highlights w) -> Highlight.uuid h = uuid -> Highlight.userId h = user ->
      exists h', fst run = HJson 200 [("highlight", HDoc h')]).
Proof.
  intros run. unfold run. rewrite getById_run. cbn [fst snd].
  split; [reflexivity|]. split; [|split].
  - intros h. destruct (refuses w _); [discriminate|].
    destruct (List.find _ (highlights w)) as [h0|] eqn:Hf; [|discriminate].
    intros Heq. inversion Heq; subst h0.
    apply find_some in Hf as [Hin Hh]. apply holds_ownHighlight in Hh. tauto.
  - intros -> Hnone.
    destruct (List.find _ (highlights w)) as [h0|] eqn:Hf; [|reflexivity].
    apply find_some in Hf as [Hin Hh]. apply holds_ownHighlight in Hh as [Hu Ho].
    exfalso. exact (Hnone h0 Hin Hu Ho).
  - intros -> h Hin Hu Ho.
    destruct (List.find _ (highlights w)) as [h0|] eqn:Hf; [eauto|].
    pose proof (find_none _ _ Hf h Hin) as Hn.
    assert (Highlight.holds (ownHighlight uuid user) h = true)
      by (apply holds_ownHighlight; auto).
    congruence.
Qed.

(* ================================================================== *)
(** * What a search reads *)
(* ================================================================== *)

Lemma sameForSearch_record c w1 w2 :
  sameForSearch w1 w2 -> sameForSearch (record c w1) (record c w2).
Proof. intros (Hi & Hp & Hj). repeat split; cbn; congruence. Qed.

Lemma reads_ret {A} (a : A) : readsIndexOnly (ret a).
Proof. intros w1 w2 H. split; [reflexivity | exact H]. Qed.

Lemma reads_throw {A} (e : exn) : readsIndexOnly (@throw A e).
Proof. intros w1 w2 H. split; [reflexivity | exact H]. Qed.

Lemma reads_liftOutcome {A} (o : outcome A) : readsIndexOnly (liftOutcome o).
Proof. intros w1 w2 H. split; [reflexivity | exact H]. Qed.

Lemma reads_bind {A B} (m : M A) (k : A -> M B) :
  readsIndexOnly m -> (forall a, readsIndexOnly (k a)) -> readsIndexOnly (bind m k).
Proof.
  intros Hm Hk w1 w2 H. unfold bind. destruct (Hm w1 w2 H) as [Ho Hs].
  destruct (m w1) as [o1 w1'], (m w2) as [o2 w2']. cbn [fst snd] in Ho, Hs. subst o2.
  destruct o1 as [a|e]; [apply Hk, Hs | split; [reflexivity | exact Hs]].
Qed.

Lemma reads_tryCatch {A} (m : M A) (h : exn -> M A) :
  readsIndexOnly m -> (forall e, readsIndexOnly (h e)) -> readsIndexOnly (tryCatch m h).
Proof.
  intros Hm Hh w1 w2 H. unfold tryCatch. destruct (Hm w1 w2 H) as [Ho Hs].
  destruct (m w1) as [o1 w1'], (m w2) as [o2 w2']. cbn [fst snd] in Ho, Hs. subst o2.
  destruct o1 as [a|e]; [split; [reflexivity | exact Hs] | apply Hh, Hs].
Qed.

Lemma reads_promiseAll {A B} (m1 : M A) (m2 : M B) :
  readsIndexOnly m1 -> readsIndexOnly m2 -> readsIndexOnly (promiseAll m1 m2).
Proof.
  intros H1 H2 w1 w2 H. unfold promiseAll. destruct (H1 w1 w2 H) as [Ho Hs].
  destruct (m1 w1) as [o1 w1'], (m1 w2) as [o1' w2']. cbn [fst snd] in Ho, Hs. subst o1'.
  destruct (H2 w1' w2' Hs) as [Ho2 Hs2].
  destruct (m2 w1') as [o2 w1''], (m2 w2') as [o2' w2'']. cbn [fst snd] in Ho2, Hs2. subst o2'.
  split; [reflexivity | exact Hs2].
Qed.

Lemma reads_handler (body : M reply) (onError : exn -> reply) w1 w2 :
  readsIndexOnly body -> sameForSearch w1 w2 ->
  fst (handler body onError w1) = fst (handler body onError w2).
Proof.
  intros Hb H. unfold handler. destruct (Hb w1 w2 H) as [Ho _].
  destruct (body w1) as [o1 w1'], (body w2) as [o2 w2']. cbn [fst] in Ho. subst o2.
  destruct o1; reflexivity.
Qed.

Section Reads.

Variable E : Environment.

Lemma reads_countDocuments f : readsIndexOnly (Db.countDocuments E f).
Proof.
  intros w1 w2 H. rewrite !countDocuments_run. destruct H as (Hi & Hp & Hj).
  rewrite Hi, Hj. split; [reflexivity | apply sameForSearch_record; repeat split; assumption].
Qed.

Lemma reads_find f c : readsIndexOnly (Db.find E f c).
Proof.
  intros w1 w2 H. rewrite !find_run. destruct H as (Hi & Hp & Hj).
  rewrite Hi, Hj. split; [reflexivity | apply sameForSearch_record; repeat split; assumption].
Qed.

Lemma reads_findPDFs f : readsIndexOnly (Db.findPDFs E f).
Proof.
  intros w1 w2 H. rewrite !findPDFs_run. destruct H as (Hi & Hp & Hj).
  rewrite Hp, Hj. split; [reflexivity | apply sameForSearch_record; repeat split; assumption].
Qed.

Lemma reads_resolveNames user uuids :
  readsIndexOnly (SearchController.resolveNames E user uuids).
Proof.
  unfold SearchController.resolveNames. destruct (0 <? _); [|apply reads_ret].
  apply reads_tryCatch; [|intros ?; apply reads_ret].
  apply reads_bind; [apply reads_findPDFs | intros ?; apply reads_ret].
Qed.

End Reads.

Ltac reads_index :=
  repeat first
    [ apply reads_ret | apply reads_throw | apply reads_liftOutcome
    | apply reads_promiseAll | apply reads_resolveNames
    | apply reads_countDocuments | apply reads_find
    | apply reads_bind; [|intros ?]
    | match goal with
      | |- readsIndexOnly (match ?x with _ => _ end) => destruct x
      | |- readsIndexOnly (if ?b then _ else _) => destruct b
      end ].

(** Property X21: edits of highlights do not reach the index.
    [update] and [bulkDelete] leave the search index, the PDFs and the
    journal of storage calls as they are, and the replies of the search
    route, of the advanced search and of the suggestions depend on
    nothing else: after a highlight has been updated or deleted in bulk,
    every search is answered exactly as before, from entries that still
    carry the old text.  Nor does a later [indexHighlight] refresh an
    entry: for a highlight that has one it leaves the index as it is. *)
Theorem highlight_edits_do_not_reach_the_index
  (E : Environment) (refuses : world -> CrudCall -> bool) (user : UserId) (w : world) :
  (forall uuid body, sameForSearch (snd (HighlightCrud.update refuses user uuid body w)) w)
  /\ (forall uuids, sameForSearch (snd (HighlightCrud.bulkDelete refuses user uuids w)) w)
  /\ (forall w', sameForSearch w' w ->
        forall (reader : UserId) simple advanced partial,
          fst (Router.get_search E reader simple w') = fst (Router.get_search E reader simple w)
          /\ fst (SearchController.advancedSearch E reader advanced w')
             = fst (SearchController.advancedSearch E reader advanced w)
          /\ fst (Router.get_suggestions E reader partial w')
             = fst (Router.get_suggestions E reader partial w))
  /\ (forall A, 1 <= unitsOf (Highlight.uuid A) user (searchIndex w) ->
        searchIndex (snd (SearchController.indexHighlight E A user w)) = searchIndex w).
Proof.
  split; [|split; [|split]]; cycle 3.
  { intros A Hone. rewrite indexHighlight_run. cbv zeta. cbn [snd].
    destruct (faulty E _ _); [reflexivity|].
    destruct (List.find _ (searchIndex w)) eqn:Hf; [reflexivity|].
    apply find_none_count in Hf. unfold unitsOf in Hone. lia. }
  - intros uuid body. rewrite update_run. cbv zeta.
    destruct (refuses w _); repeat split.
  - intros [[|uuid uuids]|]; [repeat split | | repeat split].
    rewrite bulkDelete_run. destruct (refuses w _); repeat split.
  - intros w' Hsame reader simple advanced partial. split; [|split].
    + unfold Router.get_search, SearchController.search. cbn [viaThis].
      apply reads_handler; [|exact Hsame]. reads_index.
    + unfold SearchController.advancedSearch.
      apply reads_handler; [|exact Hsame]. cbv zeta. reads_index.
    + unfold Router.get_suggestions, SearchController.getSuggestions.
      apply reads_handler; [|exact Hsame]. reads_index.
Qed.



(* ================================================================== *)
(** * Queries the regular-expression engine rejects *)
(* ================================================================== *)

Lemma tooShort_length q : tooShort (Some q) = false -> (String.length q <? 2) = false.
Proof.
  unfold tooShort, JS.trim. intros H. apply Nat.ltb_ge in H. apply Nat.ltb_ge.
  assert (forall s, String.length (JS.trimEnd s) <= String.length s) as Hend.
  { induction s as [|c s IH]; simpl; [lia|].
    destruct (JS.trimEnd s); [destruct (JS.isSpace c); simpl in *; lia | simpl in *; lia]. }
  assert (forall s, String.length (JS.trimStart s) <= String.length s) as Hstart.
  { induction s as [|c s IH]; simpl; [lia|]. destruct (JS.isSpace c); simpl; lia. }
  specialize (Hend (JS.trimStart q)). specialize (Hstart q). lia.
Qed.

(** Property X23: a query is a regular expression.  The
    query goes to the store as a [$regex] as it is; when the store
    rejects it as a pattern, the advanced search answers 500, the search
    route answers 500 for a user whose index is not empty, and the
    suggestions answer with the empty list. *)
Theorem rejected_pattern_fails_the_search
  (E : Environment) (user : UserId) (query : string) (w : world) :
  tooShort (Some query) = false ->
  mongoRegex E query = None ->
  (forall req, Req.a_query req = Some query ->
     fst (SearchController.advancedSearch E user req w) = advancedFailed StorageError)
  /\ (forall req, Req.s_query req = Some query ->
        filter (ownedBy user) (searchIndex w) <> [] ->
        fst (Router.get_search E user req w) = searchFailed StorageError)
  /\ fst (Router.get_suggestions E user (Some query) w)
     = Json 200 [("suggestions", VSuggestions [])].
Proof.
  intros Hlong Hre. split; [|split].
  - intros req Hq. unfold SearchController.advancedSearch, handler. cbv zeta. rewrite Hq.
    rewrite tooShort_guard, Hlong.
    unfold bind at 1. unfold promiseAll.
    rewrite find_run. cbv beta iota. rewrite countDocuments_run.
    rewrite (compile_regex _ _ query) by reflexivity. rewrite Hre.
    repeat match goal with
           | |- context [faulty ?E ?n ?c] => destruct (faulty E n c)
           end; reflexivity.
  - intros req Hq Hne. unfold Router.get_search, SearchController.search, handler.
    cbv zeta. rewrite Hq. rewrite tooShort_guard, Hlong.
    unfold bind at 1. rewrite countDocuments_run.
    destruct (faulty E _ _); [reflexivity|].
    rewrite compile_plain by reflexivity. cbv iota.
    rewrite (filter_ext _ (ownedBy user)) by (intros d; apply holds_byOwner).
    destruct (filter (ownedBy user) (searchIndex w)); [contradiction|].
    cbn [length Nat.eqb]. unfold bind at 1. rewrite find_run.
    rewrite (compile_regex _ _ query) by reflexivity. rewrite Hre.
    destruct (faulty E _ _); reflexivity.
  - unfold Router.get_suggestions.
    rewrite getSuggestions_run by (apply tooShort_length, Hlong).
    rewrite Hre. destruct (faulty E _ _); reflexivity.
Qed.

Lemma rejected_pattern_fails_the_search_witness :
  let w := Sample.state [Sample.entry 1 10 Sample.h1] [Sample.h1] [Sample.doc1] in
  statusOf (fst (Router.get_search Sample.env Sample.alice (Sample.simple "(machine") w))
  = Some 500
  /\ statusOf (fst (SearchController.advancedSearch Sample.env Sample.alice
                      (Sample.advanced "(machine" None) w)) = Some 500
  /\ suggestionsOf (fst (Router.get_suggestions Sample.env Sample.alice (Some "(machine") w))
     = [].
Proof.
  intros w.
  destruct (rejected_pattern_fails_the_search Sample.env Sample.alice "(machine" w
              eq_refl eq_refl) as (Ha & Hs & Hg).
  rewrite (Ha (Sample.advanced "(machine" None) eq_refl),
          (Hs (Sample.simple "(machine") eq_refl), Hg; [repeat split | discriminate].
Defined.

(* ================================================================== *)
(** * The client of the search route *)
(* ================================================================== *)

Lemma trimEnd_cons (c : ascii) (s : string) :
  JS.trimEnd (String c s)
  = match JS.trimEnd s with
    | EmptyString => if JS.isSpace c then EmptyString else String c EmptyString
    | r => String c r
    end.
Proof. reflexivity. Qed.

Lemma trimEnd_idempotent (s : string) : JS.trimEnd (JS.trimEnd s) = JS.trimEnd s.
Proof.
  induction s as [|c s IH]; [reflexivity|].
  rewrite trimEnd_cons. destruct (JS.trimEnd s) as [|b r] eqn:Hr.
  - destruct (JS.isSpace c) eqn:Hc; [reflexivity|]. rewrite trimEnd_cons. cbn. now rewrite Hc.
  - rewrite trimEnd_cons, IH. reflexivity.
Qed.

Lemma trimStart_fixed (s : string) :
  match s with
  | EmptyString => True
  | String c _ => JS.isSpace c = false
  end -> JS.trimStart s = s.
Proof. destruct s as [|c s]; simpl; [reflexivity|]. now intros ->. Qed.

Lemma trimStart_head (s : string) :
  match JS.trimStart s with
  | EmptyString => True
  | String c _ => JS.isSpace c = false
  end.
Proof.
  induction s as [|c s IH]; simpl; [exact I|].
  destruct (JS.isSpace c) eqn:Hc; [exact IH | exact Hc].
Qed.

Lemma trimEnd_head (s : string) :
  match s with
  | EmptyString => True
  | String c _ => JS.isSpace c = false
  end ->
  match JS.trimEnd s with
  | EmptyString => True
  | String c _ => JS.isSpace c = false
  end.
Proof.
  destruct s as [|c s]; [auto|]. intros Hc. rewrite trimEnd_cons.
  destruct (JS.trimEnd s); [rewrite Hc|]; exact Hc.
Qed.

Lemma trim_idempotent (s : string) : JS.trim (JS.trim s) = JS.trim s.
Proof.
  unfold JS.trim.
  rewrite (trimStart_fixed (JS.trimEnd (JS.trimStart s)))
    by apply trimEnd_head, trimStart_head.
  apply trimEnd_idempotent.
Qed.

Lemma tooShort_trim (q : string) : tooShort (Some (JS.trim q)) = tooShort (Some q).
Proof. unfold tooShort. now rewrite trim_idempotent. Qed.

Lemma remember_NoDup (q : string) (prev : list string) :
  NoDup prev -> NoDup (SearchContext.remember q prev).
Proof.
  intros H. unfold SearchContext.remember. apply NoDup_firstn. constructor.
  - intros Hin. apply filter_In in Hin as [_ Hq]. rewrite String.eqb_refl in Hq. discriminate.
  - apply NoDup_filter, H.
Qed.



(* ================================================================== *)
(** * Deleting a PDF *)
(* ================================================================== *)

Lemma samePdf_refl pdf : samePdf pdf pdf = true.
Proof. unfold samePdf. now rewrite !String.eqb_refl, Nat.eqb_refl. Qed.

Lemma removeFirstPdf_count (p q : PDF.doc -> bool) (l : list PDF.doc) :
  (forall d, p d = true -> q d = true) ->
  (exists d, In d l /\ p d = true) ->
  S (length (filter q (removeFirstPdf p l))) = length (filter q l).
Proof.
  intros Hpq. induction l as [|d l IH]; intros (x & Hin & Hx); [contradiction|].
  simpl. destruct (p d) eqn:Hp.
  - rewrite (Hpq d Hp). reflexivity.
  - destruct Hin as [->|Hin]; [congruence|].
    simpl. destruct (q d); simpl; rewrite <- IH; eauto.
Qed.

Lemma pdfDelete_run E refuses user uuid w :
  let lookup := PDF_findOne (ownPdf uuid user) in
  let w1 := record lookup w in
  PDFController.delete E refuses user uuid w =
  if faulty E (length (journal w)) lookup then (HNext StorageError, w1)
  else match List.find (PDF.holds (ownPdf uuid user)) (pdfs w) with
       | None => (HJson 404 [("error", HStr "PDF not found")], w1)
       | Some pdf =>
           if refuses w1 (Highlight_deleteManyOfPdf (PDF.uuid pdf) user)
           then (HNext StorageError, w1)
           else
             let w2 := withHighlights w1
                         (filter (fun h => negb (onOwnPdf (PDF.uuid pdf) user h))
                                 (highlights w)) in
             if refuses w2 (PDF_deleteOne pdf) then (HNext StorageError, w2)
             else (pdfDeleted,
                   {| searchIndex := searchIndex w; highlights := highlights w2;
                      pdfs := removeFirstPdf (samePdf pdf) (pdfs w);
                      nextId := nextId w; now := now w; journal := journal w1 |})
       end.
Proof.
  intros lookup w1. unfold PDFController.delete, hhandler. fold (ownPdf uuid user).
  unfold bind at 1. rewrite findOnePDF_run. fold lookup w1.
  destruct (faulty E _ _); [reflexivity|].
  destruct (List.find _ (pdfs w)) as [pdf|]; [|reflexivity].
  unfold bind at 1. unfold Store.deleteManyOfPdf, Store.attempt, bind at 1.
  destruct (refuses w1 _); [reflexivity|]. cbv zeta.
  unfold bind at 1. unfold Store.deletePdf, Store.attempt, bind at 1.
  change (highlights w1) with (highlights w).
  destruct (refuses _ (PDF_deleteOne pdf)); reflexivity.
Qed.

(** Property X26: deleting a PDF leaves its search entries.
    The deletion of a PDF never touches the search index.  When it goes
    through (the user has the PDF and no call fails) the reply is 200,
    the PDF is gone and so are the user's highlights on it, but every
    index entry of the document is still there; if the PDF was the only
    one with its uuid, a search that returns such an entry afterwards
    shows it under the name 'Unknown PDF'. *)
Theorem deleting_a_pdf_leaves_its_entries
  (E : Environment) (refuses : world -> CrudCall -> bool)
  (user : UserId) (uuid : string) (w : world) (pdf : PDF.doc) :
  faulty E (length (journal w)) (PDF_findOne (ownPdf uuid user)) = false ->
  (forall w' c, refuses w' c = false) ->
  List.find (PDF.holds (ownPdf uuid user)) (pdfs w) = Some pdf ->
  let run := PDFController.delete E refuses user uuid w in
  fst run = pdfDeleted
  /\ searchIndex (snd run) = searchIndex w
  /\ highlights (snd run)
     = filter (fun h => negb (onOwnPdf uuid user h)) (highlights w)
  /\ S (length (filter (hasUuid uuid) (pdfs (snd run))))
     = length (filter (hasUuid uuid) (pdfs w))
  /\ (length (filter (hasUuid uuid) (pdfs w)) = 1 ->
      forall this reader req r,
        In r (resultsOf (fst (SearchController.search E this reader req (snd run)))) ->
        r_pdfUuid r = uuid -> r_pdfName r = "Unknown PDF").
Proof.
  intros Hok Hacc Hfound run.
  pose proof (proj2 (find_owned_pdf user uuid (pdfs w)) pdf Hfound) as (Hin & Hu & Ho).
  assert (run = (pdfDeleted,
                 {| searchIndex := searchIndex w;
                    highlights := filter (fun h => negb (onOwnPdf uuid user h)) (highlights w);
                    pdfs := removeFirstPdf (samePdf pdf) (pdfs w);
                    nextId := nextId w; now := now w;
                    journal := journal w ++ [PDF_findOne (ownPdf uuid user)] |})) as Hrun.
  { unfold run. rewrite pdfDelete_run. cbv zeta. rewrite Hok, Hfound, !Hacc, Hu. reflexivity. }
  assert (S (length (filter (hasUuid uuid) (removeFirstPdf (samePdf pdf) (pdfs w))))
          = length (filter (hasUuid uuid) (pdfs w))) as Hcount.
  { apply removeFirstPdf_count.
    - intros d Hd. unfold samePdf in Hd. rewrite !andb_true_iff in Hd.
      destruct Hd as [[Hd _] _]. apply String.eqb_eq in Hd. unfold hasUuid.
      rewrite <- Hd, Hu. apply String.eqb_refl.
    - exists pdf. split; [exact Hin | apply samePdf_refl]. }
  rewrite Hrun. cbn [fst snd searchIndex highlights pdfs].
  split; [reflexivity|]. split; [reflexivity|]. split; [reflexivity|].
  split; [exact Hcount|].
  intros Hone this reader req r Hr Hru.
  destruct (search_result_source _ _ _ _ _ _ Hr)
    as (q & re & names & d & _ & _ & Hk & _ & _ & Hf).
  unfold SearchController.formatResult in Hf.
  destruct (SearchController.highlightSearchTerms E _ q) as [out|e]; [|discriminate].
  inversion Hf; subst r; clear Hf. cbn [r_pdfName r_pdfUuid] in *.
  destruct (pdfNameOf_known reader _ names (SearchIndex.pdfUuid d) Hk)
    as [Hname|(pdf' & Hin' & _ & Hu' & _)]; [exact Hname|].
  exfalso. cbn [pdfs] in Hin'.
  assert (In pdf' (filter (hasUuid uuid) (removeFirstPdf (samePdf pdf) (pdfs w)))) as Hleft.
  { apply filter_In. split; [exact Hin'|]. unfold hasUuid. rewrite Hu', Hru.
    apply String.eqb_refl. }
  rewrite Hone in Hcount. inversion Hcount as [Hzero].
  apply length_zero_iff_nil in Hzero. rewrite Hzero in Hleft. contradiction.
Qed.

Lemma deleting_a_pdf_leaves_its_entries_witness :
  let w := Sample.state [Sample.entry 1 10 Sample.h1;
                         Sample.pageText 2 11 "pdf-1" Sample.alice 1 "machine translation"]
                        [Sample.h1; Sample.h3] [Sample.doc1] in
  let run := PDFController.delete Sample.env (fun _ _ => false) Sample.alice "pdf-1" w in
  fst run = pdfDeleted
  /\ pdfs (snd run) = []
  /\ highlights (snd run) = [Sample.h3]
  /\ map r_pdfName (resultsOf (fst (Router.get_search Sample.env Sample.alice
                                      (Sample.simple "machine") (snd run))))
     = ["Unknown PDF"; "Unknown PDF"].
Proof.
  intros w run.
  destruct (deleting_a_pdf_leaves_its_entries Sample.env (fun _ _ => false) Sample.alice
              "pdf-1" w Sample.doc1 eq_refl (fun _ _ => eq_refl) eq_refl)
    as (Hr & _ & _ & _ & _).
  split; [exact Hr|]. repeat split.
Defined.

(* ================================================================== *)
(** * The invariants of the index, over all requests *)
(* ================================================================== *)

Ltac shaped :=
  repeat first
    [ apply keeps_ret | apply keeps_throw | apply keeps_liftOutcome
    | apply keeps_viaThis; intros ?; apply shaped_autoIndexHighlights
    | apply keeps_shaped_read;
      first [ apply data_countDocuments | apply data_find | apply data_resolveNames ]
    | apply keeps_promiseAll
    | apply keeps_bind; [|intros ?]
    | match goal with
      | |- keeps _ (match ?x with _ => _ end) => destruct x
      | |- keeps _ (if ?b then _ else _) => destruct b
      end ].

Ltac well_formed :=
  repeat first
    [ apply keeps_ret | apply keeps_throw | apply keeps_liftOutcome
    | apply keeps_viaThis | apply keeps_promiseAll
    | apply wf_countDocuments | apply wf_find | apply wf_findOne
    | apply wf_findHighlights | apply wf_findPDFs | apply wf_findOnePDF
    | apply wf_findOneAndDeleteHighlight
    | apply wf_autoIndexHighlights | apply wf_removeHighlightIndex
    | apply wf_insertMany, indexEntries_plain
    | apply keeps_tryCatch; [|intros ?]
    | apply keeps_bind; [|intros ?]
    | match goal with
      | |- keeps _ (match ?x with _ => _ end) => destruct x
      | |- keeps _ (if ?b then _ else _) => destruct b
      end ].

Lemma wf_sameIndex w w' : searchIndex w' = searchIndex w -> staysWellFormed w w'.
Proof. intros Hi H. now rewrite Hi. Qed.

Lemma shaped_sameIndex w w' : searchIndex w' = searchIndex w -> staysShaped w w'.
Proof. intros Hi H. now rewrite Hi. Qed.

Section Serving.

Variable E : Environment.
Variable refuses : world -> CrudCall -> bool.

(** What the handlers beside those of the search controller do to the
    index: nothing, or what [indexHighlight] does. *)
Lemma crud_index (r : request) (w : world) :
  match r with
  | PostHighlight _ _ _ | GetHighlight _ _ | PatchHighlight _ _ _
  | PostBulkDelete _ _ | DeletePdf _ _ =>
      searchIndex (serve E refuses r w) = searchIndex w
      \/ exists h user w1,
           searchIndex w1 = searchIndex w
           /\ serve E refuses r w = snd (SearchController.indexHighlight E h user w1)
  | _ => True
  end.
Proof.
  destruct r as [| | | |uuid user body|user uuid|user uuid body| |user uuids|user uuid| | |];
    try exact I; cbn [serve].
  - rewrite createHighlight_run. cbv zeta.
    destruct (faulty E _ _); [left; reflexivity|].
    destruct (List.find _ (pdfs w)); [|left; reflexivity].
    destruct (refuses _ _); [left; reflexivity|].
    right. do 3 eexists. split; [|reflexivity]. reflexivity.
  - rewrite getById_run. left. reflexivity.
  - rewrite update_run. cbv zeta. left. destruct (refuses w _); reflexivity.
  - left. destruct uuids as [[|u l]|]; [reflexivity | | reflexivity].
    rewrite bulkDelete_run. destruct (refuses w _); reflexivity.
  - rewrite pdfDelete_run. cbv zeta. left.
    destruct (faulty E _ _); [reflexivity|].
    destruct (List.find _ (pdfs w)); [|reflexivity].
    destruct (refuses _ _); [reflexivity|].
    destruct (refuses _ _); reflexivity.
Qed.

Lemma serve_wellFormed (r : request) (w : world) : staysWellFormed w (serve E refuses r w).
Proof.
  pose proof (crud_index r w) as Hcrud.
  destruct r as [this user req|user req|user query|user uuid|uuid user body|user uuid
                |user uuid body|user uuid|user uuids|user uuid|h user|id user|user];
    try (destruct Hcrud as [Hsame|(h & u & w1 & Hsame & ->)];
         [ apply wf_sameIndex, Hsame
         | eapply stable_trans; [apply wf_sameIndex, Hsame | apply wf_indexHighlight] ]);
    cbn [serve].
  - unfold SearchController.search.
    apply (keeps_handler (R := staysWellFormed)). cbv zeta.
    destruct (Req.s_query req) as [q|]; [|well_formed].
    destruct (_ || _); [well_formed|].
    apply keeps_bind; [well_formed | intros n].
    destruct (n =? 0); [well_formed|].
    apply keeps_bind; [well_formed | intros results].
    unfold SearchController.resolveNames. well_formed.
  - unfold SearchController.advancedSearch.
    apply (keeps_handler (R := staysWellFormed)). cbv zeta.
    destruct (Req.a_query req) as [q|]; [|well_formed].
    destruct (_ || _); [well_formed|].
    apply keeps_bind; [well_formed | intros found].
    unfold SearchController.resolveNames. well_formed.
  - unfold SearchController.getSuggestions.
    apply (keeps_handler (R := staysWellFormed)).
    destruct query as [q|]; [|well_formed]. destruct (_ || _); well_formed.
  - unfold SearchController.indexPdf.
    apply (keeps_handler (R := staysWellFormed)). well_formed.
  - unfold HighlightController.delete.
    apply (keeps_handler (R := staysWellFormed)). well_formed.
  - apply wf_indexHighlight.
  - apply wf_removeHighlightIndex.
  - apply wf_autoIndexHighlights.
Qed.

Lemma serve_shaped (r : request) (w : world) : staysShaped w (serve E refuses r w).
Proof.
  pose proof (crud_index r w) as Hcrud.
  destruct r as [this user req|user req|user query|user uuid|uuid user body|user uuid
                |user uuid body|user uuid|user uuids|user uuid|h user|id user|user];
    try (destruct Hcrud as [Hsame|(h & u & w1 & Hsame & ->)];
         [ apply shaped_sameIndex, Hsame
         | eapply stable_trans;
           [ apply shaped_sameIndex, Hsame
           | eapply shaped_appends; [|apply appends_indexHighlight];
             intros d Hd; eapply entryOf_shaped, Hd ] ]);
    cbn [serve].
  - unfold SearchController.search.
    apply (keeps_handler (R := staysShaped)). cbv zeta. shaped.
  - apply shaped_sameData. unfold SearchController.advancedSearch.
    apply (keeps_handler (R := sameData)). cbv zeta. read_only.
  - apply shaped_sameData. unfold SearchController.getSuggestions.
    apply (keeps_handler (R := sameData)). read_only.
  - eapply shaped_appends; [|apply appends_indexPdf]. intros d [_ Hd]. exact Hd.
  - apply shaped_delete.
  - eapply shaped_appends; [|apply appends_indexHighlight].
    intros d Hd. eapply entryOf_shaped, Hd.
  - apply shaped_removeHighlightIndex.
  - apply shaped_autoIndexHighlights.
Qed.

Lemma Served_invariants (w : world) :
  Served E refuses w -> wellFormed (searchIndex w) /\ Forall entryShape (searchIndex w).
Proof.
  induction 1 as [w Hempty|w r _ [Hwf Hshape]].
  - rewrite Hempty. split; [|constructor].
    split; [intros id o; unfold unitsOf; simpl; lia | intros d []].
  - split; [apply (serve_wellFormed r w Hwf) | apply (serve_shaped r w Hshape)].
Qed.

End Serving.

(** Property X27: what the index can hold.  In every state
    the requests lead to from an empty index, in any number and order
    and whatever fails on the way: there is at most one entry per
    highlight and owner; an entry of body text has no highlight id and
    no position, and is one of the four sample sentences of [indexPdf]
    on page 1 to 4; an annotation entry has a highlight id and a
    position. *)
Theorem served_index_invariants
  (E : Environment) (refuses : world -> CrudCall -> bool) (w : world) :
  Served E refuses w ->
  (forall id owner, unitsOf id owner (searchIndex w) <= 1)
  /\ Forall entryShape (searchIndex w)
  /\ (forall d, In d (searchIndex w) -> isPdfText d = true ->
        In (SearchIndex.content d) SearchController.dummyContent
        /\ 1 <= SearchIndex.pageNumber d <= 4
        /\ SearchIndex.highlightId d = None).
Proof.
  intros HS.
  destruct (Served_invariants E refuses w HS) as [[Hone _] Hshape].
  split; [exact Hone|]. split; [exact Hshape|].
  intros d Hd Hkind. rewrite Forall_forall in Hshape. specialize (Hshape d Hd).
  unfold entryShape in Hshape. unfold isPdfText in Hkind.
  destruct (SearchIndex.contentType d); [|discriminate].
  destruct Hshape as (Hid & _ & index & Hnth & Hpage).
  split; [eapply nth_error_In, Hnth|]. split; [|exact Hid].
  assert (index < length SearchController.dummyContent) as Hlt
    by (apply nth_error_Some; congruence).
  simpl in Hlt. lia.
Qed.

Lemma served_index_invariants_witness :
  let body := {| n_pdfUuid := "pdf-1"; n_pageNumber := 2;
                 n_highlightedText := "formal methods";
                 n_position := Sample.place; n_boundingBox := Sample.box;
                 n_color := None |} in
  let w0 := Sample.state [] [] [Sample.doc1] in
  let w1 := serve Sample.env (fun _ _ => false) (PostHighlight "h9" Sample.alice body) w0 in
  let w2 := serve Sample.env (fun _ _ => false) (PostIndexPdf Sample.alice "pdf-1") w1 in
  length (searchIndex w2) = 5
  /\ (forall id owner, unitsOf id owner (searchIndex w2) <= 1)
  /\ Forall entryShape (searchIndex w2).
Proof.
  intros body w0 w1 w2.
  assert (Served Sample.env (fun _ _ => false) w2) as HS.
  { apply served_request, served_request, served_empty. reflexivity. }
  destruct (served_index_invariants Sample.env (fun _ _ => false) w2 HS) as (Hone & Hshape & _).
  split; [reflexivity|]. split; [exact Hone | exact Hshape].
Defined.
